(** * k6 load tests for the workoflow bot: a shallow embedding

    The development follows the layout of the repository:
    - [JS]: the few JavaScript notions the scripts rely on (optional
      environment variables, truthiness, object literals, [toLowerCase],
      [includes], completions, the UTF-16 code units of a string);
    - [Thresholds]: the [thresholds] object literals of the test options
      and of the environment configuration files;
    - [AuthHelper]: lib/auth-helper.js, as state passing over the token
      cache, the clock and the calls to the credential library;
    - [ActivityFactory]: lib/activity-factory.js with lib/constants.js;
    - [K6]: responses, and the events a script causes (requests, check
      results, metric samples, console lines, sleeps);
    - [Double]: the rounding of JavaScript's number arithmetic;
    - [SimpleMessage], [SimpleMessageLoadTestMode], [StressBreakpoint],
      [Smoke], [SmokeLoadTestMode]: the k6 test scripts, the ENV-driven
      and the LOAD_TEST_MODE versions;
    - [Engine]: the stage scheduler and the metrics aggregator the
      scripts run on, which are k6's and are modelled from the
      specification;
    - [Examples]: concrete inputs;
    - [Text]: splitting and joining of strings, the ANSI colours of the
      scripts;
    - [TokenInfo]: [getTokenInfo] of lib/auth-helper.js;
    - [GenerateToken]: scripts/generate-token.js, with its exit code and
      standard output;
    - [VerifySetup]: scripts/verify-setup.js, as a state monad over its
      two flags and the lines printed;
    - [EnvConfig]: config/local.env.js, config/stage.env.js and
      config/prod.env.js;
    - [StressOptions]: the stages and the think time of the stress test;
    - [Cases]: further concrete inputs.

    Definitions come first, the theorems follow. *)

From Stdlib Require Import ZArith QArith Qminmax Qround Qpower Lia Lqa Ascii String List
  Permutation.
From stdpp Require Import base option list strings gmap fin_maps pretty.

Local Open Scope string_scope.
Local Open Scope Z_scope.

(* ===================================================================== *)
(** * JavaScript notions used by the scripts *)
(* ===================================================================== *)

Module JS.

(** A string-valued property that may be absent: [__ENV.X],
    [process.env.X], [config.token].  [None] is [undefined]. *)
Definition ostring := option string.

(** [!!x] for such a value: [undefined] and the empty string are falsy. *)
Definition truthy (o : ostring) : bool :=
  match o with
  | Some s => negb (String.eqb s "")
  | None => false
  end.

(** [x || d] with a string default. *)
Definition or_else (o : ostring) (d : string) : string :=
  match o with
  | Some s => if String.eqb s "" then d else s
  | None => d
  end.

(** [`${x}`] of an optional string inside a template literal. *)
Definition template (o : ostring) : string :=
  match o with
  | Some s => s
  | None => "undefined"
  end.

(** An object literal [{ k1: v1, ..., kn: vn }]: the property
    definitions are evaluated from left to right, each one defining
    (or redefining) its key on the object under construction. *)
Definition object_literal {V} (props : list (string * V)) : gmap string V :=
  foldl (fun o kv => <[ kv.1 := kv.2 ]> o) ∅ props.

(** The values a literal's source text lists for key [k], in order. *)
Definition declared {V} (k : string) (props : list (string * V)) : list V :=
  (filter (fun kv => kv.1 = k) props).*2.

(** [String.prototype.toLowerCase] on the ASCII letters; other bytes
    are kept (no non-ASCII character lower-cases to one of the letters
    of [local], [stage] or [prod]). *)
Definition lower_ascii (c : ascii) : ascii :=
  let n := nat_of_ascii c in
  if (Nat.leb 65 n && Nat.leb n 90)%bool then ascii_of_nat (n + 32) else c.

Fixpoint toLowerCase (s : string) : string :=
  match s with
  | EmptyString => EmptyString
  | String c s' => String (lower_ascii c) (toLowerCase s')
  end.

(** [String.prototype.toUpperCase] on strings of ASCII characters,
    where only the letters a to z change.  It stands for the method
    where the text is 'local', 'stage' or 'prod', or an [ENV] that
    passed the [switch] of a test script, whose lower-case form is one
    of these three; scripts/generate-token.js, which upper-cases its
    command line argument, takes the method from outside. *)
Fixpoint toUpperCase (s : string) : string :=
  match s with
  | EmptyString => EmptyString
  | String c s' =>
      let n := nat_of_ascii c in
      String (if (Nat.leb 97 n && Nat.leb n 122)%bool
              then ascii_of_nat (n - 32) else c) (toUpperCase s')
  end.

(** [s.includes(needle)]. *)
Fixpoint includes (needle s : string) : bool :=
  String.prefix needle s ||
  match s with
  | EmptyString => false
  | String _ s' => includes needle s'
  end.

(** How a statement list ends: normally with a value, or by [throw new
    Error(message)]. *)
Inductive completion (A : Type) : Type :=
| Normal (a : A)
| Throw (message : string).
Arguments Normal {A} a.
Arguments Throw {A} message.

(** Strings stand for JavaScript strings, which are sequences of UTF-16
    code units, through their UTF-8 encoding: a character of the basic
    plane is one code unit and one to three bytes, any other character
    is two code units (a surrogate pair) and four bytes.  [units c] is
    the number of code units that begin at the byte [c]: none at a
    continuation byte. *)
Definition units (c : ascii) : nat :=
  let n := nat_of_ascii c in
  if (n <? 128)%nat then 1%nat
  else if (n <? 192)%nat then 0%nat
  else if (n <? 240)%nat then 1%nat
  else 2%nat.



(** The first code unit of the surrogate pair encoded by the four
    bytes [lead :: rest]: a lone high surrogate, written in the
    three-byte form of UTF-8. *)
Definition high_surrogate (lead : ascii) (rest : string) : string :=
  let byte (i : nat) :=
    match get i rest with
    | Some c => (nat_of_ascii c mod 64)%nat
    | None => 0%nat
    end in
  let top := ((nat_of_ascii lead mod 8) * 256 + byte 0%nat * 4 + byte 1%nat / 16)%nat in
  let high := ((top - 64) mod 1024)%nat in
  String (ascii_of_nat 237)
    (String (ascii_of_nat (160 + high / 64))
       (String (ascii_of_nat (128 + high mod 64)) EmptyString)).

(** [s.substring(0, n)]: the first [n] code units of [s].  When the
    cut falls inside a surrogate pair the result ends with the pair's
    first half. *)
Fixpoint substring_from_0 (n : nat) (s : string) : string :=
  match s with
  | EmptyString => EmptyString
  | String c s' =>
      match units c with
      | O => String c (substring_from_0 n s')
      | u =>
          if (u <=? n)%nat then String c (substring_from_0 (n - u) s')
          else if (n =? 1)%nat then high_surrogate c s'
          else EmptyString
      end
  end.

End JS.

(* ===================================================================== *)
(** * The [thresholds] object literals *)
(* ===================================================================== *)

Module Thresholds.

(** One element of a metric's threshold array: a bare expression
    string, or [{ threshold: ..., abortOnFail: ... }]. *)
Inductive ThresholdEntry : Type :=
| Expr (e : string)
| Obj (threshold : string) (abortOnFail : bool).

Definition props := list (string * list ThresholdEntry).

(** tests/simple-message.test.js, [options.thresholds] (ENV-driven
    version). *)
Definition simple_message : props :=
  [ ("http_req_failed", [Expr "rate<0.01"]);
    ("http_req_duration", [Expr "p(95)<500"]);
    ("http_req_duration", [Expr "p(99)<1000"]);
    ("errors", [Expr "rate<0.05"]) ].

(** tests/simple-message.test.js, [options.thresholds]
    (LOAD_TEST_MODE version). *)
Definition simple_message_load_test_mode : props :=
  [ ("http_req_failed", [Obj "rate<0.01" true]);
    ("http_req_duration", [Expr "p(95)<10000"]);
    ("http_req_duration", [Expr "p(99)<15000"]);
    ("errors", [Expr "rate<0.05"]) ].

(** tests/stress-breakpoint.test.js, [options.thresholds]. *)
Definition stress_breakpoint : props :=
  [ ("http_req_duration", [Obj "p(95)<10000" true]);
    ("http_req_failed", [Obj "rate<0.01" true]);
    ("errors", [Expr "rate<0.05"]) ].

(** tests/smoke.test.js, [options.thresholds]. *)
Definition smoke : props :=
  [ ("http_req_failed", [Expr "rate<0.1"]);
    ("http_req_duration", [Expr "p(95)<2000"]) ].

(** config/local.env.js, [config.thresholds]. *)
Definition local_env : props :=
  [ ("http_req_failed", [Expr "rate<0.01"]);
    ("http_req_duration", [Expr "p(95)<500"]);
    ("http_req_duration", [Expr "p(99)<1000"]) ].

(** config/stage.env.js, [config.thresholds]. *)
Definition stage_env : props :=
  [ ("http_req_failed", [Expr "rate<0.01"]);
    ("http_req_duration", [Expr "p(95)<1000"]);
    ("http_req_duration", [Expr "p(99)<2000"]) ].

(** config/prod.env.js, [config.thresholds]. *)
Definition prod_env : props :=
  [ ("http_req_failed", [Expr "rate<0.02"]);
    ("http_req_duration", [Expr "p(95)<1500"]);
    ("http_req_duration", [Expr "p(99)<3000"]) ].

(** Every thresholds literal of the repository. *)
Definition all_literals : list props :=
  [ simple_message; simple_message_load_test_mode; stress_breakpoint;
    smoke; local_env; stage_env; prod_env ].

(** The literals whose text lists [http_req_duration] twice. *)
Definition lists_two (p : props) : bool :=
  Nat.eqb (length (JS.declared "http_req_duration" p)) 2.

Definition dual_literals : list props := List.filter lists_two all_literals.

(** The thresholds k6 evaluates for a metric: the value of the
    metric's key in the evaluated object, no threshold when the key is
    absent. *)
Definition effective (metric : string) (p : props) : list ThresholdEntry :=
  default [] (JS.object_literal p !! metric).

End Thresholds.

(* ===================================================================== *)
(** * lib/auth-helper.js *)
(* ===================================================================== *)

Module AuthHelper.
Import JS.

(** A value of [tokenCache]: [{ token, expiresAt }]. *)
Record CacheEntry : Type := { token : string; expiresAt : Z }.

(** The outcome of [new MicrosoftAppCredentials(appId, appPassword)]
    followed by [await credentials.getToken()]: the promise resolves
    to a token, or the library throws an [Error] whose [message] is
    given. *)
Inductive LibOutcome : Type :=
| Resolved (tok : string)
| Rejected (message : string).

(** The credential library is a collaborator: its answer and the time
    the [await] takes depend on the credentials and the time of the
    call. *)
Record CredentialLibrary : Type := {
  getToken : string -> string -> Z -> LibOutcome;
  latency : string -> string -> Z -> Z
}.

(** The state [getBotToken] reads and writes: the module-level
    [tokenCache], the clock behind [Date.now()], the calls made to the
    credential library so far and the lines sent to [console.error]. *)
Record World : Type := {
  tokenCache : gmap string CacheEntry;
  now : Z;
  libCalls : list (string * string);
  console : list string
}.

Definition cacheKey (appId appPassword : string) : string :=
  appId ++ ":" ++ appPassword.

(** The [try] block of [getBotToken]. *)
Definition generate (lib : CredentialLibrary) (appId appPassword : string)
    (w : World) : completion string * World :=
  let settled := now w + latency lib appId appPassword (now w) in
  let calls := (libCalls w ++ [(appId, appPassword)])%list in
  match getToken lib appId appPassword (now w) with
  | Resolved tok =>
      (Normal tok,
       {| tokenCache :=
            <[ cacheKey appId appPassword :=
                 {| token := tok; expiresAt := settled + 3600000 |} ]>
              (tokenCache w);
          now := settled;
          libCalls := calls;
          console := console w |})
  | Rejected message =>
      (Throw ("Failed to generate token: " ++ message),
       {| tokenCache := tokenCache w;
          now := settled;
          libCalls := calls;
          console :=
            (console w ++
               [("Error generating Bot Framework token: " ++ message)%string])%list |})
  end.

(** [getBotToken(appId, appPassword, audience = null)]; [audience] is
    never read by the body. *)
Definition getBotToken (lib : CredentialLibrary) (appId appPassword : string)
    (w : World) : completion string * World :=
  match tokenCache w !! cacheKey appId appPassword with
  | Some cached =>
      if expiresAt cached >? now w + 60000
      then (Normal (token cached), w)
      else generate lib appId appPassword w
  | None => generate lib appId appPassword w
  end.

Definition getAuthorizationHeader (lib : CredentialLibrary)
    (appId appPassword : string) (w : World) : completion string * World :=
  match getBotToken lib appId appPassword w with
  | (Normal tok, w') => (Normal ("Bearer " ++ tok), w')
  | (Throw m, w') => (Throw m, w')
  end.

Definition clearTokenCache (w : World) : World :=
  {| tokenCache := ∅; now := now w; libCalls := libCalls w;
     console := console w |}.

(** The cache hit test of [getBotToken], as a proposition. *)
Definition fresh_entry (appId appPassword : string) (w : World) : Prop :=
  exists cached,
    tokenCache w !! cacheKey appId appPassword = Some cached /\
    now w + 60000 < expiresAt cached.

End AuthHelper.

(* ===================================================================== *)
(** * lib/constants.js and lib/activity-factory.js *)
(* ===================================================================== *)

Module ActivityFactory.
Import JS.

(** The values a property of the duck-typed [options] object may
    hold. *)
Inductive value : Type :=
| Undefined
| Null
| Bool (b : bool)
| Num (n : Z)
| Str (s : string).

#[global] Instance value_eq_dec : EqDecision value.
Proof. solve_decision. Defined.

(** Truthiness: [undefined], [null], [false], [0] and [''] are falsy. *)
Definition is_truthy (v : value) : bool :=
  match v with
  | Undefined | Null => false
  | Bool b => b
  | Num n => negb (n =? 0)
  | Str s => negb (String.eqb s "")
  end.

(** [a || b]. *)
Definition or (a b : value) : value := if is_truthy a then a else b.

(** [a === b] (no NaN among the modelled numbers). *)
Definition strict_eq (a b : value) : bool := bool_decide (a = b).

(** A destructuring default [x = d]: used only when the property is
    [undefined]. *)
Definition with_default (v d : value) : value :=
  match v with Undefined => d | _ => v end.

Module ActivityTypes.
Definition MESSAGE := "message".
Definition CONVERSATION_UPDATE := "conversationUpdate".
Definition EVENT := "event".
Definition INVOKE := "invoke".
End ActivityTypes.

Module Roles.
Definition USER := "user".
Definition BOT := "bot".
Definition CLIENT := "client".
End Roles.

Module ConversationTypes.
Definition PERSONAL := "personal".
Definition GROUP := "group".
Definition CHANNEL := "channel".
End ConversationTypes.

Module Defaults.
Definition TEXT_FORMAT := "plain".
Definition LOCALE := "en-US".
End Defaults.

(** What a property that is meant to hold an object holds: [undefined]
    (so also when the property is absent), [null], or an object.  A
    primitive value in its place reads like an object none of whose
    properties is defined. *)
Inductive slot (A : Type) : Type :=
| Absent
| IsNull
| Object (a : A).
Arguments Absent {A}.
Arguments IsNull {A}.
Arguments Object {A} a.

(** [options.from], [options.recipient], [options.conversation]. *)
Record FromOptions : Type :=
  { from_id : value; from_name : value; from_aadObjectId : value }.
Record RecipientOptions : Type :=
  { recipient_id : value; recipient_name : value }.
Record ConversationOptions : Type :=
  { conv_id : value; conv_conversationType : value; conv_tenantId : value;
    conv_teamsChannelId : value; conv_teamsTeamId : value }.

(** The [options] argument. *)
Record Options : Type := {
  opt_text : value;
  opt_from : slot FromOptions;
  opt_recipient : slot RecipientOptions;
  opt_conversation : slot ConversationOptions;
  opt_serviceUrl : value;
  opt_channelId : value;
  opt_textFormat : value;
  opt_locale : value
}.

(** The activity object that is returned. *)
Record From : Type :=
  { id : value; name : value; aadObjectId : value; role : string }.
Record Recipient : Type :=
  { rcp_id : value; rcp_name : value; rcp_role : string }.
Record Conversation : Type :=
  { cnv_id : value; conversationType : value; isGroup : bool;
    tenantId : value }.
Record ChannelData : Type :=
  { teamsChannelId : value; teamsTeamId : value; tenant : option value }.
Record Activity : Type := {
  type : string;
  act_id : string;
  timestamp : string;
  channelId : value;
  from : From;
  recipient : Recipient;
  conversation : Conversation;
  text : value;
  textFormat : value;
  locale : value;
  serviceUrl : value;
  channelData : ChannelData
}.

(** What the function reads from outside: the identifiers [uuidv4()]
    returns, call after call, and [new Date().toISOString()]. *)
Record Runtime : Type := { uuidv4 : nat -> string; isoNow : string }.

Definition type_error (object property : string) : string :=
  "Cannot read properties of " ++ object ++ " (reading '" ++ property ++ "')".

(** [createMessageActivity(options)]; [n] counts the [uuidv4()] calls
    made so far.  The object literal is evaluated top to bottom, so a
    missing [from] is reported before a missing [recipient], and that
    before a missing [conversation]; the TypeError names [undefined] or
    [null], whichever the property holds. *)
Definition createMessageActivity (rt : Runtime) (n : nat) (options : Options)
    : completion Activity * nat :=
  let channelId := with_default (opt_channelId options) (Str "msteams") in
  let textFormat := with_default (opt_textFormat options) (Str Defaults.TEXT_FORMAT) in
  let locale := with_default (opt_locale options) (Str Defaults.LOCALE) in
  let activityId := uuidv4 rt n in
  match opt_from options with
  | Absent => (Throw (type_error "undefined" "id"), S n)
  | IsNull => (Throw (type_error "null" "id"), S n)
  | Object from =>
    match opt_recipient options with
    | Absent => (Throw (type_error "undefined" "id"), S n)
    | IsNull => (Throw (type_error "null" "id"), S n)
    | Object recipient =>
      match opt_conversation options with
      | Absent => (Throw (type_error "undefined" "id"), S n)
      | IsNull => (Throw (type_error "null" "id"), S n)
      | Object conversation =>
        let fresh_id := negb (is_truthy (conv_id conversation)) in
        (Normal
           {| type := ActivityTypes.MESSAGE;
              act_id := activityId;
              timestamp := isoNow rt;
              channelId := channelId;
              from :=
                {| id := from_id from;
                   name := from_name from;
                   aadObjectId := from_aadObjectId from;
                   role := Roles.USER |};
              recipient :=
                {| rcp_id := recipient_id recipient;
                   rcp_name := or (recipient_name recipient) (Str "Bot");
                   rcp_role := Roles.BOT |};
              conversation :=
                {| cnv_id :=
                     if fresh_id
                     then Str ("test-conversation-" ++ uuidv4 rt (S n))
                     else conv_id conversation;
                   conversationType :=
                     or (conv_conversationType conversation)
                        (Str ConversationTypes.PERSONAL);
                   isGroup :=
                     strict_eq (conv_conversationType conversation)
                               (Str ConversationTypes.GROUP)
                     || strict_eq (conv_conversationType conversation)
                                  (Str ConversationTypes.CHANNEL);
                   tenantId := conv_tenantId conversation |};
              text := opt_text options;
              textFormat := textFormat;
              locale := locale;
              serviceUrl := opt_serviceUrl options;
              channelData :=
                {| teamsChannelId := conv_teamsChannelId conversation;
                   teamsTeamId := conv_teamsTeamId conversation;
                   tenant :=
                     if is_truthy (conv_tenantId conversation)
                     then Some (conv_tenantId conversation) else None |} |},
         if fresh_id then S (S n) else S n)
      end
    end
  end.

(** The [config] argument of [createTestActivity] (the shape of
    config/*.env.js). *)
Record TestUser : Type :=
  { user_id : value; user_name : value; user_aadObjectId : value }.
Record Credentials : Type :=
  { cred_appId : value; cred_appPassword : value; cred_tenantId : value }.
Record Config : Type := {
  testUser : slot TestUser;
  credentials : slot Credentials;
  cfg_serviceUrl : value
}.

(** [createTestActivity(config, message = 'test')]. *)
Definition createTestActivity (rt : Runtime) (n : nat) (config : Config)
    (message : value) : completion Activity * nat :=
  match testUser config with
  | Absent => (Throw (type_error "undefined" "id"), n)
  | IsNull => (Throw (type_error "null" "id"), n)
  | Object user =>
    match credentials config with
    | Absent => (Throw (type_error "undefined" "appId"), n)
    | IsNull => (Throw (type_error "null" "appId"), n)
    | Object creds =>
      createMessageActivity rt (S n)
        {| opt_text := with_default message (Str "test");
           opt_from :=
             Object {| from_id := user_id user;
                     from_name := user_name user;
                     from_aadObjectId := user_aadObjectId user |};
           opt_recipient :=
             Object {| recipient_id := cred_appId creds;
                     recipient_name := Str "Workoflow Bot" |};
           opt_conversation :=
             Object {| conv_id := Str ("test-conversation-" ++ uuidv4 rt n);
                     conv_conversationType := Str ConversationTypes.PERSONAL;
                     conv_tenantId := cred_tenantId creds;
                     conv_teamsChannelId := Undefined;
                     conv_teamsTeamId := Undefined |};
           opt_serviceUrl := cfg_serviceUrl config;
           opt_channelId := Undefined;
           opt_textFormat := Undefined;
           opt_locale := Undefined |}
    end
  end.

End ActivityFactory.

(* ===================================================================== *)
(** * What k6 hands to a script, and what a script does to the outside *)
(* ===================================================================== *)

Module K6.
Import JS.

(** The part of an HTTP response the scripts read: [r.status],
    [r.body] ([None] is [null]) and [r.timings.duration] in
    milliseconds. *)
Record Response : Type :=
  { status : Z; body : option string; duration : Q }.

(** The argument of [metric.add]. *)
Inductive MetricValue : Type :=
| BoolValue (b : bool)
| NumValue (q : Q).

(** The custom metric classes of k6/metrics the scripts instantiate:
    [new Rate(name)], [new Trend(name)], [new Counter(name)]. *)
Inductive MetricKind : Type := RateKind | TrendKind | CounterKind.

(** The activity object the test scripts build inline and send as the
    JSON payload. *)
Record Payload : Type := {
  type : string;
  id : string;
  timestamp : string;
  channelId : string;
  from : ActivityFactory.From;
  recipient : ActivityFactory.Recipient;
  conversation : ActivityFactory.Conversation;
  text : string;
  textFormat : string;
  locale : string;
  serviceUrl : string
}.

(** The observable actions of a script, in the order they happen. *)
Inductive Event : Type :=
| ConsoleLog (msg : string)
| ConsoleWarn (msg : string)
| ConsoleError (msg : string)
| HttpGet (url : string)
| HttpPost (url : string) (payload : Payload)
           (headers : gmap string string) (tags : gmap string string)
| Check (name : string) (passed : bool)
| MetricAdd (metric : string) (v : MetricValue)
| Sleep (seconds : Q).

(** What one iteration reads from its surroundings besides [__ENV]:
    the successive results of [Date.now()], the text of
    [new Date().toISOString()], the text of
    [Math.random().toString(36).substring(7)], the value of
    [Math.random()], [__VU], and the decimal rendering [x.toFixed(2)]. *)
Record Runtime : Type := {
  dateNow : nat -> Z;
  isoNow : string;
  random36 : string;
  random : Q;
  vu : Z;
  toFixed2 : Q -> string
}.

Definition of_ostring (o : ostring) : ActivityFactory.value :=
  match o with
  | Some s => ActivityFactory.Str s
  | None => ActivityFactory.Undefined
  end.

(** [`${n}`] for an integer. *)
Definition show (n : Z) : string := pretty n.

(** [x < n] for a duration and an integer literal. *)
Definition lt_ms (x : Q) (n : Z) : bool := negb (Qle_bool (inject_Z n) x).

(** [check(r, { name: predicate, ... })]: every predicate is run, in
    order, each result is reported, and the value is true when all of
    them passed.  An exception thrown by a predicate escapes. *)
Fixpoint check (r : Response)
    (checks : list (string * (Response -> completion bool)))
    : completion bool * list Event :=
  match checks with
  | [] => (Normal true, [])
  | (name, predicate) :: rest =>
      match predicate r with
      | Throw m => (Throw m, [])
      | Normal passed =>
          match check r rest with
          | (Normal others, evs) => (Normal (passed && others), Check name passed :: evs)
          | (Throw m, evs) => (Throw m, Check name passed :: evs)
          end
      end
  end.

(** [body.includes(needle)], a [TypeError] on [null]. *)
Definition body_includes (b : option string) (needle : string) : completion bool :=
  match b with
  | Some s => Normal (includes needle s)
  | None => Throw "Cannot read properties of null (reading 'includes')"
  end.

(** [s.replace(pattern, replacement)] with a string pattern: the first
    occurrence only. *)
Fixpoint replace (pattern replacement s : string) : string :=
  if String.prefix pattern s
  then replacement ++ substring (String.length pattern)
                                (String.length s - String.length pattern) s
  else match s with
       | EmptyString => EmptyString
       | String c s' => String c (replace pattern replacement s')
       end.

(** ['─'.repeat(60)]. *)
Fixpoint repeat_string (s : string) (n : nat) : string :=
  match n with
  | O => EmptyString
  | S n' => s ++ repeat_string s n'
  end.

Definition rule : string := repeat_string "─" 60.

(** An event reported by [check]. *)
Definition is_check (e : Event) : Prop :=
  exists name passed, e = Check name passed.

(** Whether an event is a request. *)
Definition is_request (e : Event) : bool :=
  match e with
  | HttpGet _ | HttpPost _ _ _ _ => true
  | _ => false
  end.

(** The values added to the metric [m], in order. *)
Definition added (m : string) (evs : list Event) : list MetricValue :=
  omap (fun e => match e with
                 | MetricAdd m' v => if String.eqb m m' then Some v else None
                 | _ => None
                 end) evs.

(** The headers of the requests posted. *)
Definition posted_headers (evs : list Event) : list (gmap string string) :=
  omap (fun e => match e with
                 | HttpPost _ _ h _ => Some h
                 | _ => None
                 end) evs.

End K6.

(* ===================================================================== *)
(** * The arithmetic of JavaScript numbers *)
(* ===================================================================== *)

Module Double.

(** The numbers of the scripts are IEEE 754 binary64 numbers.  Each is
    a rational, and an arithmetic operation returns the exact result
    rounded to the nearest double, ties to the one whose last bit is
    even.  [round] is that rounding for magnitudes below 2^1024, where
    the result is finite; the unit in the last place of [q] is 2 to
    the [ulp_exponent q], which is 52 below the exponent of [q] and
    never less than -1074, that of the subnormal numbers. *)

Definition pow2 (k : Z) : Q := Qpower (inject_Z 2) k.

(** The integer [e] with [2^e <= q < 2^(e+1)], for [q > 0]. *)
Definition exponent (q : Q) : Z :=
  let e := Z.log2 (Qnum q) - Z.log2 (Zpos (Qden q)) in
  if Qle_bool (pow2 e) q then e else e - 1.

(** The nearest integer, a tie going to the even one. *)
Definition nearest_even (x : Q) : Z :=
  let f := Qfloor x in
  match Qcompare (Qminus x (inject_Z f)) (Qmake 1 2) with
  | Lt => f
  | Gt => f + 1
  | Eq => if Z.even f then f else f + 1
  end.

Definition round_to (k : Z) (q : Q) : Q :=
  Qmult (inject_Z (nearest_even (Qdiv q (pow2 k)))) (pow2 k).

Definition ulp_exponent (q : Q) : Z := Z.max (exponent q - 52) (-1074).

Definition round (q : Q) : Q :=
  match Qcompare q 0%Q with
  | Eq => 0%Q
  | Gt => round_to (ulp_exponent q) q
  | Lt => Qopp (round_to (ulp_exponent (Qopp q)) (Qopp q))
  end.

(** [a * b] and [a + b] on doubles. *)
Definition mul (a b : Q) : Q := round (Qmult a b).
Definition add (a b : Q) : Q := round (Qplus a b).

End Double.

(* ===================================================================== *)
(** * tests/simple-message.test.js (ENV-driven version) *)
(* ===================================================================== *)

Module SimpleMessage.
Import JS K6.

Record Config : Type := {
  endpoint : ostring;
  appId : ostring;
  tenantId : ostring;
  token : ostring
}.

(** [const ENV = __ENV.ENV || 'local']. *)
Definition ENV (env : gmap string string) : string :=
  or_else (env !! "ENV") "local".

(** The [switch (ENV.toLowerCase())] statement. *)
Definition switch_env (env : gmap string string) : completion Config :=
  let lower := toLowerCase (ENV env) in
  if String.eqb lower "local" then
    Normal {| endpoint :=
                Some (or_else (env !! "LOCAL_BOT_ENDPOINT")
                              "http://localhost:3978/api/messages");
              appId := env !! "LOCAL_MICROSOFT_APP_ID";
              tenantId := env !! "LOCAL_MICROSOFT_APP_TENANT_ID";
              token := env !! "BOT_TOKEN" |}
  else if String.eqb lower "stage" then
    Normal {| endpoint := env !! "STAGE_BOT_ENDPOINT";
              appId := env !! "STAGE_MICROSOFT_APP_ID";
              tenantId := env !! "STAGE_MICROSOFT_APP_TENANT_ID";
              token := env !! "BOT_TOKEN" |}
  else if String.eqb lower "prod" then
    Normal {| endpoint := env !! "PROD_BOT_ENDPOINT";
              appId := env !! "PROD_MICROSOFT_APP_ID";
              tenantId := env !! "PROD_MICROSOFT_APP_TENANT_ID";
              token := env !! "BOT_TOKEN" |}
  else Throw ("Unknown environment: " ++ ENV env).

Definition no_token_warning : string :=
  "⚠️  No BOT_TOKEN provided. Run `npm run generate-token` to generate one.".

(** The init code: the switch, then the validation of the
    configuration. *)
Definition init (env : gmap string string) : completion Config * list Event :=
  match switch_env env with
  | Throw m => (Throw m, [])
  | Normal config =>
      if negb (truthy (endpoint config))
      then (Throw ("Missing bot endpoint for environment: " ++ ENV env), [])
      else (Normal config,
            if negb (truthy (token config))
            then [ConsoleWarn no_token_warning] else [])
  end.

(** [const errorRate = new Rate('errors')]. *)
Definition metrics : list (string * MetricKind) := [ ("errors", RateKind) ].

(** [options.stages], durations in milliseconds. *)
Definition stages : list (Z * Z) :=
  [ (10000, 5); (30000, 5); (10000, 0) ].

(** [createActivity(text = 'test')]. *)
Definition createActivity (env : gmap string string) (config : Config)
    (rt : Runtime) (text : string) : Payload :=
  let activityId := "load-test-" ++ show (dateNow rt 0) ++ "-" ++ random36 rt in
  let conversationId := "test-conversation-" ++ show (dateNow rt 1) in
  {| type := "message";
     id := activityId;
     timestamp := isoNow rt;
     channelId := "msteams";
     from :=
       {| ActivityFactory.id :=
            ActivityFactory.Str (or_else (env !! "TEST_USER_ID") "29:load-test-user");
          ActivityFactory.name :=
            ActivityFactory.Str (or_else (env !! "TEST_USER_NAME") "Load Test User");
          ActivityFactory.aadObjectId :=
            ActivityFactory.Str (or_else (env !! "TEST_USER_AAD_OBJECT_ID")
                                         "45908692-019e-4436-810c-b417f58f5f4f");
          ActivityFactory.role := "user" |};
     recipient :=
       {| ActivityFactory.rcp_id := of_ostring (appId config);
          ActivityFactory.rcp_name := ActivityFactory.Str "Workoflow Bot";
          ActivityFactory.rcp_role := "bot" |};
     conversation :=
       {| ActivityFactory.cnv_id := ActivityFactory.Str conversationId;
          ActivityFactory.conversationType := ActivityFactory.Str "personal";
          ActivityFactory.isGroup := false;
          ActivityFactory.tenantId := of_ostring (tenantId config) |};
     text := text;
     textFormat := "plain";
     locale := "en-US";
     serviceUrl :=
       or_else (env !! "SERVICE_URL") "https://smba.trafficmanager.net/teams" |}.

(** The [headers] object of one iteration. *)
Definition request_headers (config : Config) : gmap string string :=
  let headers := object_literal [("Content-Type", "application/json")] in
  if truthy (token config)
  then <[ "Authorization" := "Bearer " ++ template (token config) ]> headers
  else headers.

Definition checks : list (string * (Response -> completion bool)) :=
  [ ("status is 200 or 202",
     fun r => Normal ((status r =? 200) || (status r =? 202)));
    ("response time < 1000ms",
     fun r => Normal (lt_ms (duration r) 1000));
    ("no error in response",
     fun r => if negb (truthy (body r)) then Normal true
              else match body_includes (body r) "error" with
                   | Normal b => Normal (negb b)
                   | Throw m => Throw m
                   end) ].

(** The value of [success] for a response: the result of [check], an
    iteration whose [check] throws having none. *)
Definition success (r : Response) : bool :=
  match (check r checks).1 with
  | Normal passed => passed
  | Throw _ => false
  end.

Definition failure_message (r : Response) : string :=
  "Request failed: " ++ show (status r) ++ " - " ++
  match body r with Some b => b | None => "null" end.

(** The default function, run with the response [http.post] returns. *)
Definition default (env : gmap string string) (config : Config)
    (rt : Runtime) (response : Response) : completion unit * list Event :=
  let activity := createActivity env config rt (or_else (env !! "TEST_MESSAGE") "test") in
  let post :=
    HttpPost (template (endpoint config)) activity (request_headers config)
             (object_literal [("name", "SendMessage")]) in
  match check response checks with
  | (Throw m, evs) => (Throw m, post :: evs)
  | (Normal success, evs) =>
      (Normal tt,
       post :: evs ++
       [MetricAdd "errors" (BoolValue (negb success))] ++
       (if negb success then [ConsoleError (failure_message response)] else []) ++
       [Sleep (inject_Z 1)])%list
  end.

(** [setup()]. *)
Definition setup (env : gmap string string) (config : Config) : list Event :=
  [ ConsoleLog (String "010" "🚀 Starting load test for " ++
                toUpperCase (ENV env) ++ " environment");
    ConsoleLog ("📍 Endpoint: " ++ template (endpoint config));
    ConsoleLog ("👤 App ID: " ++
                (if truthy (appId config) then template (appId config)
                 else "Not configured (unauthenticated mode)"));
    ConsoleLog ("🔑 Token: " ++
                (if truthy (token config) then "Provided ✓"
                 else "Not required (unauthenticated mode) ✓"));
    ConsoleLog rule ].

(** [teardown(data)]; [elapsed] is [new Date() - data.startTime] in
    seconds. *)
Definition teardown (rt : Runtime) (elapsed : Q) : list Event :=
  [ ConsoleLog rule;
    ConsoleLog ("✅ Test completed in " ++ toFixed2 rt elapsed ++ "s") ].

(** The events of the iterations, one per input; an iteration that
    throws ends there and the next one starts. *)
Definition iterations (env : gmap string string) (config : Config)
    (inputs : list (Runtime * Response)) : list Event :=
  flat_map (fun i => (default env config i.1 i.2).2) inputs.

(** A whole run of the script: init code, [setup], the iterations,
    [teardown].  An exception in the init code ends the run there. *)
Definition run (env : gmap string string) (inputs : list (Runtime * Response))
    (last : Runtime) (elapsed : Q) : completion unit * list Event :=
  match init env with
  | (Throw m, evs) => (Throw m, evs)
  | (Normal config, evs) =>
      (Normal tt,
       evs ++ setup env config ++ iterations env config inputs ++
       teardown last elapsed)%list
  end.

End SimpleMessage.

(* ===================================================================== *)
(** * tests/simple-message.test.js (LOAD_TEST_MODE version) *)
(* ===================================================================== *)

Module SimpleMessageLoadTestMode.
Import JS K6.

Definition BOT_ENDPOINT (env : gmap string string) : string :=
  or_else (env !! "BOT_ENDPOINT") "http://localhost:3978/api/messages".

(** The shape shared by the inline [createActivity] of the
    LOAD_TEST_MODE scripts; only the identifiers, the default user and
    the tenant differ. *)
Definition activity (env : gmap string string) (rt : Runtime)
    (activityId conversationId userId userName : string)
    (tenant : ActivityFactory.value) (text : string) : Payload :=
  {| type := "message";
     id := activityId;
     timestamp := isoNow rt;
     channelId := "msteams";
     from :=
       {| ActivityFactory.id :=
            ActivityFactory.Str (or_else (env !! "TEST_USER_ID") userId);
          ActivityFactory.name :=
            ActivityFactory.Str (or_else (env !! "TEST_USER_NAME") userName);
          ActivityFactory.aadObjectId :=
            ActivityFactory.Str (or_else (env !! "TEST_USER_AAD_OBJECT_ID")
                                         "45908692-019e-4436-810c-b417f58f5f4f");
          ActivityFactory.role := "user" |};
     recipient :=
       {| ActivityFactory.rcp_id := ActivityFactory.Str "workoflow-bot";
          ActivityFactory.rcp_name := ActivityFactory.Str "Workoflow Bot";
          ActivityFactory.rcp_role := "bot" |};
     conversation :=
       {| ActivityFactory.cnv_id := ActivityFactory.Str conversationId;
          ActivityFactory.conversationType := ActivityFactory.Str "personal";
          ActivityFactory.isGroup := false;
          ActivityFactory.tenantId := tenant |};
     text := text;
     textFormat := "plain";
     locale := "en-US";
     serviceUrl :=
       or_else (env !! "SERVICE_URL") "https://smba.trafficmanager.net/teams" |}.

Definition createActivity (env : gmap string string) (rt : Runtime)
    (text : string) : Payload :=
  activity env rt
    ("load-test-" ++ show (dateNow rt 0) ++ "-" ++ random36 rt)
    ("test-conversation-" ++ show (dateNow rt 1))
    "29:load-test-user" "Load Test User"
    (ActivityFactory.Str "ae6f26a3-6f27-4ed6-a3a8-800c3226fb79") text.

Definition request_headers (env : gmap string string) : gmap string string :=
  object_literal [ ("Content-Type", "application/json");
                   ("x-api-key", or_else (env !! "LOAD_TEST_API_KEY") "") ].

Definition checks : list (string * (Response -> completion bool)) :=
  [ ("status is 200 or 202",
     fun r => Normal ((status r =? 200) || (status r =? 202)));
    ("response time < 10s",
     fun r => Normal (lt_ms (duration r) 10000)) ].

(** The value of [success] for a response. *)
Definition success (r : Response) : bool :=
  match (check r checks).1 with
  | Normal passed => passed
  | Throw _ => false
  end.

Definition default (env : gmap string string) (rt : Runtime)
    (response : Response) : completion unit * list Event :=
  let activity := createActivity env rt (or_else (env !! "TEST_MESSAGE") "test") in
  let post :=
    HttpPost (BOT_ENDPOINT env) activity (request_headers env)
             (object_literal [("name", "SendMessage")]) in
  match check response checks with
  | (Throw m, evs) => (Throw m, post :: evs)
  | (Normal success, evs) =>
      (Normal tt,
       post :: evs ++
       [MetricAdd "errors" (BoolValue (negb success))] ++
       (if negb success
        then [ConsoleError (SimpleMessage.failure_message response)] else []) ++
       [Sleep (inject_Z 1)])%list
  end.

End SimpleMessageLoadTestMode.

(* ===================================================================== *)
(** * tests/stress-breakpoint.test.js *)
(* ===================================================================== *)

Module StressBreakpoint.
Import JS K6.

(** The custom metrics the script registers. *)
Definition metrics : list (string * MetricKind) :=
  [ ("errors", RateKind);
    ("success_rate", RateKind);
    ("response_time_trend", TrendKind);
    ("total_requests", CounterKind) ].

Definition createActivity (env : gmap string string) (rt : Runtime)
    (text : string) : Payload :=
  SimpleMessageLoadTestMode.activity env rt
    ("stress-" ++ show (dateNow rt 0) ++ "-" ++ random36 rt)
    ("stress-conversation-" ++ show (dateNow rt 1) ++ "-" ++ show (vu rt))
    "29:load-test-user" "Load Test User"
    (ActivityFactory.Str "ae6f26a3-6f27-4ed6-a3a8-800c3226fb79") text.

Definition getCurrentPhase (rt : Runtime) : string :=
  let vus := vu rt in
  if vus <=? 5 then "phase1-5vu"
  else if vus <=? 10 then "phase2-10vu"
  else if vus <=? 25 then "phase3-25vu"
  else if vus <=? 50 then "phase4-50vu"
  else if vus <=? 75 then "phase5-75vu"
  else if vus <=? 100 then "phase6-100vu"
  else if vus <=? 150 then "phase7-150vu"
  else "phase8-200vu".

Definition failure_message (phase : string) (r : Response) : string :=
  "[" ++ phase ++ "] Request failed: " ++ show (status r) ++ " - " ++
  match body r with
  | Some b => substring_from_0 200 b
  | None => "undefined"
  end.

Definition default (env : gmap string string) (rt : Runtime)
    (response : Response) : completion unit * list Event :=
  let phase := getCurrentPhase rt in
  let activity := createActivity env rt (or_else (env !! "TEST_MESSAGE") "stress test") in
  let post :=
    HttpPost (SimpleMessageLoadTestMode.BOT_ENDPOINT env) activity
             (SimpleMessageLoadTestMode.request_headers env)
             (object_literal [("name", "SendMessage"); ("phase", phase)]) in
  let tracked :=
    [ MetricAdd "total_requests" (NumValue (inject_Z 1));
      MetricAdd "response_time_trend" (NumValue (duration response)) ] in
  match check response SimpleMessageLoadTestMode.checks with
  | (Throw m, evs) => (Throw m, post :: tracked ++ evs)%list
  | (Normal success, evs) =>
      (Normal tt,
       post :: tracked ++ evs ++
       [ MetricAdd "success_rate" (BoolValue success);
         MetricAdd "errors" (BoolValue (negb success)) ] ++
       (if negb success then [ConsoleError (failure_message phase response)] else []) ++
       [Sleep (Double.add (Double.mul (random rt) (Qmake 1 2)) (Qmake 1 2))])%list
  end.

Definition iterations (env : gmap string string)
    (inputs : list (Runtime * Response)) : list Event :=
  flat_map (fun i => (default env i.1 i.2).2) inputs.

End StressBreakpoint.

(* ===================================================================== *)
(** * tests/smoke.test.js (ENV-driven version) *)
(* ===================================================================== *)

Module Smoke.
Import JS K6.

Record Config : Type := {
  endpoint : ostring;
  healthEndpoint : ostring;
  appId : ostring;
  tenantId : ostring;
  token : ostring
}.

Definition ENV (env : gmap string string) : string :=
  or_else (env !! "ENV") "local".

Definition to_health (url : string) : string :=
  replace "/api/messages" "/api/health" url.

Definition switch_env (env : gmap string string) : completion Config :=
  let lower := toLowerCase (ENV env) in
  if String.eqb lower "local" then
    Normal {| endpoint :=
                Some (or_else (env !! "LOCAL_BOT_ENDPOINT")
                              "http://localhost:3978/api/messages");
              healthEndpoint :=
                Some (if truthy (env !! "LOCAL_BOT_ENDPOINT")
                      then to_health (template (env !! "LOCAL_BOT_ENDPOINT"))
                      else "http://localhost:3978/api/health");
              appId := env !! "LOCAL_MICROSOFT_APP_ID";
              tenantId := env !! "LOCAL_MICROSOFT_APP_TENANT_ID";
              token := env !! "BOT_TOKEN" |}
  else if String.eqb lower "stage" then
    Normal {| endpoint := env !! "STAGE_BOT_ENDPOINT";
              healthEndpoint := to_health <$> env !! "STAGE_BOT_ENDPOINT";
              appId := env !! "STAGE_MICROSOFT_APP_ID";
              tenantId := env !! "STAGE_MICROSOFT_APP_TENANT_ID";
              token := env !! "BOT_TOKEN" |}
  else if String.eqb lower "prod" then
    Normal {| endpoint := env !! "PROD_BOT_ENDPOINT";
              healthEndpoint := to_health <$> env !! "PROD_BOT_ENDPOINT";
              appId := env !! "PROD_MICROSOFT_APP_ID";
              tenantId := env !! "PROD_MICROSOFT_APP_TENANT_ID";
              token := env !! "BOT_TOKEN" |}
  else Throw ("Unknown environment: " ++ ENV env).

Definition createActivity (env : gmap string string) (config : Config)
    (rt : Runtime) (text : string) : Payload :=
  {| type := "message";
     id := "smoke-test-" ++ show (dateNow rt 0);
     timestamp := isoNow rt;
     channelId := "msteams";
     from :=
       {| ActivityFactory.id :=
            ActivityFactory.Str (or_else (env !! "TEST_USER_ID") "29:smoke-test-user");
          ActivityFactory.name :=
            ActivityFactory.Str (or_else (env !! "TEST_USER_NAME") "Smoke Test User");
          ActivityFactory.aadObjectId :=
            ActivityFactory.Str (or_else (env !! "TEST_USER_AAD_OBJECT_ID")
                                         "45908692-019e-4436-810c-b417f58f5f4f");
          ActivityFactory.role := "user" |};
     recipient :=
       {| ActivityFactory.rcp_id := of_ostring (appId config);
          ActivityFactory.rcp_name := ActivityFactory.Str "Workoflow Bot";
          ActivityFactory.rcp_role := "bot" |};
     conversation :=
       {| ActivityFactory.cnv_id :=
            ActivityFactory.Str ("smoke-conversation-" ++ show (dateNow rt 1));
          ActivityFactory.conversationType := ActivityFactory.Str "personal";
          ActivityFactory.isGroup := false;
          ActivityFactory.tenantId := of_ostring (tenantId config) |};
     text := text;
     textFormat := "plain";
     locale := "en-US";
     serviceUrl :=
       or_else (env !! "SERVICE_URL") "https://smba.trafficmanager.net/teams" |}.

(** [params.headers] of the message request. *)
Definition request_headers (config : Config) : gmap string string :=
  object_literal
    [ ("Content-Type", "application/json");
      ("Authorization",
       if truthy (token config) then "Bearer " ++ template (token config) else "") ].

Definition health_check (config : Config) (healthResponse : Response)
    : list Event :=
  if truthy (healthEndpoint config) then
    let healthOk := status healthResponse =? 200 in
    [ ConsoleLog "Testing health endpoint...";
      HttpGet (template (healthEndpoint config));
      Check "health endpoint is accessible" healthOk;
      if healthOk then ConsoleLog "✓ Health check passed"
      else ConsoleWarn ("⚠ Health check returned: " ++ show (status healthResponse)) ]
  else [].

Definition checks : list (string * (Response -> completion bool)) :=
  [ ("endpoint is reachable", fun r => Normal (negb (status r =? 0)));
    ("status is 200 or 202",
     fun r => Normal ((status r =? 200) || (status r =? 202)));
    ("status is not 401 (auth OK)", fun r => Normal (negb (status r =? 401)));
    ("status is not 403 (forbidden)", fun r => Normal (negb (status r =? 403)));
    ("status is not 500 (server error)", fun r => Normal (negb (status r =? 500)));
    ("response time < 5s", fun r => Normal (lt_ms (duration r) 5000)) ].

Definition body_text (r : Response) : string :=
  match body r with Some b => b | None => "null" end.

Definition report_status (r : Response) : list Event :=
  if status r =? 401 then
    [ConsoleError "❌ Authentication failed - Check your BOT_TOKEN"]
  else if status r =? 403 then
    [ConsoleError "❌ Forbidden - Check bot permissions and credentials"]
  else if status r =? 404 then
    [ConsoleError "❌ Not Found - Check the endpoint URL"]
  else if status r >=? 500 then
    [ ConsoleError "❌ Server error - Check bot application logs";
      ConsoleError ("Response body: " ++ body_text r) ]
  else if (status r =? 200) || (status r =? 202) then
    [ConsoleLog "✓ Message sent successfully"]
  else
    [ ConsoleWarn ("⚠ Unexpected status: " ++ show (status r));
      ConsoleWarn ("Response body: " ++ body_text r) ].

Definition default (env : gmap string string) (config : Config) (rt : Runtime)
    (healthResponse response : Response) : completion unit * list Event :=
  let intro :=
    [ ConsoleLog (String "010" "🔍 Running smoke test for " ++
                  toUpperCase (ENV env) ++ " environment");
      ConsoleLog ("📍 Endpoint: " ++ template (endpoint config));
      ConsoleLog rule ] in
  let post :=
    [ ConsoleLog "Testing bot message endpoint...";
      HttpPost (template (endpoint config))
               (createActivity env config rt "smoke test")
               (request_headers config) ∅ ] in
  match check response checks with
  | (Throw m, evs) =>
      (Throw m, intro ++ health_check config healthResponse ++ post ++ evs)%list
  | (Normal passed, evs) =>
      (Normal tt,
       intro ++ health_check config healthResponse ++ post ++ evs ++
       [ ConsoleLog ("Response status: " ++ show (status response));
         ConsoleLog ("Response time: " ++ toFixed2 rt (duration response) ++ "ms") ] ++
       report_status response ++
       (if negb passed
        then [ConsoleError "❌ Some checks failed - review the output above"]
        else []) ++
       [ConsoleLog rule] ++
       (if negb (truthy (token config))
        then [ConsoleWarn (String "010"
                "⚠️  No BOT_TOKEN provided. Run `npm run generate-token` first.")]
        else []) ++
       [ ConsoleLog (String "010"
           "💡 If smoke test passes, you can run full load tests:");
         ConsoleLog ("   npm run test:" ++ ENV env ++ String "010" "") ])%list
  end.

End Smoke.

(* ===================================================================== *)
(** * tests/smoke.test.js (LOAD_TEST_MODE version) *)
(* ===================================================================== *)

Module SmokeLoadTestMode.
Import JS K6.

Definition BOT_ENDPOINT (env : gmap string string) : string :=
  or_else (env !! "BOT_ENDPOINT") "http://localhost:3978/api/messages".

Definition HEALTH_ENDPOINT (env : gmap string string) : string :=
  replace "/api/messages" "/api/health" (BOT_ENDPOINT env).

Definition createActivity (env : gmap string string) (rt : Runtime)
    (text : string) : Payload :=
  SimpleMessageLoadTestMode.activity env rt
    ("smoke-test-" ++ show (dateNow rt 0))
    ("smoke-conversation-" ++ show (dateNow rt 1))
    "29:smoke-test-user" "Smoke Test User" ActivityFactory.Undefined text.

Definition request_headers : gmap string string :=
  object_literal [("Content-Type", "application/json")].

Definition checks : list (string * (Response -> completion bool)) :=
  [ ("endpoint is reachable", fun r => Normal (negb (status r =? 0)));
    ("status is 200 or 202",
     fun r => Normal ((status r =? 200) || (status r =? 202)));
    ("response time < 5s", fun r => Normal (lt_ms (duration r) 5000)) ].

Definition report_status (r : Response) : list Event :=
  if (status r =? 200) || (status r =? 202) then
    [ConsoleLog "✓ Message sent successfully"]
  else if status r =? 404 then
    [ConsoleError "❌ Not Found - Check the endpoint URL"]
  else if status r >=? 500 then
    [ ConsoleError "❌ Server error - Check bot application logs";
      ConsoleError ("Response body: " ++ Smoke.body_text r) ]
  else
    [ ConsoleWarn ("⚠ Unexpected status: " ++ show (status r));
      ConsoleWarn ("Response body: " ++ Smoke.body_text r) ].

Definition default (env : gmap string string) (rt : Runtime)
    (healthResponse response : Response) : completion unit * list Event :=
  let healthOk := status healthResponse =? 200 in
  let before :=
    [ ConsoleLog (String "010" "🔍 Running smoke test");
      ConsoleLog ("📍 Endpoint: " ++ BOT_ENDPOINT env);
      ConsoleLog rule;
      ConsoleLog "Testing health endpoint...";
      HttpGet (HEALTH_ENDPOINT env);
      Check "health endpoint is accessible" healthOk;
      if healthOk then ConsoleLog "✓ Health check passed"
      else ConsoleWarn ("⚠ Health check returned: " ++ show (status healthResponse));
      ConsoleLog "Testing bot message endpoint...";
      HttpPost (BOT_ENDPOINT env) (createActivity env rt "smoke test")
               request_headers ∅ ] in
  match check response checks with
  | (Throw m, evs) => (Throw m, before ++ evs)%list
  | (Normal passed, evs) =>
      (Normal tt,
       before ++ evs ++
       [ ConsoleLog ("Response status: " ++ show (status response));
         ConsoleLog ("Response time: " ++ toFixed2 rt (duration response) ++ "ms") ] ++
       report_status response ++
       (if negb passed
        then [ConsoleError "❌ Some checks failed - review the output above"]
        else []) ++
       [ ConsoleLog rule;
         ConsoleLog (String "010"
           "✓ Running in LOAD_TEST_MODE (no authentication required)");
         ConsoleLog (String "010"
           "💡 If smoke test passes, you can run full load tests:");
         ConsoleLog ("   npm test" ++ String "010" "") ])%list
  end.

End SmokeLoadTestMode.

(* ===================================================================== *)
(** * The load-generation engine the scripts run on *)
(* ===================================================================== *)

Module Engine.

(** ** Stage scheduler (specification, section 4.1) *)

(** Modelled from the spec: the StageSpec element
    [{duration: time-span, target: non-negative integer}]; the
    scheduler is not part of the repository, only the [options.stages]
    it reads are.  Durations and elapsed times are in milliseconds. *)
Record Stage : Type := { duration : Z; target : Z }.

Definition of_options (stages : list (Z * Z)) : list Stage :=
  map (fun s => {| duration := s.1; target := s.2 |}) stages.

(** Modelled from the spec: "rounded to the nearest non-negative
    integer", for the fraction [num / den] with [0 < den]; a tie goes
    up. *)
Definition round_nearest (num den : Z) : Z :=
  Z.max 0 ((2 * num + den) / (2 * den)).

(** Modelled from the spec: the linear interpolation
    [prevTarget + (target - prevTarget) * (t - start) / duration]
    inside a stage, as one fraction over [duration]. *)
Definition ramp (prevTarget tgt elapsed dur : Z) : Z :=
  round_nearest (prevTarget * dur + (tgt - prevTarget) * elapsed) dur.

(** Modelled from the spec: the stage scheduler's [target(t)].  The
    stage [[start, start + duration)] that contains [t] interpolates
    from the previous stage's target (0 for the first); a stage of
    duration zero contains no instant, so the target jumps; after the
    last stage the last target is held. *)
Fixpoint target_from (prevTarget start : Z) (stages : list Stage) (t : Z) : Z :=
  match stages with
  | [] => prevTarget
  | s :: rest =>
      if t <? start + duration s
      then ramp prevTarget (target s) (t - start) (duration s)
      else target_from (target s) (start + duration s) rest t
  end.

(** Modelled from the spec: an empty stage list yields the constant
    target [flat] of the run configuration. *)
Definition target_at (flat : Z) (stages : list Stage) (t : Z) : Z :=
  match stages with
  | [] => flat
  | _ => target_from 0 0 stages t
  end.

(** The instant a list of stages ends and the target it ends on. *)
Definition total_duration (stages : list Stage) : Z :=
  foldr (fun s acc => duration s + acc) 0 stages.

Definition last_target (prevTarget : Z) (stages : list Stage) : Z :=
  foldl (fun _ s => target s) prevTarget stages.

Definition well_formed (stages : list Stage) : Prop :=
  Forall (fun s => 0 <= duration s /\ 0 <= target s) stages.

(** [r] is an integer nearest to [num / den]. *)
Definition nearest (r num den : Z) : Prop :=
  Z.abs (2 * (r * den - num)) <= den.

(** ** Metrics aggregator (specification, section 4.4) *)

(** Modelled from the spec: a Sample's metric name and value; the
    aggregator is k6's, the scripts only call [metric.add].  Tags and
    timestamp are carried along and never read by the update rules;
    the float value is a rational here. *)
Record Sample : Type := { metric : string; value : Q }.

Section Aggregator.
(** The quantile estimator of a Trend is left open by the
    specification ("a reservoir or t-digest style structure"). *)
Context {Est : Type} (feed : Q -> Est -> Est).

(** Modelled from the spec: MetricAggregate, one of Counter (running
    sum), Rate (successes/total), Trend (count, min, max, sum for the
    mean, quantile estimator). *)
Inductive MetricAggregate : Type :=
| Counter (sum : Q)
| Rate (successes total : nat)
| Trend (count : nat) (min max : option Q) (sum : Q) (quantiles : Est).

(** Modelled from the spec: "truthy (nonzero/true)". *)
Definition truthy (v : Q) : bool := negb (Qeq_bool v 0).

Definition extremum (pick : Q -> Q -> Q) (o : option Q) (v : Q) : option Q :=
  match o with
  | Some x => Some (pick x v)
  | None => Some v
  end.

(** Modelled from the spec: the streaming update rules of
    [record(sample)]. *)
Definition update (a : MetricAggregate) (v : Q) : MetricAggregate :=
  match a with
  | Counter sum => Counter (Qplus sum v)
  | Rate successes total =>
      Rate (if truthy v then S successes else successes) (S total)
  | Trend count mn mx sum est =>
      Trend (S count) (extremum Qmin mn v) (extremum Qmax mx v)
            (Qplus sum v) (feed v est)
  end.

(** Modelled from the spec: [record(sample)] updates the named
    aggregate (a sample for a name that was never registered finds
    no aggregate to update). *)
Definition record (s : Sample) (aggs : gmap string MetricAggregate)
    : gmap string MetricAggregate :=
  alter (fun a => update a (value s)) (metric s) aggs.

Definition record_all (samples : list Sample)
    (aggs : gmap string MetricAggregate) : gmap string MetricAggregate :=
  foldl (fun aggs s => record s aggs) aggs samples.

(** A Trend's [count]; a Rate's [successes] and [total]. *)
Definition count_of (m : string) (aggs : gmap string MetricAggregate) : option nat :=
  match aggs !! m with
  | Some (Trend count _ _ _ _) => Some count
  | _ => None
  end.

Definition rate_of (m : string) (aggs : gmap string MetricAggregate)
    : option (nat * nat) :=
  match aggs !! m with
  | Some (Rate successes total) => Some (successes, total)
  | _ => None
  end.

(** The aggregates a script's custom metrics start from. *)
Definition initial (est0 : Est) (k : K6.MetricKind) : MetricAggregate :=
  match k with
  | K6.RateKind => Rate 0 0
  | K6.TrendKind => Trend 0 None None 0%Q est0
  | K6.CounterKind => Counter 0%Q
  end.

Definition registry (est0 : Est)
    (metrics : list (string * K6.MetricKind))
    : gmap string MetricAggregate :=
  JS.object_literal (map (fun nk => (nk.1, initial est0 nk.2)) metrics).
End Aggregator.

Arguments MetricAggregate : clear implicits.

(** The samples of metric [m] among [samples], and the truthy ones
    among them. *)
Definition named (m : string) (samples : list Sample) : list Sample :=
  filter (fun s => metric s = m) samples.

Definition truthy_named (m : string) (samples : list Sample) : list Sample :=
  filter (fun s => truthy (value s) = true) (named m samples).

(** k6 turns the argument of [add] into a number: [true] is 1,
    [false] is 0. *)
Definition value_of (v : K6.MetricValue) : Q :=
  match v with
  | K6.BoolValue b => if b then 1%Q else 0%Q
  | K6.NumValue q => q
  end.

(** The samples a script's [metric.add] calls emit. *)
Definition samples_of (evs : list K6.Event) : list Sample :=
  omap (fun e => match e with
                 | K6.MetricAdd m v => Some {| metric := m; value := value_of v |}
                 | _ => None
                 end) evs.

(** The value of a Rate: successes over total (0 with no sample). *)
Definition rate_value (r : nat * nat) : Q :=
  match r.2 with
  | O => 0%Q
  | S _ => Qmake (Z.of_nat r.1) (Pos.of_nat r.2)
  end.

End Engine.

(* ===================================================================== *)
(** * Concrete inputs *)
(* ===================================================================== *)

Module Examples.

(** A credential library that answers after 250 ms, and one whose
    request is refused. *)
Definition lib_ok : AuthHelper.CredentialLibrary :=
  {| AuthHelper.getToken := fun _ _ _ => AuthHelper.Resolved "eyJ0eXAi";
     AuthHelper.latency := fun _ _ _ => 250 |}.

Definition lib_refused : AuthHelper.CredentialLibrary :=
  {| AuthHelper.getToken := fun _ _ _ => AuthHelper.Rejected "invalid_client";
     AuthHelper.latency := fun _ _ _ => 250 |}.

(** An empty cache at time 1000, and a cache holding a token for
    ("app", "secret") that expires at 3601250. *)
Definition cold : AuthHelper.World :=
  {| AuthHelper.tokenCache := ∅;
     AuthHelper.now := 1000;
     AuthHelper.libCalls := [];
     AuthHelper.console := [] |}.

Definition warm (time : Z) : AuthHelper.World :=
  {| AuthHelper.tokenCache :=
       {[ "app:secret" := {| AuthHelper.token := "eyJ0eXAi";
                             AuthHelper.expiresAt := 3601250 |} ]};
     AuthHelper.now := time;
     AuthHelper.libCalls := [("app", "secret")];
     AuthHelper.console := [] |}.

Definition runtime : ActivityFactory.Runtime :=
  {| ActivityFactory.uuidv4 := fun n => "uuid-" ++ pretty n;
     ActivityFactory.isoNow := "2025-10-30T12:00:00.000Z" |}.

(** Options for a message in a Teams channel. *)
Definition channel_options : ActivityFactory.Options :=
  {| ActivityFactory.opt_text := ActivityFactory.Str "hello";
     ActivityFactory.opt_from :=
       ActivityFactory.Object {| ActivityFactory.from_id := ActivityFactory.Str "29:user";
               ActivityFactory.from_name := ActivityFactory.Str "User";
               ActivityFactory.from_aadObjectId := ActivityFactory.Undefined |};
     ActivityFactory.opt_recipient :=
       ActivityFactory.Object {| ActivityFactory.recipient_id := ActivityFactory.Str "28:bot";
               ActivityFactory.recipient_name := ActivityFactory.Undefined |};
     ActivityFactory.opt_conversation :=
       ActivityFactory.Object {| ActivityFactory.conv_id := ActivityFactory.Str "19:channel";
               ActivityFactory.conv_conversationType := ActivityFactory.Str "channel";
               ActivityFactory.conv_tenantId := ActivityFactory.Str "tenant";
               ActivityFactory.conv_teamsChannelId := ActivityFactory.Str "19:channel";
               ActivityFactory.conv_teamsTeamId := ActivityFactory.Str "19:team" |};
     ActivityFactory.opt_serviceUrl :=
       ActivityFactory.Str "https://smba.trafficmanager.net/teams";
     ActivityFactory.opt_channelId := ActivityFactory.Undefined;
     ActivityFactory.opt_textFormat := ActivityFactory.Undefined;
     ActivityFactory.opt_locale := ActivityFactory.Undefined |}.

(** The shape of config/local.env.js with its defaults. *)
Definition local_config : ActivityFactory.Config :=
  {| ActivityFactory.testUser :=
       ActivityFactory.Object {| ActivityFactory.user_id := ActivityFactory.Str "29:load-test-user-local";
               ActivityFactory.user_name := ActivityFactory.Str "Load Test User (Local)";
               ActivityFactory.user_aadObjectId :=
                 ActivityFactory.Str "45908692-019e-4436-810c-b417f58f5f4f" |};
     ActivityFactory.credentials :=
       ActivityFactory.Object {| ActivityFactory.cred_appId := ActivityFactory.Undefined;
               ActivityFactory.cred_appPassword := ActivityFactory.Undefined;
               ActivityFactory.cred_tenantId := ActivityFactory.Undefined |};
     ActivityFactory.cfg_serviceUrl :=
       ActivityFactory.Str "https://smba.trafficmanager.net/teams" |}.

(** [__ENV] of four invocations: [--env ENV=qa]; [--env ENV=stage] with
    nothing else set; [--env ENV=STAGE] with the endpoint and no
    [BOT_TOKEN]; the same with a token. *)
Definition env_unknown : gmap string string := {[ "ENV" := "qa" ]}.

Definition env_stage_bare : gmap string string := {[ "ENV" := "stage" ]}.

Definition env_stage_no_token : gmap string string :=
  list_to_map [ ("ENV", "STAGE");
                ("STAGE_BOT_ENDPOINT", "https://stage.example.com/api/messages") ].

Definition env_stage_token : gmap string string :=
  <[ "BOT_TOKEN" := "eyJ0eXAi" ]> env_stage_no_token.

Definition k6_runtime : K6.Runtime :=
  {| K6.dateNow := fun n => 1761825600000 + Z.of_nat n;
     K6.isoNow := "2025-10-30T12:00:00.000Z";
     K6.random36 := "k3x9q";
     K6.random := Qmake 1 2;
     K6.vu := 1;
     K6.toFixed2 := fun _ => "35.00" |}.

Definition accepted : K6.Response :=
  {| K6.status := 202; K6.body := None; K6.duration := inject_Z 120 |}.

Definition server_error : K6.Response :=
  {| K6.status := 500;
     K6.body := Some "Internal Server Error";
     K6.duration := inject_Z 35 |}.

(** The configuration the ENV-driven smoke test loads when [__ENV] is
    empty: the local bot, no token. *)
Definition smoke_local : Smoke.Config :=
  {| Smoke.endpoint := Some "http://localhost:3978/api/messages";
     Smoke.healthEndpoint := Some "http://localhost:3978/api/health";
     Smoke.appId := None;
     Smoke.tenantId := None;
     Smoke.token := None |}.

(** Three samples as two virtual users may interleave them, and the
    same samples in another order. *)
Definition interleaved : list Engine.Sample :=
  [ {| Engine.metric := "response_time_trend"; Engine.value := inject_Z 120 |};
    {| Engine.metric := "errors"; Engine.value := inject_Z 1 |};
    {| Engine.metric := "response_time_trend"; Engine.value := inject_Z 35 |} ].

Definition reordered : list Engine.Sample :=
  [ {| Engine.metric := "response_time_trend"; Engine.value := inject_Z 35 |};
    {| Engine.metric := "response_time_trend"; Engine.value := inject_Z 120 |};
    {| Engine.metric := "errors"; Engine.value := inject_Z 1 |} ].

(** A quantile estimator that keeps every value. *)
Definition keep_all : Q -> list Q -> list Q := cons.

(** The configuration of the simple-message test for
    [env_stage_no_token]. *)
Definition stage_config : SimpleMessage.Config :=
  {| SimpleMessage.endpoint := Some "https://stage.example.com/api/messages";
     SimpleMessage.appId := None;
     SimpleMessage.tenantId := None;
     SimpleMessage.token := None |}.

(** The ramp-up stage of the tests alone, and a ramp followed by an
    instant jump. *)
Definition ramp_up : list Engine.Stage :=
  [ {| Engine.duration := 10000; Engine.target := 5 |} ].

Definition ramp_then_jump : list Engine.Stage :=
  [ {| Engine.duration := 10000; Engine.target := 5 |};
    {| Engine.duration := 0; Engine.target := 9 |};
    {| Engine.duration := 20000; Engine.target := 9 |} ].

End Examples.

(* ===================================================================== *)
(** * More string operations *)
(* ===================================================================== *)

Module Text.

(** [s.split(sep)] for a one-character separator: the pieces between
    the occurrences of [sep], one piece more than there are
    occurrences. *)
Fixpoint split_on (sep : ascii) (s : string) : list string :=
  match s with
  | EmptyString => [EmptyString]
  | String c s' =>
      if Ascii.eqb c sep then EmptyString :: split_on sep s'
      else match split_on sep s' with
           | piece :: pieces => String c piece :: pieces
           | [] => [String c EmptyString]
           end
  end.

(** The number of occurrences of a character. *)
Fixpoint count_char (c : ascii) (s : string) : nat :=
  match s with
  | EmptyString => O
  | String c' s' => ((if Ascii.eqb c' c then 1 else 0) + count_char c s')%nat
  end.

(** [pieces.join(sep)]. *)
Fixpoint join (sep : ascii) (pieces : list string) : string :=
  match pieces with
  | [] => EmptyString
  | [piece] => piece
  | piece :: rest => piece ++ String sep (join sep rest)
  end.

(** The double quote, for texts that hold one. *)
Definition dquote : string := String (ascii_of_nat 34) EmptyString.

(** The terminal escape sequences of the [colors] objects of the node
    scripts. *)
Definition esc (code : string) : string := String (ascii_of_nat 27) ("[" ++ code ++ "m").

Module colors.
Definition reset := esc "0".
Definition bright := esc "1".
Definition dim := esc "2".
Definition red := esc "31".
Definition green := esc "32".
Definition yellow := esc "33".
Definition blue := esc "34".
Definition cyan := esc "36".
End colors.

(** [`${v}`] for a value. *)
Definition to_text (v : ActivityFactory.value) : string :=
  match v with
  | ActivityFactory.Undefined => "undefined"
  | ActivityFactory.Null => "null"
  | ActivityFactory.Bool true => "true"
  | ActivityFactory.Bool false => "false"
  | ActivityFactory.Num n => pretty n
  | ActivityFactory.Str s => s
  end.

End Text.

(* ===================================================================== *)
(** * lib/auth-helper.js: [getTokenInfo] *)
(* ===================================================================== *)

Module TokenInfo.
Import JS AuthHelper.

(** What lines 93 to 101 read out of the middle part of the token:
    [JSON.parse(Buffer.from(part, 'base64').toString())], then
    [new Date(payload.exp * 1000).toISOString()], [payload.iss],
    [payload.aud] and [payload.appid].  Decoding and date formatting are
    node's; either may throw. *)
Record Claims : Type := {
  claim_expiresAt : string;
  claim_iss : ActivityFactory.value;
  claim_aud : ActivityFactory.value;
  claim_appid : ActivityFactory.value
}.

Definition Decoder : Type := string -> completion Claims.

(** The object [getTokenInfo] returns. *)
Record Info : Type := {
  token : string;
  tokenPreview : string;
  expiresAt : string;
  issuer : ActivityFactory.value;
  audience : ActivityFactory.value;
  appId : ActivityFactory.value
}.

(** The world a while later: only the clock has moved. *)
Definition tick (dt : Z) (w : World) : World :=
  {| tokenCache := tokenCache w; now := now w + dt;
     libCalls := libCalls w; console := console w |}.

(** [getTokenInfo(appId, appPassword)]. *)
Definition getTokenInfo (lib : CredentialLibrary) (decode : Decoder)
    (appId appPassword : string) (w : World) : completion Info * World :=
  match getBotToken lib appId appPassword w with
  | (Throw m, w') => (Throw m, w')
  | (Normal tok, w') =>
      let parts := Text.split_on "." tok in
      if negb (Nat.eqb (length parts) 3)
      then (Throw "Invalid JWT token format", w')
      else match decode (nth 1 parts "") with
           | Throw m => (Throw m, w')
           | Normal claims =>
               (Normal {| token := tok;
                          tokenPreview := substring 0 20 tok ++ "...";
                          expiresAt := claim_expiresAt claims;
                          issuer := claim_iss claims;
                          audience := claim_aud claims;
                          appId := claim_appid claims |},
                w')
           end
  end.

End TokenInfo.

(* ===================================================================== *)
(** * scripts/generate-token.js *)
(* ===================================================================== *)

Module GenerateToken.
Import JS AuthHelper Text.

(** [const environment = args[0] || 'local']. *)
Definition environment (arg : ostring) : string := or_else arg "local".

(** [String.prototype.toUpperCase], which maps every cased character
    of Unicode.  The command line argument is any text, so the script's
    [toUpperCase] is taken from outside, as the engine's. *)
Definition ToUpperCase : Type := string -> string.

Record Credentials : Type := {
  appId : string;
  appPassword : string;
  tenantId : ostring;
  endpoint : ostring
}.

(** [getCredentials(env)], reading [process.env]. *)
Definition getCredentials (toUpper : ToUpperCase)
    (processEnv : gmap string string) (env : string) : completion Credentials :=
  let envUpper := toUpper env in
  let appId := processEnv !! (envUpper ++ "_MICROSOFT_APP_ID") in
  let appPassword := processEnv !! (envUpper ++ "_MICROSOFT_APP_PASSWORD") in
  let tenantId := processEnv !! (envUpper ++ "_MICROSOFT_APP_TENANT_ID") in
  let endpoint := processEnv !! (envUpper ++ "_BOT_ENDPOINT") in
  if negb (truthy appId) || negb (truthy appPassword)
  then Throw ("Missing credentials for " ++ env ++ " environment. " ++
              "Please set " ++ envUpper ++ "_MICROSOFT_APP_ID and " ++
              envUpper ++ "_MICROSOFT_APP_PASSWORD in .env file.")
  else Normal {| appId := template appId;
                 appPassword := template appPassword;
                 tenantId := tenantId;
                 endpoint := endpoint |}.

Definition banner : list string :=
  [ colors.bright ++ colors.cyan;
    "╔═══════════════════════════════════════════════════════════╗";
    "║         Bot Framework Token Generator                     ║";
    "╚═══════════════════════════════════════════════════════════╝";
    colors.reset ].

(** The lines [main] prints before and after it has the credentials. *)
Definition environment_lines (toUpper : ToUpperCase) (env : string)
    : list string :=
  [ colors.blue ++ "Environment:" ++ colors.reset ++ " " ++ toUpper env ].

Definition credentials_lines (credentials : Credentials) : list string :=
  [ colors.blue ++ "App ID:" ++ colors.reset ++ " " ++ appId credentials;
    colors.blue ++ "Endpoint:" ++ colors.reset ++ " " ++
      or_else (endpoint credentials) "Not configured";
    "";
    colors.yellow ++ "Generating token..." ++ colors.reset ].

(** The lines of the [catch] block of [main]. *)
Definition failure_lines (message : string) : list string :=
  [ colors.red ++ "Error: " ++ message ++ colors.reset;
    "";
    colors.yellow ++ "Troubleshooting:" ++ colors.reset;
    "  1. Ensure .env file exists and contains valid credentials";
    "  2. Check that credentials have the correct format";
    "  3. Verify internet connectivity (token validation requires online access)";
    "  4. Run: npm run verify";
    "" ].

(** The lines [main] prints once it has the token information. *)
Definition success_lines (env : string) (info : TokenInfo.Info) : list string :=
  [ colors.green ++ "✓ Token generated successfully!" ++ colors.reset ++ String "010" "";
    colors.bright ++ "Token Information:" ++ colors.reset;
    "  Expires at: " ++ TokenInfo.expiresAt info;
    "  Issuer: " ++ to_text (TokenInfo.issuer info);
    "  Audience: " ++ to_text (TokenInfo.audience info);
    "  App ID: " ++ to_text (TokenInfo.appId info);
    "";
    colors.bright ++ "Full Token:" ++ colors.reset;
    TokenInfo.token info;
    "";
    colors.bright ++ "Usage with k6:" ++ colors.reset;
    "";
    "  " ++ colors.cyan ++ "# Set token as environment variable:" ++ colors.reset;
    "  export BOT_TOKEN=" ++ dquote ++ TokenInfo.token info ++ dquote;
    "";
    "  " ++ colors.cyan ++ "# Run k6 test:" ++ colors.reset;
    "  k6 run --env ENV=" ++ env ++ " tests/simple-message.test.js";
    "";
    "  " ++ colors.cyan ++ "# Or in one line:" ++ colors.reset;
    "  BOT_TOKEN=" ++ dquote ++ TokenInfo.token info ++ dquote ++
      " k6 run --env ENV=" ++ env ++ " tests/simple-message.test.js";
    "";
    colors.yellow ++ "Note:" ++ colors.reset ++ " Token is valid for approximately 1 hour.";
    "" ].

(** What a run of the script leaves behind: the exit code given to
    [process.exit] ([None] when [main] returns), the lines of
    [console.log], and the world, whose [console] holds the lines of
    [console.error]. *)
Record Outcome : Type := {
  exitCode : option Z;
  stdout : list string;
  world : World
}.

Definition fail (out : list string) (message : string) (w : World) : Outcome :=
  {| exitCode := Some 1;
     stdout := out;
     world := {| tokenCache := tokenCache w; now := now w;
                 libCalls := libCalls w;
                 console := app (console w) (failure_lines message) |} |}.

(** [main()], for the command line argument [arg]; [pause] is the
    time that passes between the two calls into the helper. *)
Definition main (toUpper : ToUpperCase) (lib : CredentialLibrary)
    (decode : TokenInfo.Decoder) (processEnv : gmap string string)
    (arg : ostring) (pause : Z) (w : World) : Outcome :=
  let env := environment arg in
  let out0 := app banner (environment_lines toUpper env) in
  match getCredentials toUpper processEnv env with
  | Throw m => fail out0 m w
  | Normal credentials =>
      let out1 := app out0 (credentials_lines credentials) in
      match getAuthorizationHeader lib (appId credentials)
              (appPassword credentials) w with
      | (Throw m, w1) => fail out1 m w1
      | (Normal authHeader, w1) =>
          match TokenInfo.getTokenInfo lib decode (appId credentials)
                  (appPassword credentials) (TokenInfo.tick pause w1) with
          | (Throw m, w2) => fail out1 m w2
          | (Normal info, w2) =>
              {| exitCode := None;
                 stdout := app out1 (success_lines env info);
                 world := w2 |}
          end
      end
  end.

End GenerateToken.

(* ===================================================================== *)
(** * scripts/verify-setup.js *)
(* ===================================================================== *)

Module VerifySetup.
Import JS Text.

(** The module-level flags and the lines printed so far. *)
Record State : Type := {
  hasErrors : bool;
  hasWarnings : bool;
  out : list string
}.

Definition initial : State :=
  {| hasErrors := false; hasWarnings := false; out := [] |}.

(** What the script asks of its host: [process.env] after
    [dotenv.config], the path [resolve(projectRoot, file)], [existsSync]
    and the value of [execSync('k6 version', ...).trim()], which throws
    when k6 cannot be run. *)
Record Host : Type := {
  processEnv : gmap string string;
  fullPath : string -> string;
  existsSync : string -> bool;
  k6Version : completion string
}.

(** The functions of the script thread the state. *)
Definition M (A : Type) : Type := State -> A * State.

Definition ret {A} (a : A) : M A := fun st => (a, st).

Definition bind {A B} (c : M A) (k : A -> M B) : M B :=
  fun st => let (a, st') := c st in k a st'.

Notation "x <- c ;; k" := (bind c (fun x => k))
  (at level 100, c at next level, right associativity).
Notation "c ;;; k" := (bind c (fun _ => k))
  (at level 100, right associativity).

Definition log (line : string) : M unit :=
  fun st => (tt, {| hasErrors := hasErrors st;
                    hasWarnings := hasWarnings st;
                    out := (out st ++ [line])%list |}).

Definition setError : M unit :=
  fun st => (tt, {| hasErrors := true;
                    hasWarnings := hasWarnings st;
                    out := out st |}).

Definition setWarning : M unit :=
  fun st => (tt, {| hasErrors := hasErrors st;
                    hasWarnings := true;
                    out := out st |}).

Definition when (b : bool) (c : M unit) : M unit := if b then c else ret tt.

Fixpoint logs (lines : list string) : M unit :=
  match lines with
  | [] => ret tt
  | line :: rest => log line ;;; logs rest
  end.

Definition CHECK_MARK := "✓".
Definition CROSS_MARK := "✗".
Definition WARNING_MARK := "⚠".

Definition nonempty (s : string) : bool := negb (String.eqb s "").

(** [printHeader(title)]. *)
Definition printHeader (title : string) : M unit :=
  log "" ;;;
  log (colors.bright ++ colors.cyan ++ title ++ colors.reset) ;;;
  log K6.rule.

(** [printCheck(label, passed, message = '')]. *)
Definition printCheck (label : string) (passed : bool) (message : string) : M unit :=
  let symbol := if passed then CHECK_MARK else CROSS_MARK in
  let color := if passed then colors.green else colors.red in
  let status := if passed then "OK" else "FAIL" in
  log ("  " ++ color ++ symbol ++ colors.reset ++ " " ++ label ++ ": " ++
       color ++ status ++ colors.reset) ;;;
  when (nonempty message) (log ("    " ++ colors.dim ++ message ++ colors.reset)) ;;;
  when (negb passed) setError.

(** [printWarning(label, message = '')]. *)
Definition printWarning (label message : string) : M unit :=
  log ("  " ++ colors.yellow ++ WARNING_MARK ++ colors.reset ++ " " ++ label ++ ": " ++
       colors.yellow ++ "WARNING" ++ colors.reset) ;;;
  when (nonempty message) (log ("    " ++ colors.dim ++ message ++ colors.reset)) ;;;
  setWarning.

(** [checkFile(filePath, label)]. *)
Definition checkFile (host : Host) (filePath label : string) : M bool :=
  let exists_ := existsSync host (fullPath host filePath) in
  printCheck label exists_
    (if exists_ then fullPath host filePath else "File not found") ;;;
  ret exists_.

(** [checkEnvVar(varName, required = true)]. *)
Definition checkEnvVar (host : Host) (varName : string) (required : bool) : M bool :=
  let exists_ := truthy (processEnv host !! varName) in
  (if required
   then printCheck varName exists_ (if exists_ then "Set" else "Missing")
   else if negb exists_
        then printWarning varName "Optional but recommended"
        else printCheck varName true "Set") ;;;
  ret exists_.

(** [checkEnvironmentCredentials(env)]. *)
Definition checkEnvironmentCredentials (host : Host) (env : string) : M bool :=
  let envUpper := toUpperCase env in
  printHeader (toUpperCase env ++ " Environment") ;;;
  appId <- checkEnvVar host (envUpper ++ "_MICROSOFT_APP_ID") true ;;
  appPassword <- checkEnvVar host (envUpper ++ "_MICROSOFT_APP_PASSWORD") true ;;
  tenantId <- checkEnvVar host (envUpper ++ "_MICROSOFT_APP_TENANT_ID") true ;;
  endpoint <- checkEnvVar host (envUpper ++ "_BOT_ENDPOINT") true ;;
  ret (appId && appPassword && tenantId && endpoint).

(** The files [main] requires, with their labels. *)
Definition required_files : list (string * string) :=
  [ ("package.json", "package.json");
    (".env", ".env file");
    ("lib/auth-helper.js", "Authentication helper");
    ("lib/activity-factory.js", "Activity factory");
    ("lib/constants.js", "Constants");
    ("tests/simple-message.test.js", "Simple message test");
    ("tests/smoke.test.js", "Smoke test");
    ("config/local.env.js", "Local config");
    ("config/stage.env.js", "Stage config");
    ("config/prod.env.js", "Prod config") ].

Definition optional_variables : list string :=
  [ "TEST_USER_ID"; "TEST_USER_NAME"; "TEST_USER_AAD_OBJECT_ID"; "SERVICE_URL" ].

Fixpoint checkFiles (host : Host) (files : list (string * string)) : M unit :=
  match files with
  | [] => ret tt
  | (filePath, label) :: rest => checkFile host filePath label ;;; checkFiles host rest
  end.

Fixpoint checkOptional (host : Host) (names : list string) : M unit :=
  match names with
  | [] => ret tt
  | name :: rest => checkEnvVar host name false ;;; checkOptional host rest
  end.

Definition banner : list string :=
  [ colors.bright ++ colors.cyan;
    "╔═══════════════════════════════════════════════════════════╗";
    "║         k6 Load Test Setup Verification                   ║";
    "╚═══════════════════════════════════════════════════════════╝";
    colors.reset ].

Definition errors_summary : list string :=
  [ "  " ++ colors.red ++ CROSS_MARK ++ " Setup has errors that need to be fixed" ++
      colors.reset;
    "";
    colors.yellow ++ "Next steps:" ++ colors.reset;
    "  1. Create .env file from .env.example: cp .env.example .env";
    "  2. Fill in the required credentials in .env";
    "  3. Run: npm install";
    "  4. Install k6: https://k6.io/docs/get-started/installation/";
    "  5. Run this script again: npm run verify";
    "" ].

Definition warnings_head : list string :=
  [ "  " ++ colors.yellow ++ WARNING_MARK ++ " Setup is functional but has warnings" ++
      colors.reset;
    "";
    colors.green ++ "You can proceed with running tests!" ++ colors.reset;
    "" ].

Definition local_hints : list string :=
  [ "  " ++ colors.cyan ++ "Run smoke test:" ++ colors.reset ++ " npm run smoke:local";
    "  " ++ colors.cyan ++ "Run load test:" ++ colors.reset ++ " npm run test:local" ].

Definition warnings_summary (localOk : bool) : list string :=
  app warnings_head (app (if localOk then local_hints else []) [ "" ]).

Definition ready_summary : list string :=
  [ "  " ++ colors.green ++ CHECK_MARK ++ " Setup is complete and ready!" ++ colors.reset;
    "";
    colors.bright ++ "Next steps:" ++ colors.reset;
    "";
    "  " ++ colors.cyan ++ "1. Generate token:" ++ colors.reset;
    "     npm run generate-token -- local";
    "";
    "  " ++ colors.cyan ++ "2. Run smoke test:" ++ colors.reset;
    "     export BOT_TOKEN=" ++ dquote ++ "<token-from-step-1>" ++ dquote;
    "     npm run smoke:local";
    "";
    "  " ++ colors.cyan ++ "3. Run load test:" ++ colors.reset;
    "     npm run test:local";
    "" ].

(** The three ways [main] ends. *)
Inductive Verdict : Type := Errors | Warnings | Ready.

(** [main()]; [Errors] is the branch that calls [process.exit(1)]. *)
Definition main (host : Host) : M Verdict :=
  logs banner ;;;
  printHeader "Required Files" ;;;
  checkFiles host required_files ;;;
  printHeader "Node.js Dependencies" ;;;
  (let nodeModules := existsSync host (fullPath host "node_modules") in
   printCheck "node_modules" nodeModules
     (if nodeModules then "Dependencies installed" else "Run: npm install")) ;;;
  printHeader "k6 Installation" ;;;
  (match k6Version host with
   | Normal version => printCheck "k6" true version
   | Throw _ =>
       printCheck "k6" false
         "k6 not found. Install from: https://k6.io/docs/get-started/installation/"
   end) ;;;
  localOk <- checkEnvironmentCredentials host "local" ;;
  stageOk <- checkEnvironmentCredentials host "stage" ;;
  prodOk <- checkEnvironmentCredentials host "prod" ;;
  printHeader "Optional Configuration" ;;;
  checkOptional host optional_variables ;;;
  printHeader "Summary" ;;;
  fun st =>
    if hasErrors st then (logs errors_summary ;;; ret Errors) st
    else if hasWarnings st then (logs (warnings_summary localOk) ;;; ret Warnings) st
    else (logs ready_summary ;;; ret Ready) st.

(** The exit code of the process. *)
Definition exitCode (v : Verdict) : Z :=
  match v with Errors => 1 | _ => 0 end.

(** The variables [checkEnvironmentCredentials] requires for [env]. *)
Definition required_variables (env : string) : list string :=
  map (fun suffix => toUpperCase env ++ suffix)
    [ "_MICROSOFT_APP_ID"; "_MICROSOFT_APP_PASSWORD";
      "_MICROSOFT_APP_TENANT_ID"; "_BOT_ENDPOINT" ].

(** A host on which nothing required is missing. *)
Definition complete (host : Host) : bool :=
  forallb (fun f => existsSync host (fullPath host f.1)) required_files &&
  existsSync host (fullPath host "node_modules") &&
  (match k6Version host with Normal _ => true | Throw _ => false end) &&
  forallb (fun v => truthy (processEnv host !! v))
    (app (required_variables "local")
       (app (required_variables "stage") (required_variables "prod"))).

Definition all_optional_set (host : Host) : bool :=
  forallb (fun v => truthy (processEnv host !! v)) optional_variables.

(** What a command does to every state: it returns [a], raises the
    error flag when [e], the warning flag when [w], and prints [lines]. *)
Definition effect {A} (c : M A) (a : A) (e w : bool) (lines : list string) : Prop :=
  forall st,
    c st = (a, {| hasErrors := hasErrors st || e;
                  hasWarnings := hasWarnings st || w;
                  out := (out st ++ lines)%list |}).

End VerifySetup.

(* ===================================================================== *)
(** * config/local.env.js, config/stage.env.js, config/prod.env.js *)
(* ===================================================================== *)

Module EnvConfig.
Import JS.

Record CredentialsConfig : Type :=
  { appId : ostring; appPassword : ostring; tenantId : ostring }.

Record TestUserConfig : Type :=
  { user_id : string; user_name : string; user_aadObjectId : string }.

Record LoadTest : Type :=
  { vus : Z; duration : string; message : string }.

Record Config : Type := {
  name : string;
  endpoint : ostring;
  credentials : CredentialsConfig;
  serviceUrl : string;
  testUser : TestUserConfig;
  loadTest : LoadTest;
  thresholds : gmap string (list Thresholds.ThresholdEntry)
}.

(** [parseInt(x)] is JavaScript's; [None] is [NaN]. *)
Definition ParseInt : Type := ostring -> option Z.

(** [parseInt(__ENV.DEFAULT_VUS) || 5]: [NaN] and 0 are falsy. *)
Definition default_vus (parseInt : ParseInt) (env : gmap string string) : Z :=
  match parseInt (env !! "DEFAULT_VUS") with
  | Some n => if n =? 0 then 5 else n
  | None => 5
  end.

(** The part the three files share, given what differs: the name, the
    endpoint, the prefix of the credential variables, the default test
    user and the thresholds. *)
Definition make (parseInt : ParseInt) (env : gmap string string)
    (name : string) (endpoint : ostring) (prefix userId userName : string)
    (thresholds : Thresholds.props) : Config :=
  {| name := name;
     endpoint := endpoint;
     credentials :=
       {| appId := env !! (prefix ++ "_MICROSOFT_APP_ID");
          appPassword := env !! (prefix ++ "_MICROSOFT_APP_PASSWORD");
          tenantId := env !! (prefix ++ "_MICROSOFT_APP_TENANT_ID") |};
     serviceUrl :=
       or_else (env !! "SERVICE_URL") "https://smba.trafficmanager.net/teams";
     testUser :=
       {| user_id := or_else (env !! "TEST_USER_ID") userId;
          user_name := or_else (env !! "TEST_USER_NAME") userName;
          user_aadObjectId :=
            or_else (env !! "TEST_USER_AAD_OBJECT_ID")
                    "45908692-019e-4436-810c-b417f58f5f4f" |};
     loadTest :=
       {| vus := default_vus parseInt env;
          duration := or_else (env !! "DEFAULT_DURATION") "30s";
          message := or_else (env !! "TEST_MESSAGE") "test" |};
     thresholds := object_literal thresholds |}.

Definition local (parseInt : ParseInt) (env : gmap string string) : Config :=
  make parseInt env "LOCAL"
    (Some (or_else (env !! "LOCAL_BOT_ENDPOINT") "http://localhost:3978/api/messages"))
    "LOCAL" "29:load-test-user-local" "Load Test User (Local)"
    Thresholds.local_env.

Definition stage (parseInt : ParseInt) (env : gmap string string) : Config :=
  make parseInt env "STAGE" (env !! "STAGE_BOT_ENDPOINT")
    "STAGE" "29:load-test-user-stage" "Load Test User (Stage)"
    Thresholds.stage_env.

Definition prod (parseInt : ParseInt) (env : gmap string string) : Config :=
  make parseInt env "PRODUCTION" (env !! "PROD_BOT_ENDPOINT")
    "PROD" "29:load-test-user-prod" "Load Test User (Prod)"
    Thresholds.prod_env.

Definition all (parseInt : ParseInt) (env : gmap string string) : list Config :=
  [ local parseInt env; stage parseInt env; prod parseInt env ].

(** The configuration object as [createTestActivity] reads it. *)
Definition for_factory (c : Config) : ActivityFactory.Config :=
  {| ActivityFactory.testUser :=
       ActivityFactory.Object {| ActivityFactory.user_id := ActivityFactory.Str (user_id (testUser c));
               ActivityFactory.user_name := ActivityFactory.Str (user_name (testUser c));
               ActivityFactory.user_aadObjectId :=
                 ActivityFactory.Str (user_aadObjectId (testUser c)) |};
     ActivityFactory.credentials :=
       ActivityFactory.Object {| ActivityFactory.cred_appId := K6.of_ostring (appId (credentials c));
               ActivityFactory.cred_appPassword :=
                 K6.of_ostring (appPassword (credentials c));
               ActivityFactory.cred_tenantId :=
                 K6.of_ostring (tenantId (credentials c)) |};
     ActivityFactory.cfg_serviceUrl := ActivityFactory.Str (serviceUrl c) |}.

End EnvConfig.

(* ===================================================================== *)
(** * tests/stress-breakpoint.test.js: [options.stages] *)
(* ===================================================================== *)

Module StressOptions.

(** [options.stages], durations in milliseconds. *)
Definition stages : list (Z * Z) :=
  [ (30000, 5); (60000, 5);
    (30000, 10); (60000, 10);
    (30000, 25); (60000, 25);
    (30000, 50); (60000, 50);
    (30000, 75); (60000, 75);
    (30000, 100); (60000, 100);
    (30000, 150); (60000, 150);
    (30000, 200); (60000, 200);
    (30000, 0) ].

(** The targets the stages hold for a minute, in order. *)
Definition plateaus : list Z :=
  map snd (List.filter (fun s => s.1 =? 60000) stages).

(** The labels of [getCurrentPhase], in order. *)
Definition phases : list string :=
  [ "phase1-5vu"; "phase2-10vu"; "phase3-25vu"; "phase4-50vu";
    "phase5-75vu"; "phase6-100vu"; "phase7-150vu"; "phase8-200vu" ].

(** The think time of an iteration: [Math.random() * 0.5 + 0.5], each
    operation rounded to a double. *)
Definition think_time (rt : K6.Runtime) : Q :=
  Double.add (Double.mul (K6.random rt) (Qmake 1 2)) (Qmake 1 2).

End StressOptions.

(* ===================================================================== *)
(** * More concrete inputs *)
(* ===================================================================== *)

Module Cases.

(** A credential library that issues a token of three parts, and a
    decoder for it. *)
Definition lib_jwt : AuthHelper.CredentialLibrary :=
  {| AuthHelper.getToken := fun _ _ _ => AuthHelper.Resolved "eyJ0eXAi.eyJhcHBpZCI6.c2lnbmF0dXJl";
     AuthHelper.latency := fun _ _ _ => 250 |}.

(** A library whose token tells the pair it was issued for. *)
Definition lib_per_pair : AuthHelper.CredentialLibrary :=
  {| AuthHelper.getToken :=
       fun appId appPassword _ =>
         AuthHelper.Resolved ("token of " ++ appId ++ " with " ++ appPassword);
     AuthHelper.latency := fun _ _ _ => 250 |}.

Definition decoder : TokenInfo.Decoder :=
  fun part =>
    JS.Normal {| TokenInfo.claim_expiresAt := "2025-10-30T13:00:00.000Z";
                 TokenInfo.claim_iss := ActivityFactory.Str "https://login.example/";
                 TokenInfo.claim_aud := ActivityFactory.Str "https://api.botframework.com";
                 TokenInfo.claim_appid := ActivityFactory.Str part |}.

(** [process.env] with the local credentials only, and with nothing. *)
Definition env_local_credentials : gmap string string :=
  list_to_map [ ("LOCAL_MICROSOFT_APP_ID", "app");
                ("LOCAL_MICROSOFT_APP_PASSWORD", "secret") ].


(** Options whose [channelId] is [null] and whose recipient, having no
    name, and conversation, having neither id nor type, rely on the
    defaults. *)
Definition sparse_options : ActivityFactory.Options :=
  {| ActivityFactory.opt_text := ActivityFactory.Str "hello";
     ActivityFactory.opt_from :=
       ActivityFactory.Object {| ActivityFactory.from_id := ActivityFactory.Str "29:user";
               ActivityFactory.from_name := ActivityFactory.Undefined;
               ActivityFactory.from_aadObjectId := ActivityFactory.Undefined |};
     ActivityFactory.opt_recipient :=
       ActivityFactory.Object {| ActivityFactory.recipient_id := ActivityFactory.Str "28:bot";
               ActivityFactory.recipient_name := ActivityFactory.Str "" |};
     ActivityFactory.opt_conversation :=
       ActivityFactory.Object {| ActivityFactory.conv_id := ActivityFactory.Undefined;
               ActivityFactory.conv_conversationType := ActivityFactory.Null;
               ActivityFactory.conv_tenantId := ActivityFactory.Undefined;
               ActivityFactory.conv_teamsChannelId := ActivityFactory.Undefined;
               ActivityFactory.conv_teamsTeamId := ActivityFactory.Undefined |};
     ActivityFactory.opt_serviceUrl := ActivityFactory.Undefined;
     ActivityFactory.opt_channelId := ActivityFactory.Null;
     ActivityFactory.opt_textFormat := ActivityFactory.Undefined;
     ActivityFactory.opt_locale := ActivityFactory.Undefined |}.

(** The same options without a sender. *)
Definition no_sender : ActivityFactory.Options :=
  {| ActivityFactory.opt_text := ActivityFactory.Str "hello";
     ActivityFactory.opt_from := ActivityFactory.Absent;
     ActivityFactory.opt_recipient := ActivityFactory.opt_recipient sparse_options;
     ActivityFactory.opt_conversation :=
       ActivityFactory.opt_conversation sparse_options;
     ActivityFactory.opt_serviceUrl := ActivityFactory.Undefined;
     ActivityFactory.opt_channelId := ActivityFactory.Undefined;
     ActivityFactory.opt_textFormat := ActivityFactory.Undefined;
     ActivityFactory.opt_locale := ActivityFactory.Undefined |}.

(** The sparse options with [recipient: null]. *)
Definition null_recipient : ActivityFactory.Options :=
  {| ActivityFactory.opt_text := ActivityFactory.Str "hello";
     ActivityFactory.opt_from := ActivityFactory.opt_from sparse_options;
     ActivityFactory.opt_recipient := ActivityFactory.IsNull;
     ActivityFactory.opt_conversation := ActivityFactory.Absent;
     ActivityFactory.opt_serviceUrl := ActivityFactory.Undefined;
     ActivityFactory.opt_channelId := ActivityFactory.Undefined;
     ActivityFactory.opt_textFormat := ActivityFactory.Undefined;
     ActivityFactory.opt_locale := ActivityFactory.Undefined |}.

(** A [parseInt] that knows the texts "0" and "12". *)
Definition parseInt : EnvConfig.ParseInt :=
  fun o => match o with
           | Some "0" => Some 0
           | Some "12" => Some 12
           | _ => None
           end.

End Cases.

(** Case analysis on the membership of an event in a literal list of
    events. *)
Ltac in_events :=
  repeat match goal with
  | H : exists _, _ |- _ => destruct H as [? H]
  | H : _ ∈ [] |- _ => by apply elem_of_nil in H
  | H : _ ∈ _ :: _ |- _ => apply elem_of_cons in H as [H|H]
  | H : K6.ConsoleError _ = K6.ConsoleError _ |- _ =>
      injection H as H; cbv [String.append] in H
  | H : K6.ConsoleLog _ = K6.ConsoleLog _ |- _ =>
      injection H as H; cbv [String.append K6.rule K6.repeat_string] in H
  end.

(* ===================================================================== *)
(** * Theorems *)
(* ===================================================================== *)

Section ObjectLiteral.
Context {V : Type}.
Implicit Types (props : list (string * V)) (o : gmap string V).

Lemma foldl_define_snoc props o k v :
  foldl (fun o kv => <[ kv.1 := kv.2 ]> o) o (props ++ [(k, v)]) =
  <[ k := v ]> (foldl (fun o kv => <[ kv.1 := kv.2 ]> o) o props).
Proof. by rewrite foldl_app. Qed.

(** A key's value in the evaluated object is the last value the
    literal lists for it. *)
Lemma object_literal_lookup props k :
  JS.object_literal props !! k = last (JS.declared k props).
Proof.
  unfold JS.object_literal, JS.declared.
  induction props as [|[k' v'] props IH] using rev_ind; [done|].
  rewrite foldl_define_snoc, filter_app, fmap_app.
  destruct (decide (k' = k)) as [->|Hne].
  - rewrite lookup_insert_eq.
    rewrite filter_cons_True by done. simpl.
    by rewrite last_snoc.
  - rewrite lookup_insert_ne by done.
    rewrite filter_cons_False by done. simpl.
    by rewrite app_nil_r.
Qed.
End ObjectLiteral.


(** ** Threshold literals with a repeated key *)

(** C1: in every thresholds object literal of the repository that lists
    [http_req_duration] twice (the options of both versions of the
    simple-message test and the three environment configuration files),
    the evaluated object holds for [http_req_duration] only the entry
    defined last, the p(99) bound; the p(95) entry defined first is not
    among the thresholds in effect.  The first conjunct is the law
    behind it: a key listed twice in an object literal keeps its second
    value. *)
Theorem duplicate_threshold_key_keeps_last :
  (forall (V : Type) (p : list (string * V)) (k : string) (first second : V),
      JS.declared k p = [first; second] ->
      JS.object_literal p !! k = Some second)
  /\ Thresholds.dual_literals =
       [ Thresholds.simple_message; Thresholds.simple_message_load_test_mode;
         Thresholds.local_env; Thresholds.stage_env; Thresholds.prod_env ]
  /\ Forall
       (fun p =>
          exists p95 p99 : string,
            JS.declared "http_req_duration" p =
              [ [Thresholds.Expr ("p(95)<" ++ p95)];
                [Thresholds.Expr ("p(99)<" ++ p99)] ] /\
            JS.object_literal p !! "http_req_duration" =
              Some [Thresholds.Expr ("p(99)<" ++ p99)] /\
            Thresholds.effective "http_req_duration" p =
              [Thresholds.Expr ("p(99)<" ++ p99)] /\
            Thresholds.Expr ("p(95)<" ++ p95)
              ∉ Thresholds.effective "http_req_duration" p)
       Thresholds.dual_literals.
Proof.
  split; [|split].
  - intros V p k first second Hdecl.
    by rewrite object_literal_lookup, Hdecl.
  - reflexivity.
  - assert (Hlaw : forall p a b,
               JS.declared "http_req_duration" p =
                 [ [Thresholds.Expr ("p(95)<" ++ a)];
                   [Thresholds.Expr ("p(99)<" ++ b)] ] ->
               exists p95 p99 : string,
                 JS.declared "http_req_duration" p =
                   [ [Thresholds.Expr ("p(95)<" ++ p95)];
                     [Thresholds.Expr ("p(99)<" ++ p99)] ] /\
                 JS.object_literal p !! "http_req_duration" =
                   Some [Thresholds.Expr ("p(99)<" ++ p99)] /\
                 Thresholds.effective "http_req_duration" p =
                   [Thresholds.Expr ("p(99)<" ++ p99)] /\
                 Thresholds.Expr ("p(95)<" ++ p95)
                   ∉ Thresholds.effective "http_req_duration" p).
    { intros p a b Hdecl. exists a, b.
      assert (Hlook : JS.object_literal p !! "http_req_duration" =
                      Some [Thresholds.Expr ("p(99)<" ++ b)])
        by (by rewrite object_literal_lookup, Hdecl).
      unfold Thresholds.effective. rewrite Hlook. simpl.
      repeat split; try done.
      intros Hin. apply list_elem_of_singleton in Hin. discriminate Hin. }
    repeat apply Forall_cons_2; try apply Forall_nil_2.
    + apply (Hlaw _ "500" "1000"). reflexivity.
    + apply (Hlaw _ "10000" "15000"). reflexivity.
    + apply (Hlaw _ "500" "1000"). reflexivity.
    + apply (Hlaw _ "1000" "2000"). reflexivity.
    + apply (Hlaw _ "1500" "3000"). reflexivity.
Qed.

(** The law at work on the options of the simple-message test. *)
Lemma duplicate_threshold_key_keeps_last_witness :
  JS.object_literal Thresholds.simple_message !! "http_req_duration" =
  Some [Thresholds.Expr "p(99)<1000"].
Proof.
  apply (proj1 duplicate_threshold_key_keeps_last _ Thresholds.simple_message
           "http_req_duration" [Thresholds.Expr "p(95)<500"]).
  reflexivity.
Defined.


(** ** lib/auth-helper.js: the token cache *)

Section TokenCache.
Import JS AuthHelper.
Variables (lib : CredentialLibrary) (appId appPassword : string) (w : World).

Lemma getBotToken_hit cached :
  tokenCache w !! cacheKey appId appPassword = Some cached ->
  now w + 60000 < expiresAt cached ->
  getBotToken lib appId appPassword w = (Normal (token cached), w).
Proof.
  intros Hlook Hfresh. unfold getBotToken. rewrite Hlook.
  rewrite Z.gtb_ltb. by apply Z.ltb_lt in Hfresh as ->.
Qed.

Lemma getBotToken_miss :
  ~ fresh_entry appId appPassword w ->
  getBotToken lib appId appPassword w = generate lib appId appPassword w.
Proof.
  intros Hstale. unfold getBotToken.
  destruct (tokenCache w !! cacheKey appId appPassword) as [cached|] eqn:Hlook; [|done].
  rewrite Z.gtb_ltb.
  destruct (Z.ltb_spec (now w + 60000) (expiresAt cached)) as [Hlt|_]; [|done].
  exfalso. apply Hstale. by exists cached.
Qed.

Lemma generate_calls :
  libCalls (generate lib appId appPassword w).2 =
  (libCalls w ++ [(appId, appPassword)])%list.
Proof. unfold generate. by destruct (getToken lib appId appPassword (now w)). Qed.

(** An entry found under the key of a pair was stored for that pair:
    the key determines the pair when the application ids hold no colon
    (they are GUIDs). *)
Lemma cacheKey_injective a p a' p' :
  ~ In ":"%char (list_ascii_of_string a) ->
  ~ In ":"%char (list_ascii_of_string a') ->
  cacheKey a p = cacheKey a' p' -> a = a' /\ p = p'.
Proof.
  unfold cacheKey. revert a'.
  induction a as [|c a IH]; intros [|c' a'] Ha Ha' Heq; simpl in Ha, Ha';
    repeat change (String ?x ?s ++ ?t) with (String x (s ++ t)) in Heq;
    repeat change ("" ++ ?t) with t in Heq.
  - by injection Heq as ->.
  - injection Heq as <- _. tauto.
  - injection Heq as -> _. tauto.
  - injection Heq as -> Heq.
    destruct (IH a') as [-> ->]; [tauto | tauto | done | done].
Qed.

Lemma fresh_entry_dec :
  fresh_entry appId appPassword w \/ ~ fresh_entry appId appPassword w.
Proof.
  unfold fresh_entry.
  destruct (tokenCache w !! cacheKey appId appPassword) as [cached|] eqn:Hlook.
  - destruct (Z.ltb_spec (now w + 60000) (expiresAt cached)) as [Hlt|Hge].
    + left. by exists cached.
    + right. intros (c & Hc & Hlt). simplify_eq. lia.
  - right. by intros (c & Hc & _).
Qed.
End TokenCache.

(** X27: [getBotToken] answers from the cache, without a call to the
    credential library, exactly when the cache holds an entry under the
    key made of the app id, a colon and the password whose [expiresAt]
    is more than 60000 ms after the current time; it then returns that
    entry's token and changes nothing.  Otherwise it calls the library
    once and, when the library resolves to a token, stores the token
    under that key with [expiresAt] equal to the current time plus
    3600000 ms and returns it. *)
Theorem getBotToken_cache_policy
    (lib : AuthHelper.CredentialLibrary) (appId appPassword : string)
    (w : AuthHelper.World) :
  let key := appId ++ ":" ++ appPassword in
  let result := AuthHelper.getBotToken lib appId appPassword w in
  let fresh :=
    exists cached,
      AuthHelper.tokenCache w !! key = Some cached /\
      AuthHelper.now w + 60000 < AuthHelper.expiresAt cached in
  ((exists cached,
       AuthHelper.tokenCache w !! key = Some cached /\
       result.1 = JS.Normal (AuthHelper.token cached) /\
       AuthHelper.libCalls result.2 = AuthHelper.libCalls w)
   <-> fresh)
  /\ (fresh -> result.2 = w)
  /\ (~ fresh ->
      AuthHelper.libCalls result.2 =
        (AuthHelper.libCalls w ++ [(appId, appPassword)])%list /\
      forall tok,
        AuthHelper.getToken lib appId appPassword (AuthHelper.now w) =
          AuthHelper.Resolved tok ->
        result.1 = JS.Normal tok /\
        AuthHelper.tokenCache result.2 =
          <[ key := {| AuthHelper.token := tok;
                       AuthHelper.expiresAt :=
                         AuthHelper.now result.2 + 3600000 |} ]>
            (AuthHelper.tokenCache w) /\
        AuthHelper.tokenCache result.2 !! key =
          Some {| AuthHelper.token := tok;
                  AuthHelper.expiresAt := AuthHelper.now result.2 + 3600000 |}).
Proof.
  intros key result fresh. subst key result fresh.
  change (appId ++ ":" ++ appPassword) with (AuthHelper.cacheKey appId appPassword).
  fold (AuthHelper.fresh_entry appId appPassword w).
  split; [split|split].
  - intros (cached & Hlook & _ & Hcalls).
    destruct (fresh_entry_dec appId appPassword w) as [Hfresh|Hstale]; [done|].
    rewrite (getBotToken_miss lib _ _ _ Hstale), generate_calls in Hcalls.
    apply (f_equal length) in Hcalls. rewrite length_app in Hcalls.
    simpl in Hcalls. lia.
  - intros (cached & Hlook & Hlt). exists cached.
    by rewrite (getBotToken_hit lib _ _ _ cached Hlook Hlt).
  - intros (cached & Hlook & Hlt).
    by rewrite (getBotToken_hit lib _ _ _ cached Hlook Hlt).
  - intros Hstale. rewrite (getBotToken_miss lib _ _ _ Hstale).
    split; [apply generate_calls|].
    intros tok Hresolved. unfold AuthHelper.generate. rewrite Hresolved.
    simpl. repeat split. by rewrite lookup_insert_eq.
Qed.

(** C10: when the credential library throws while [getBotToken] is
    generating a fresh token, [getBotToken] throws an error whose
    message begins with "Failed to generate token:" and the token cache
    is exactly what it was before the call. *)
Theorem getBotToken_failure_keeps_cache
    (lib : AuthHelper.CredentialLibrary) (appId appPassword : string)
    (w : AuthHelper.World) (message : string) :
  ~ AuthHelper.fresh_entry appId appPassword w ->
  AuthHelper.getToken lib appId appPassword (AuthHelper.now w) =
    AuthHelper.Rejected message ->
  exists thrown,
    (AuthHelper.getBotToken lib appId appPassword w).1 = JS.Throw thrown /\
    thrown = "Failed to generate token: " ++ message /\
    String.prefix "Failed to generate token:" thrown = true /\
    AuthHelper.tokenCache (AuthHelper.getBotToken lib appId appPassword w).2 =
      AuthHelper.tokenCache w.
Proof.
  intros Hstale Hrejected.
  rewrite (getBotToken_miss lib _ _ _ Hstale).
  unfold AuthHelper.generate. rewrite Hrejected. simpl.
  eexists. repeat split.
Qed.

(** A hit on a warm cache at time 5000, with a library that would
    refuse; a miss on an empty cache at time 1000, stored to expire at
    1000 + 250 + 3600000. *)
Lemma getBotToken_cache_policy_witness :
  AuthHelper.fresh_entry "app" "secret" (Examples.warm 5000) /\
  AuthHelper.getBotToken Examples.lib_refused "app" "secret" (Examples.warm 5000) =
    (JS.Normal "eyJ0eXAi", Examples.warm 5000) /\
  ~ AuthHelper.fresh_entry "app" "secret" Examples.cold /\
  (AuthHelper.getBotToken Examples.lib_ok "app" "secret" Examples.cold).1 =
    JS.Normal "eyJ0eXAi" /\
  AuthHelper.tokenCache
    (AuthHelper.getBotToken Examples.lib_ok "app" "secret" Examples.cold).2
    !! "app:secret" =
    Some {| AuthHelper.token := "eyJ0eXAi"; AuthHelper.expiresAt := 3601250 |}.
Proof.
  assert (Hwarm : AuthHelper.fresh_entry "app" "secret" (Examples.warm 5000)).
  { eexists. split; [reflexivity|]. simpl. lia. }
  assert (Hcold : ~ AuthHelper.fresh_entry "app" "secret" Examples.cold).
  { intros (c & Hc & _). discriminate Hc. }
  destruct (getBotToken_cache_policy Examples.lib_refused "app" "secret"
              (Examples.warm 5000)) as ([_ Hhit] & Hsame & _).
  destruct (getBotToken_cache_policy Examples.lib_ok "app" "secret"
              Examples.cold) as (_ & _ & Hmiss).
  destruct (Hmiss Hcold) as [_ Hstore].
  destruct (Hstore "eyJ0eXAi" eq_refl) as (Hret & _ & Hentry).
  destruct (Hhit Hwarm) as (cached & Hlook & Hret' & _).
  injection Hlook as <-.
  split; [exact Hwarm|]. split.
  - rewrite (surjective_pairing (AuthHelper.getBotToken _ _ _ _)).
    by rewrite Hret', (Hsame Hwarm).
  - split; [exact Hcold|]. split; [exact Hret|exact Hentry].
Defined.

(** C5 (code bug): the cache is keyed by the text [appId:appPassword],
    which two different pairs can share.  After a token was fetched for
    the pair ("a:b", "c"), a call for the pair ("a", "b:c"), for which
    nothing was ever stored and the library never asked, is answered
    from the cache with the token of the first pair. *)
Lemma cache_entry_is_shared_between_pairs :
  let first := AuthHelper.getBotToken Cases.lib_per_pair "a:b" "c" Examples.cold in
  let second := AuthHelper.getBotToken Cases.lib_per_pair "a" "b:c" first.2 in
  first.1 = JS.Normal "token of a:b with c"
  /\ AuthHelper.libCalls first.2 = [("a:b", "c")]
  /\ second.1 = JS.Normal "token of a:b with c"
  /\ AuthHelper.libCalls second.2 = [("a:b", "c")]
  /\ AuthHelper.getToken Cases.lib_per_pair "a" "b:c" (AuthHelper.now first.2) =
       AuthHelper.Resolved "token of a with b:c"
  /\ ("a", "b:c") <> ("a:b", "c")
  /\ "a" ++ ":" ++ "b:c" = "a:b" ++ ":" ++ "c".
Proof. vm_compute. repeat split. discriminate. Qed.

(** A refused request at time 3600000, when the cached token is within
    a minute of its expiry. *)
Lemma getBotToken_failure_keeps_cache_witness :
  ~ AuthHelper.fresh_entry "app" "secret" (Examples.warm 3600000) /\
  exists thrown,
    (AuthHelper.getBotToken Examples.lib_refused "app" "secret"
       (Examples.warm 3600000)).1 = JS.Throw thrown /\
    thrown = "Failed to generate token: invalid_client" /\
    String.prefix "Failed to generate token:" thrown = true /\
    AuthHelper.tokenCache
      (AuthHelper.getBotToken Examples.lib_refused "app" "secret"
         (Examples.warm 3600000)).2 =
      AuthHelper.tokenCache (Examples.warm 3600000).
Proof.
  assert (Hstale : ~ AuthHelper.fresh_entry "app" "secret" (Examples.warm 3600000)).
  { intros (c & Hc & Hlt). vm_compute in Hc. injection Hc as <-.
    simpl in Hlt. lia. }
  split; [exact Hstale|].
  exact (getBotToken_failure_keeps_cache Examples.lib_refused "app" "secret"
           (Examples.warm 3600000) "invalid_client" Hstale eq_refl).
Defined.


(** ** lib/activity-factory.js *)

Lemma strict_eq_true (a b : ActivityFactory.value) :
  ActivityFactory.strict_eq a b = true <-> a = b.
Proof. unfold ActivityFactory.strict_eq. apply bool_decide_eq_true. Qed.

(** C9: whenever [createMessageActivity] returns an activity, its
    [conversation.isGroup] is true exactly when
    [options.conversation.conversationType] is the string 'group' or the
    string 'channel'; every activity [createTestActivity] returns has
    conversation type 'personal' and [isGroup] false, and it returns one
    for every configuration that has a test user and credentials. *)
Theorem isGroup_iff_group_or_channel :
  (forall rt n options activity n',
      ActivityFactory.createMessageActivity rt n options = (JS.Normal activity, n') ->
      exists conversation,
        ActivityFactory.opt_conversation options =
          ActivityFactory.Object conversation /\
        (ActivityFactory.isGroup (ActivityFactory.conversation activity) = true <->
         ActivityFactory.conv_conversationType conversation =
           ActivityFactory.Str "group" \/
         ActivityFactory.conv_conversationType conversation =
           ActivityFactory.Str "channel"))
  /\ (forall rt n config message activity n',
         ActivityFactory.createTestActivity rt n config message =
           (JS.Normal activity, n') ->
         ActivityFactory.conversationType (ActivityFactory.conversation activity) =
           ActivityFactory.Str "personal" /\
         ActivityFactory.isGroup (ActivityFactory.conversation activity) = false)
  /\ (forall rt n config message,
         (exists user,
             ActivityFactory.testUser config = ActivityFactory.Object user) ->
         (exists creds,
             ActivityFactory.credentials config = ActivityFactory.Object creds) ->
         exists activity n',
           ActivityFactory.createTestActivity rt n config message =
             (JS.Normal activity, n')).
Proof.
  split; [|split].
  - intros rt n options activity n' Hcall.
    unfold ActivityFactory.createMessageActivity in Hcall.
    destruct (ActivityFactory.opt_from options); [discriminate..|].
    destruct (ActivityFactory.opt_recipient options); [discriminate..|].
    destruct (ActivityFactory.opt_conversation options) as [| |conversation];
      [discriminate..|].
    exists conversation. split; [done|].
    injection Hcall as <- _. simpl.
    rewrite orb_true_iff, !strict_eq_true. reflexivity.
  - intros rt n config message activity n' Hcall.
    unfold ActivityFactory.createTestActivity in Hcall.
    destruct (ActivityFactory.testUser config); [discriminate..|].
    destruct (ActivityFactory.credentials config); [discriminate..|].
    unfold ActivityFactory.createMessageActivity in Hcall. simpl in Hcall.
    injection Hcall as <- _. split; reflexivity.
  - intros rt n config message [user Huser] [creds Hcreds].
    unfold ActivityFactory.createTestActivity. rewrite Huser, Hcreds.
    unfold ActivityFactory.createMessageActivity. simpl. eauto.
Qed.

(** A channel message is a group message; the test activity of the
    local configuration is personal. *)
Lemma isGroup_iff_group_or_channel_witness :
  (exists activity n',
      ActivityFactory.createMessageActivity Examples.runtime 0
        Examples.channel_options = (JS.Normal activity, n') /\
      ActivityFactory.isGroup (ActivityFactory.conversation activity) = true)
  /\ (exists activity n',
         ActivityFactory.createTestActivity Examples.runtime 0
           Examples.local_config ActivityFactory.Undefined =
           (JS.Normal activity, n') /\
         ActivityFactory.conversationType (ActivityFactory.conversation activity) =
           ActivityFactory.Str "personal" /\
         ActivityFactory.isGroup (ActivityFactory.conversation activity) = false).
Proof.
  destruct isGroup_iff_group_or_channel as (Hmessage & Htest & Htotal).
  split.
  - eexists _, _. split; [reflexivity|].
    destruct (Hmessage Examples.runtime 0%nat Examples.channel_options _ _ eq_refl)
      as (conversation & Hconv & Hiff).
    injection Hconv as <-. apply Hiff. by right.
  - destruct (Htotal Examples.runtime 0%nat Examples.local_config
                ActivityFactory.Undefined) as (activity & n' & Hcall);
      [by eexists | by eexists |].
    exists activity, n'. split; [exact Hcall|].
    exact (Htest _ _ _ _ _ _ Hcall).
Defined.


(** ** tests/simple-message.test.js: configuration loading *)

Section Loading.
Import JS K6 SimpleMessage.
Variable env : gmap string string.

Lemma switch_env_known config :
  switch_env env = Normal config ->
  toLowerCase (ENV env) = "local" \/ toLowerCase (ENV env) = "stage" \/
  toLowerCase (ENV env) = "prod".
Proof.
  unfold switch_env.
  destruct (String.eqb_spec (toLowerCase (ENV env)) "local"); [auto|].
  destruct (String.eqb_spec (toLowerCase (ENV env)) "stage"); [auto|].
  destruct (String.eqb_spec (toLowerCase (ENV env)) "prod"); [auto|].
  discriminate.
Qed.

Lemma switch_env_unknown :
  toLowerCase (ENV env) <> "local" -> toLowerCase (ENV env) <> "stage" ->
  toLowerCase (ENV env) <> "prod" ->
  switch_env env = Throw ("Unknown environment: " ++ ENV env).
Proof.
  intros Hl Hs Hp. unfold switch_env.
  apply String.eqb_neq in Hl as ->. apply String.eqb_neq in Hs as ->.
  by apply String.eqb_neq in Hp as ->.
Qed.
End Loading.

(** C4 (amended): an [ENV] whose lower-case form is not local, stage or
    prod, and a configuration whose bot endpoint is missing, end the
    script in its init code with an error that names the item, and the
    run has no event at all, hence no request.  A configuration that
    lacks the token is not an error: the init code only warns, and the
    run goes on to [setup] and the iterations.  Nothing else is
    validated: whatever the app id and the tenant id are, a
    configuration with an endpoint loads, without any event when it has
    a token. *)
Theorem configuration_errors_are_fatal_except_token
    (env : gmap string string) (inputs : list (K6.Runtime * K6.Response))
    (last : K6.Runtime) (elapsed : Q) :
  (JS.toLowerCase (SimpleMessage.ENV env) <> "local" ->
   JS.toLowerCase (SimpleMessage.ENV env) <> "stage" ->
   JS.toLowerCase (SimpleMessage.ENV env) <> "prod" ->
   SimpleMessage.run env inputs last elapsed =
     (JS.Throw ("Unknown environment: " ++ SimpleMessage.ENV env), []))
  /\ (forall config,
         SimpleMessage.switch_env env = JS.Normal config ->
         JS.truthy (SimpleMessage.endpoint config) = false ->
         SimpleMessage.run env inputs last elapsed =
           (JS.Throw ("Missing bot endpoint for environment: " ++
                      SimpleMessage.ENV env), []))
  /\ (forall m evs,
         SimpleMessage.run env inputs last elapsed = (JS.Throw m, evs) ->
         List.filter K6.is_request evs = [])
  /\ (forall config,
         SimpleMessage.switch_env env = JS.Normal config ->
         JS.truthy (SimpleMessage.endpoint config) = true ->
         JS.truthy (SimpleMessage.token config) = false ->
         SimpleMessage.init env =
           (JS.Normal config, [K6.ConsoleWarn SimpleMessage.no_token_warning]) /\
         SimpleMessage.run env inputs last elapsed =
           (JS.Normal tt,
            (K6.ConsoleWarn SimpleMessage.no_token_warning ::
             SimpleMessage.setup env config ++
             SimpleMessage.iterations env config inputs ++
             SimpleMessage.teardown last elapsed)%list))
  /\ (forall config,
         SimpleMessage.switch_env env = JS.Normal config ->
         JS.truthy (SimpleMessage.endpoint config) = true ->
         JS.truthy (SimpleMessage.token config) = true ->
         SimpleMessage.init env = (JS.Normal config, []) /\
         SimpleMessage.run env inputs last elapsed =
           (JS.Normal tt,
            (SimpleMessage.setup env config ++
             SimpleMessage.iterations env config inputs ++
             SimpleMessage.teardown last elapsed)%list))
  /\ (forall config,
         SimpleMessage.switch_env env = JS.Normal config ->
         JS.truthy (SimpleMessage.endpoint config) = true ->
         (SimpleMessage.init env).1 = JS.Normal config /\
         (SimpleMessage.run env inputs last elapsed).1 = JS.Normal tt)
  /\ SimpleMessage.no_token_warning =
       "⚠️  No BOT_TOKEN provided. Run `npm run generate-token` to generate one.".
Proof.
  unfold SimpleMessage.run, SimpleMessage.init.
  split; [|split; [|split; [|split; [|split; [|split; [|reflexivity]]]]]].
  - intros Hl Hs Hp. by rewrite (switch_env_unknown env Hl Hs Hp).
  - intros config -> Hmissing. by rewrite Hmissing.
  - intros m evs.
    destruct (SimpleMessage.switch_env env) as [config|m'].
    + destruct (JS.truthy (SimpleMessage.endpoint config)); simpl.
      * discriminate.
      * by intros [= _ <-].
    + by intros [= _ <-].
  - intros config -> Hendpoint Htoken. by rewrite Hendpoint, Htoken.
  - intros config -> Hendpoint Htoken. by rewrite Hendpoint, Htoken.
  - intros config -> Hendpoint. by rewrite Hendpoint.
Qed.

(** [ENV=qa] and a stage environment without endpoint are fatal; a
    stage environment without token loads with a warning, and one with
    a token but neither app id nor tenant id loads silently. *)
Lemma configuration_errors_are_fatal_except_token_witness :
  SimpleMessage.run Examples.env_unknown
      [(Examples.k6_runtime, Examples.accepted)] Examples.k6_runtime (inject_Z 1) =
    (JS.Throw "Unknown environment: qa", [])
  /\ SimpleMessage.run Examples.env_stage_bare
      [(Examples.k6_runtime, Examples.accepted)] Examples.k6_runtime (inject_Z 1) =
    (JS.Throw "Missing bot endpoint for environment: stage", [])
  /\ SimpleMessage.init Examples.env_stage_no_token =
    (JS.Normal Examples.stage_config,
     [K6.ConsoleWarn SimpleMessage.no_token_warning])
  /\ SimpleMessage.init Examples.env_stage_token =
    (JS.Normal
       {| SimpleMessage.endpoint := Some "https://stage.example.com/api/messages";
          SimpleMessage.appId := None;
          SimpleMessage.tenantId := None;
          SimpleMessage.token := Some "eyJ0eXAi" |},
     []).
Proof.
  destruct (configuration_errors_are_fatal_except_token Examples.env_unknown
              [(Examples.k6_runtime, Examples.accepted)] Examples.k6_runtime
              (inject_Z 1)) as (Hunknown & _).
  destruct (configuration_errors_are_fatal_except_token Examples.env_stage_bare
              [(Examples.k6_runtime, Examples.accepted)] Examples.k6_runtime
              (inject_Z 1)) as (_ & Hmissing & _).
  destruct (configuration_errors_are_fatal_except_token Examples.env_stage_no_token
              [(Examples.k6_runtime, Examples.accepted)] Examples.k6_runtime
              (inject_Z 1)) as (_ & _ & _ & Hwarn & _).
  destruct (configuration_errors_are_fatal_except_token Examples.env_stage_token
              [(Examples.k6_runtime, Examples.accepted)] Examples.k6_runtime
              (inject_Z 1)) as (_ & _ & _ & _ & Htoken & _).
  split; [|split; [|split]].
  - apply Hunknown; vm_compute; discriminate.
  - eapply Hmissing; vm_compute; reflexivity.
  - apply (Hwarn Examples.stage_config); vm_compute; reflexivity.
  - eapply Htoken; vm_compute; reflexivity.
Defined.

(** Counterexample to C4 as stated: with [ENV=STAGE], the stage endpoint set and
    neither token nor credentials, the init code returns the
    configuration after a single warning, and the run posts its
    request. *)
Lemma missing_token_is_not_fatal :
  SimpleMessage.init Examples.env_stage_no_token =
    (JS.Normal
       {| SimpleMessage.endpoint := Some "https://stage.example.com/api/messages";
          SimpleMessage.appId := None;
          SimpleMessage.tenantId := None;
          SimpleMessage.token := None |},
     [K6.ConsoleWarn SimpleMessage.no_token_warning])
  /\ (SimpleMessage.run Examples.env_stage_no_token
        [(Examples.k6_runtime, Examples.accepted)] Examples.k6_runtime
        (inject_Z 1)).1 = JS.Normal tt
  /\ length (List.filter K6.is_request
               (SimpleMessage.run Examples.env_stage_no_token
                  [(Examples.k6_runtime, Examples.accepted)] Examples.k6_runtime
                  (inject_Z 1)).2) = 1%nat.
Proof. vm_compute. repeat split. Qed.


(** ** The iteration functions *)

Section Checks.
Import JS K6.

Lemma check_events r cs : Forall is_check (check r cs).2.
Proof.
  induction cs as [|[name predicate] cs IH]; simpl; [constructor|].
  destruct (predicate r) as [passed|m]; simpl; [|constructor].
  destruct (check r cs) as [[others|m] evs]; simpl in *;
    (constructor; [by exists name, passed | exact IH]).
Qed.

Lemma omap_checks {A} (f : Event -> option A) evs :
  (forall name passed, f (Check name passed) = None) ->
  Forall is_check evs -> omap f evs = [].
Proof.
  intros Hf. induction 1 as [|e evs (name & passed & ->) _ IH]; [done|].
  simpl. by rewrite Hf.
Qed.

Lemma added_checks m r cs : added m (check r cs).2 = [].
Proof. apply omap_checks; [done | apply check_events]. Qed.

Lemma posted_headers_checks r cs : posted_headers (check r cs).2 = [].
Proof. apply omap_checks; [done | apply check_events]. Qed.

Lemma samples_of_checks r cs : Engine.samples_of (check r cs).2 = [].
Proof. apply omap_checks; [done | apply check_events]. Qed.

(** The three checks of the ENV-driven simple-message test never
    throw: [includes] is called on a body known to be a non-empty
    string. *)
Lemma simple_message_check r :
  check r SimpleMessage.checks =
    (Normal (((status r =? 200) || (status r =? 202)) &&
             (lt_ms (duration r) 1000 &&
              ((negb (truthy (body r)) ||
                negb (includes "error" (default "" (body r)))) && true))),
     [ Check "status is 200 or 202" ((status r =? 200) || (status r =? 202));
       Check "response time < 1000ms" (lt_ms (duration r) 1000);
       Check "no error in response"
             (negb (truthy (body r)) ||
              negb (includes "error" (default "" (body r)))) ]).
Proof.
  unfold SimpleMessage.checks. simpl.
  destruct (body r) as [b|]; simpl; [|done].
  by destruct (String.eqb b "").
Qed.

Lemma load_test_mode_check r :
  check r SimpleMessageLoadTestMode.checks =
    (Normal (((status r =? 200) || (status r =? 202)) &&
             (lt_ms (duration r) 10000 && true)),
     [ Check "status is 200 or 202" ((status r =? 200) || (status r =? 202));
       Check "response time < 10s" (lt_ms (duration r) 10000) ]).
Proof. reflexivity. Qed.

Lemma simple_message_success r :
  SimpleMessage.success r =
    ((status r =? 200) || (status r =? 202)) &&
    lt_ms (duration r) 1000 &&
    (negb (truthy (body r)) || negb (includes "error" (default "" (body r)))).
Proof.
  unfold SimpleMessage.success. rewrite simple_message_check. simpl.
  by rewrite andb_true_r, andb_assoc.
Qed.

Lemma simple_message_default env config rt r :
  SimpleMessage.default env config rt r =
    (Normal tt,
     (HttpPost (template (SimpleMessage.endpoint config))
               (SimpleMessage.createActivity env config rt
                  (or_else (env !! "TEST_MESSAGE") "test"))
               (SimpleMessage.request_headers config)
               (object_literal [("name", "SendMessage")])
      :: (check r SimpleMessage.checks).2 ++
      [MetricAdd "errors" (BoolValue (negb (SimpleMessage.success r)))] ++
      (if negb (SimpleMessage.success r)
       then [ConsoleError (SimpleMessage.failure_message r)] else []) ++
      [Sleep (inject_Z 1)])%list).
Proof.
  unfold SimpleMessage.default, SimpleMessage.success.
  by rewrite simple_message_check.
Qed.
End Checks.

(** C7: for every response the default function of the simple-message
    test returns normally; its events are the request, the check
    results, one sample for the [errors] Rate whose value is the
    negation of the combined check result, the error log line when the
    checks failed, which reads "Request failed: <status> - <body>", and
    last the one-second sleep.  The combined check result is the
    conjunction of the three checks. *)
Theorem iteration_failure_is_recorded_not_thrown
    (env : gmap string string) (config : SimpleMessage.Config)
    (rt : K6.Runtime) (response : K6.Response) :
  let result := SimpleMessage.default env config rt response in
  let success := SimpleMessage.success response in
  result.1 = JS.Normal tt
  /\ (exists post checked,
         K6.is_request post = true /\ Forall K6.is_check checked /\
         result.2 =
           (post :: checked ++
            [K6.MetricAdd "errors" (K6.BoolValue (negb success))] ++
            (if success then []
             else [K6.ConsoleError
                     ("Request failed: " ++ pretty (K6.status response) ++ " - " ++
                      match K6.body response with
                      | Some text => text
                      | None => "null"
                      end)%string]) ++
            [K6.Sleep (inject_Z 1)])%list)
  /\ K6.added "errors" result.2 = [K6.BoolValue (negb success)]
  /\ last result.2 = Some (K6.Sleep (inject_Z 1))
  /\ success =
       ((K6.status response =? 200) || (K6.status response =? 202)) &&
       K6.lt_ms (K6.duration response) 1000 &&
       (negb (JS.truthy (K6.body response)) ||
        negb (JS.includes "error" (default "" (K6.body response)))).
Proof.
  intros result success. subst result success.
  rewrite simple_message_default. cbn [fst snd].
  split; [done|]. split; [|split; [|split]].
  - eexists (K6.HttpPost _ _ _ _), _.
    split; [reflexivity|]. split; [apply check_events|].
    by destruct (SimpleMessage.success response).
  - change (K6.added "errors" (?e :: ?l)) with (K6.added "errors" l).
    unfold K6.added at 1. rewrite !omap_app.
    fold (K6.added "errors" (K6.check response SimpleMessage.checks).2).
    rewrite added_checks.
    by destruct (SimpleMessage.success response).
  - rewrite app_comm_cons, !app_assoc. apply last_snoc.
  - apply simple_message_success.
Qed.


(** ** The [Authorization] header *)

Section Headers.
Import JS K6.

Lemma posted_headers_health config h : posted_headers (Smoke.health_check config h) = [].
Proof.
  unfold Smoke.health_check.
  destruct (truthy (Smoke.healthEndpoint config)); [|done].
  by destruct (status h =? 200).
Qed.

Lemma posted_headers_report r : posted_headers (Smoke.report_status r) = [].
Proof. unfold Smoke.report_status. by repeat case_match. Qed.

Lemma smoke_posted_headers env config rt h r :
  posted_headers (Smoke.default env config rt h r).2 = [Smoke.request_headers config].
Proof.
  unfold Smoke.default.
  pose proof (posted_headers_checks r Smoke.checks) as Hchecks.
  destruct (check r Smoke.checks) as [[passed|m] evs]; cbn [fst snd] in *;
    unfold posted_headers in *; rewrite !omap_app, Hchecks;
    fold (posted_headers (Smoke.health_check config h));
    rewrite posted_headers_health; [|done].
  fold (posted_headers (Smoke.report_status r)).
  rewrite posted_headers_report. cbn [omap app].
  destruct (negb passed); destruct (negb (truthy (Smoke.token config))); done.
Qed.

Lemma simple_message_posted_headers env config rt r :
  posted_headers (SimpleMessage.default env config rt r).2 =
    [SimpleMessage.request_headers config].
Proof.
  rewrite simple_message_default. cbn [fst snd].
  change (posted_headers (HttpPost ?u ?p ?hd ?t :: ?l)) with (hd :: posted_headers l).
  f_equal. unfold posted_headers at 1. rewrite !omap_app.
  fold (posted_headers (check r SimpleMessage.checks).2).
  rewrite posted_headers_checks.
  by destruct (negb (SimpleMessage.success r)).
Qed.

Lemma load_test_mode_posted_headers env rt r :
  posted_headers (SimpleMessageLoadTestMode.default env rt r).2 =
    [SimpleMessageLoadTestMode.request_headers env].
Proof.
  unfold SimpleMessageLoadTestMode.default.
  pose proof (posted_headers_checks r SimpleMessageLoadTestMode.checks) as Hchecks.
  destruct (check r SimpleMessageLoadTestMode.checks) as [[passed|m] evs];
    cbn [fst snd] in *;
    change (posted_headers (HttpPost ?u ?p ?hd ?t :: ?l)) with (hd :: posted_headers l);
    f_equal; [|exact Hchecks].
  unfold posted_headers in *. rewrite !omap_app, Hchecks.
  by destruct (negb passed).
Qed.

Lemma stress_posted_headers env rt r :
  posted_headers (StressBreakpoint.default env rt r).2 =
    [SimpleMessageLoadTestMode.request_headers env].
Proof.
  unfold StressBreakpoint.default.
  pose proof (posted_headers_checks r SimpleMessageLoadTestMode.checks) as Hchecks.
  destruct (check r SimpleMessageLoadTestMode.checks) as [[passed|m] evs];
    cbn [fst snd] in *;
    change (posted_headers (HttpPost ?u ?p ?hd ?t :: ?l)) with (hd :: posted_headers l);
    f_equal; unfold posted_headers in *; rewrite !omap_app, Hchecks; [|done].
  by destruct (negb passed).
Qed.

Lemma load_test_mode_smoke_posted_headers env rt h r :
  posted_headers (SmokeLoadTestMode.default env rt h r).2 =
    [SmokeLoadTestMode.request_headers].
Proof.
  unfold SmokeLoadTestMode.default.
  pose proof (posted_headers_checks r SmokeLoadTestMode.checks) as Hchecks.
  assert (Hreport : posted_headers (SmokeLoadTestMode.report_status r) = []).
  { unfold SmokeLoadTestMode.report_status. by repeat case_match. }
  destruct (check r SmokeLoadTestMode.checks) as [[passed|m] evs]; cbn [fst snd] in *;
    unfold posted_headers in *; rewrite !omap_app, Hchecks.
  - rewrite Hreport. destruct (status h =? 200), (negb passed); reflexivity.
  - by destruct (status h =? 200).
Qed.
End Headers.

(** C6 (amended): the ENV-driven simple-message test attaches
    [Authorization: Bearer <token>] exactly when a token is configured
    and no [Authorization] header otherwise.  The ENV-driven smoke test
    sets the [Authorization] header of its message request in every
    case: to [Bearer <token>] when a token is configured, to the empty
    string when none is.  The LOAD_TEST_MODE scripts (simple-message,
    smoke and stress test) know no token, and the one request each of
    their iterations posts has no [Authorization] header. *)
Theorem authorization_header_per_script :
  (forall config,
      SimpleMessage.request_headers config !! "Authorization" =
        if JS.truthy (SimpleMessage.token config)
        then Some ("Bearer " ++ JS.template (SimpleMessage.token config))
        else None)
  /\ (forall env config rt r,
         K6.posted_headers (SimpleMessage.default env config rt r).2 =
           [SimpleMessage.request_headers config])
  /\ (forall config,
         Smoke.request_headers config !! "Authorization" =
           Some (if JS.truthy (Smoke.token config)
                 then "Bearer " ++ JS.template (Smoke.token config)
                 else ""))
  /\ (forall env config rt h r,
         K6.posted_headers (Smoke.default env config rt h r).2 =
           [Smoke.request_headers config])
  /\ (forall env,
         SimpleMessageLoadTestMode.request_headers env !! "Authorization" = None)
  /\ SmokeLoadTestMode.request_headers !! "Authorization" = None
  /\ (forall env config rt r,
         (fun h : gmap string string => h !! "Authorization") <$>
           K6.posted_headers (SimpleMessage.default env config rt r).2 =
         [ if JS.truthy (SimpleMessage.token config)
           then Some ("Bearer " ++ JS.template (SimpleMessage.token config))
           else None ])
  /\ (forall env config rt h r,
         (fun h : gmap string string => h !! "Authorization") <$>
           K6.posted_headers (Smoke.default env config rt h r).2 =
         [ Some (if JS.truthy (Smoke.token config)
                 then "Bearer " ++ JS.template (Smoke.token config)
                 else "") ])
  /\ (forall env rt r,
         (fun h : gmap string string => h !! "Authorization") <$>
           K6.posted_headers (SimpleMessageLoadTestMode.default env rt r).2 =
         [None])
  /\ (forall env rt h r,
         (fun h : gmap string string => h !! "Authorization") <$>
           K6.posted_headers (SmokeLoadTestMode.default env rt h r).2 =
         [None])
  /\ (forall env rt r,
         (fun h : gmap string string => h !! "Authorization") <$>
           K6.posted_headers (StressBreakpoint.default env rt r).2 =
         [None]).
Proof.
  assert (Hsimple : forall config,
    SimpleMessage.request_headers config !! "Authorization" =
      if JS.truthy (SimpleMessage.token config)
      then Some ("Bearer " ++ JS.template (SimpleMessage.token config))
      else None).
  { intros config. unfold SimpleMessage.request_headers, JS.object_literal.
    simpl. destruct (JS.truthy (SimpleMessage.token config)).
    - by rewrite lookup_insert_eq.
    - by rewrite lookup_insert_ne, lookup_empty. }
  assert (Hsmoke : forall config,
    Smoke.request_headers config !! "Authorization" =
      Some (if JS.truthy (Smoke.token config)
            then "Bearer " ++ JS.template (Smoke.token config)
            else "")).
  { intros config. unfold Smoke.request_headers, JS.object_literal. simpl.
    by rewrite lookup_insert_eq. }
  assert (Hload : forall env,
    SimpleMessageLoadTestMode.request_headers env !! "Authorization" = None).
  { intros env. unfold SimpleMessageLoadTestMode.request_headers, JS.object_literal.
    simpl. by rewrite !lookup_insert_ne, lookup_empty. }
  assert (Hloadsmoke : SmokeLoadTestMode.request_headers !! "Authorization" = None).
  { unfold SmokeLoadTestMode.request_headers, JS.object_literal. simpl.
    by rewrite lookup_insert_ne, lookup_empty. }
  split; [exact Hsimple|]. split; [apply simple_message_posted_headers|].
  split; [exact Hsmoke|]. split; [apply smoke_posted_headers|].
  split; [exact Hload|]. split; [exact Hloadsmoke|].
  split; [intros; rewrite simple_message_posted_headers; cbn [fmap list_fmap];
          by rewrite Hsimple|].
  split; [intros; rewrite smoke_posted_headers; cbn [fmap list_fmap];
          by rewrite Hsmoke|].
  split; [intros; rewrite load_test_mode_posted_headers; cbn [fmap list_fmap];
          by rewrite Hload|].
  split; [intros; rewrite load_test_mode_smoke_posted_headers; cbn [fmap list_fmap];
          by rewrite Hloadsmoke|].
  intros. rewrite stress_posted_headers. cbn [fmap list_fmap]. by rewrite Hload.
Qed.


(** Counterexample to C6 as stated, on tests/smoke.test.js: with no token
    configured the message request still carries an [Authorization]
    header, whose value is the empty string. *)
Lemma smoke_sends_empty_authorization :
  Smoke.switch_env ∅ = JS.Normal Examples.smoke_local
  /\ JS.truthy (Smoke.token Examples.smoke_local) = false
  /\ (fun h : gmap string string => h !! "Authorization") <$>
       K6.posted_headers
         (Smoke.default ∅ Examples.smoke_local Examples.k6_runtime
            Examples.accepted Examples.accepted).2 =
     [Some ""].
Proof. vm_compute. repeat split. Qed.


(** ** The metrics aggregator *)

Section AggregatorFacts.
Import Engine.
Context {Est : Type} (feed : Q -> Est -> Est).
Implicit Types (aggs : gmap string (MetricAggregate Est)) (s : Sample)
  (samples : list Sample) (m : string).

Lemma record_all_cons s samples aggs :
  record_all feed (s :: samples) aggs = record_all feed samples (record feed s aggs).
Proof. reflexivity. Qed.

Lemma record_all_app samples1 samples2 aggs :
  record_all feed (samples1 ++ samples2) aggs =
  record_all feed samples2 (record_all feed samples1 aggs).
Proof. apply foldl_app. Qed.

Lemma named_cons m s samples :
  named m (s :: samples) =
  if decide (metric s = m) then s :: named m samples else named m samples.
Proof. unfold named. by rewrite filter_cons. Qed.

Lemma count_of_record m s aggs :
  count_of m (record feed s aggs) =
  if decide (metric s = m) then S <$> count_of m aggs else count_of m aggs.
Proof.
  unfold count_of, record. rewrite lookup_alter.
  destruct (decide (metric s = m)) as [->|]; [|done].
  by destruct (aggs !! m) as [[]|].
Qed.

Lemma rate_of_record m s aggs :
  rate_of m (record feed s aggs) =
  if decide (metric s = m)
  then (fun r => ((if truthy (value s) then S r.1 else r.1), S r.2)) <$> rate_of m aggs
  else rate_of m aggs.
Proof.
  unfold rate_of, record. rewrite lookup_alter.
  destruct (decide (metric s = m)) as [->|]; [|done].
  by destruct (aggs !! m) as [[]|].
Qed.

Lemma count_of_record_all m samples aggs :
  count_of m (record_all feed samples aggs) =
  (fun c => (c + length (named m samples))%nat) <$> count_of m aggs.
Proof.
  revert aggs. induction samples as [|s samples IH]; intros aggs.
  - simpl. destruct (count_of m aggs); simpl; [f_equal; lia | done].
  - rewrite record_all_cons, IH, count_of_record, named_cons.
    destruct (decide (metric s = m)); [|done].
    destruct (count_of m aggs); simpl; [f_equal; lia | done].
Qed.

Lemma rate_of_record_all m samples aggs :
  rate_of m (record_all feed samples aggs) =
  (fun r => ((r.1 + length (truthy_named m samples))%nat,
             (r.2 + length (named m samples))%nat)) <$> rate_of m aggs.
Proof.
  revert aggs. induction samples as [|s samples IH]; intros aggs.
  - simpl. destruct (rate_of m aggs) as [[a b]|]; simpl; [|done].
    do 2 f_equal; lia.
  - rewrite record_all_cons, IH, rate_of_record.
    unfold truthy_named. rewrite named_cons.
    destruct (decide (metric s = m)); [|done].
    destruct (rate_of m aggs) as [[a b]|]; simpl; [|done].
    rewrite filter_cons.
    destruct (decide (truthy (value s) = true)) as [->|Hfalse]; simpl.
    + do 2 f_equal; lia.
    + apply not_true_is_false in Hfalse as ->. do 2 f_equal; lia.
Qed.

Lemma named_Permutation m samples samples' :
  samples ≡ₚ samples' -> named m samples ≡ₚ named m samples'.
Proof. intros Hperm. unfold named. by rewrite Hperm. Qed.

Lemma declared_map {A B} (f : A -> B) (l : list (string * A)) m :
  JS.declared m (map (fun nk => (nk.1, f nk.2)) l) = map f (JS.declared m l).
Proof.
  unfold JS.declared. induction l as [|[n a] l IH]; [done|].
  rewrite map_cons, !filter_cons. cbn [fst snd].
  destruct (decide (n = m)); [|exact IH].
  rewrite !fmap_cons. cbn [fst snd map]. by rewrite IH.
Qed.

Lemma registry_lookup (est0 : Est) (metrics : list (string * K6.MetricKind)) m k :
  JS.declared m metrics = [k] ->
  registry est0 metrics !! m = Some (initial est0 k).
Proof.
  intros Hdecl. unfold registry.
  by rewrite object_literal_lookup, declared_map, Hdecl.
Qed.
End AggregatorFacts.

Section ScriptSamples.
Import JS K6 Engine.

Lemma samples_of_app evs1 evs2 :
  samples_of (evs1 ++ evs2) = (samples_of evs1 ++ samples_of evs2)%list.
Proof. apply omap_app. Qed.

Lemma samples_of_flat_map {A} (f : A -> list Event) inputs :
  samples_of (flat_map f inputs) = flat_map (fun i => samples_of (f i)) inputs.
Proof.
  induction inputs as [|i inputs IH]; [done|].
  simpl. by rewrite samples_of_app, IH.
Qed.

Lemma filter_flat_map {A B} (P : B -> Prop) `{forall x, Decision (P x)}
    (g : A -> list B) inputs :
  filter P (flat_map g inputs) = flat_map (fun i => filter P (g i)) inputs.
Proof.
  induction inputs as [|i inputs IH]; [done|].
  simpl. by rewrite filter_app, IH.
Qed.

Lemma length_flat_map_filter {A B} (g : A -> list B)
    (R : A -> Prop) `{forall x, Decision (R x)} inputs :
  (forall i, length (g i) = if decide (R i) then 1%nat else 0%nat) ->
  length (flat_map g inputs) = length (filter R inputs).
Proof.
  intros Hg. induction inputs as [|i inputs IH]; [done|].
  simpl. rewrite length_app, Hg, IH, filter_cons.
  by destruct (decide (R i)).
Qed.

Lemma length_flat_map_one {A B} (g : A -> list B) inputs :
  (forall i, length (g i) = 1%nat) ->
  length (flat_map g inputs) = length inputs.
Proof.
  intros Hg. induction inputs as [|i inputs IH]; [done|].
  simpl. by rewrite length_app, Hg, IH.
Qed.

Lemma simple_message_samples env config rt r :
  samples_of (SimpleMessage.default env config rt r).2 =
    [ {| metric := "errors";
         value := value_of (BoolValue (negb (SimpleMessage.success r))) |} ].
Proof.
  rewrite simple_message_default. cbn [fst snd].
  change (samples_of (HttpPost ?u ?p ?hd ?t :: ?l)) with (samples_of l).
  rewrite !samples_of_app, samples_of_checks.
  by destruct (negb (SimpleMessage.success r)).
Qed.

Lemma stress_samples env rt r :
  samples_of (StressBreakpoint.default env rt r).2 =
    [ {| metric := "total_requests"; value := inject_Z 1 |};
      {| metric := "response_time_trend"; value := K6.duration r |};
      {| metric := "success_rate";
         value := value_of (BoolValue (SimpleMessageLoadTestMode.success r)) |};
      {| metric := "errors";
         value := value_of (BoolValue (negb (SimpleMessageLoadTestMode.success r))) |} ].
Proof.
  unfold StressBreakpoint.default, SimpleMessageLoadTestMode.success.
  rewrite load_test_mode_check. cbn [fst snd].
  change (samples_of (HttpPost ?u ?p ?hd ?t :: ?l)) with (samples_of l).
  rewrite !samples_of_app.
  by destruct (negb _).
Qed.
End ScriptSamples.

(** C3: the [count] of a Trend after a list of samples was recorded is
    its count before plus the number of samples recorded for that
    metric, so it is the same for every order of the same samples:
    two updates commute, and recording batch after batch adds the batch
    sizes up.  For the stress test, whose every iteration adds the
    response time to [response_time_trend], the count after a run is
    the number of iterations. *)
Theorem trend_count_is_number_of_samples
    (Est : Type) (feed : Q -> Est -> Est) :
  (forall aggs samples m,
      Engine.count_of m (Engine.record_all feed samples aggs) =
        (fun c => (c + length (Engine.named m samples))%nat) <$>
          Engine.count_of m aggs)
  /\ (forall aggs samples samples' m,
         samples ≡ₚ samples' ->
         Engine.count_of m (Engine.record_all feed samples aggs) =
         Engine.count_of m (Engine.record_all feed samples' aggs))
  /\ (forall aggs s1 s2 m,
         Engine.count_of m (Engine.record feed s1 (Engine.record feed s2 aggs)) =
         Engine.count_of m (Engine.record feed s2 (Engine.record feed s1 aggs)))
  /\ (forall aggs batch1 batch2 m,
         Engine.count_of m (Engine.record_all feed (batch1 ++ batch2) aggs) =
           (fun c => (c + length (Engine.named m batch2))%nat) <$>
             Engine.count_of m (Engine.record_all feed batch1 aggs))
  /\ (forall est0 env inputs,
         Engine.count_of "response_time_trend"
           (Engine.record_all feed
              (Engine.samples_of (StressBreakpoint.iterations env inputs))
              (Engine.registry est0 StressBreakpoint.metrics)) =
           Some (length inputs)).
Proof.
  split; [|split; [|split; [|split]]].
  - intros. apply count_of_record_all.
  - intros aggs samples samples' m Hperm.
    rewrite !count_of_record_all.
    by rewrite (Permutation_length (named_Permutation m _ _ Hperm)).
  - intros aggs s1 s2 m. rewrite !count_of_record.
    by repeat case_decide.
  - intros aggs batch1 batch2 m.
    by rewrite record_all_app, count_of_record_all.
  - intros est0 env inputs. rewrite count_of_record_all.
    unfold Engine.count_of at 1.
    rewrite (registry_lookup est0 _ _ K6.TrendKind) by reflexivity.
    simpl. f_equal.
    unfold StressBreakpoint.iterations, Engine.named.
    rewrite samples_of_flat_map, filter_flat_map.
    apply length_flat_map_one. intros [rt r].
    by rewrite stress_samples.
Qed.

(** Two interleavings of the same three samples give the same count. *)
Lemma trend_count_is_number_of_samples_witness :
  Examples.interleaved ≡ₚ Examples.reordered /\
  Engine.count_of "response_time_trend"
    (Engine.record_all Examples.keep_all Examples.interleaved
       (Engine.registry [] StressBreakpoint.metrics)) =
  Engine.count_of "response_time_trend"
    (Engine.record_all Examples.keep_all Examples.reordered
       (Engine.registry [] StressBreakpoint.metrics)).
Proof.
  assert (Hperm : Examples.interleaved ≡ₚ Examples.reordered).
  { symmetry. apply (Permutation_cons_append (removelast Examples.interleaved)). }
  split; [exact Hperm|].
  exact (proj1 (proj2 (trend_count_is_number_of_samples (list Q) Examples.keep_all))
           _ _ _ "response_time_trend" Hperm).
Defined.

(** C8: after any list of samples was recorded, a Rate's [total] has
    grown by the number of samples added to it and its [successes] by
    the number of truthy ones among them.  For the test scripts, whose
    every iteration adds [!success] to [errors] (and, in the stress
    test, [success] to [success_rate]), the [errors] Rate after a run is
    the number of iterations whose checks failed over the number of
    iterations. *)
Theorem rate_counts_adds_and_truthy_values
    (Est : Type) (feed : Q -> Est -> Est) :
  (forall aggs samples m,
      Engine.rate_of m (Engine.record_all feed samples aggs) =
        (fun r => ((r.1 + length (Engine.truthy_named m samples))%nat,
                   (r.2 + length (Engine.named m samples))%nat)) <$>
          Engine.rate_of m aggs)
  /\ (forall est0 env config inputs,
         Engine.rate_of "errors"
           (Engine.record_all feed
              (Engine.samples_of (SimpleMessage.iterations env config inputs))
              (Engine.registry est0 SimpleMessage.metrics)) =
           Some (length (filter (fun i => SimpleMessage.success i.2 = false) inputs),
                 length inputs))
  /\ (forall est0 env inputs,
         Engine.rate_of "errors"
           (Engine.record_all feed
              (Engine.samples_of (StressBreakpoint.iterations env inputs))
              (Engine.registry est0 StressBreakpoint.metrics)) =
           Some (length (filter (fun i => SimpleMessageLoadTestMode.success i.2 = false)
                           inputs),
                 length inputs) /\
         Engine.rate_of "success_rate"
           (Engine.record_all feed
              (Engine.samples_of (StressBreakpoint.iterations env inputs))
              (Engine.registry est0 StressBreakpoint.metrics)) =
           Some (length (filter (fun i => SimpleMessageLoadTestMode.success i.2 = true)
                           inputs),
                 length inputs))
  /\ (forall failed total : nat,
         (0 < total)%nat ->
         Qeq (Engine.rate_value (failed, total))
             (Qdiv (inject_Z (Z.of_nat failed)) (inject_Z (Z.of_nat total)))).
Proof.
  split; [|split; [|split]].
  - intros. apply rate_of_record_all.
  - intros est0 env config inputs. rewrite rate_of_record_all.
    unfold Engine.rate_of at 1.
    rewrite (registry_lookup est0 _ _ K6.RateKind) by reflexivity.
    simpl. do 2 f_equal.
    + unfold SimpleMessage.iterations, Engine.truthy_named, Engine.named.
      rewrite samples_of_flat_map, !filter_flat_map.
      apply length_flat_map_filter. intros [rt r].
      rewrite simple_message_samples. simpl.
      by destruct (SimpleMessage.success r).
    + unfold SimpleMessage.iterations, Engine.named.
      rewrite samples_of_flat_map, filter_flat_map.
      apply length_flat_map_one. intros [rt r].
      by rewrite simple_message_samples.
  - intros est0 env inputs. rewrite !rate_of_record_all.
    unfold Engine.rate_of.
    rewrite !(registry_lookup est0 _ _ K6.RateKind) by reflexivity.
    simpl.
    unfold StressBreakpoint.iterations, Engine.truthy_named, Engine.named.
    rewrite samples_of_flat_map, !filter_flat_map.
    split; do 2 f_equal.
    + apply length_flat_map_filter. intros [rt r].
      rewrite stress_samples. simpl.
      by destruct (SimpleMessageLoadTestMode.success r).
    + apply length_flat_map_one. intros [rt r]. by rewrite stress_samples.
    + apply length_flat_map_filter. intros [rt r].
      rewrite stress_samples. simpl.
      by destruct (SimpleMessageLoadTestMode.success r).
    + apply length_flat_map_one. intros [rt r]. by rewrite stress_samples.
  - intros failed [|total] Hpos; [lia|].
    unfold Engine.rate_value. cbn [snd fst].
    rewrite Qmake_Qdiv. apply Qdiv_comp; [reflexivity|].
    unfold inject_Z, Qeq. simpl. lia.
Qed.

(** One accepted and one failed iteration: the [errors] Rate is 1 over
    2. *)
Lemma rate_counts_adds_and_truthy_values_witness :
  Engine.rate_of "errors"
    (Engine.record_all Examples.keep_all
       (Engine.samples_of
          (SimpleMessage.iterations Examples.env_stage_no_token Examples.stage_config
             [ (Examples.k6_runtime, Examples.accepted);
               (Examples.k6_runtime, Examples.server_error) ]))
       (Engine.registry [] SimpleMessage.metrics)) = Some (1%nat, 2%nat)
  /\ (0 < 2)%nat
  /\ Qeq (Engine.rate_value (1%nat, 2%nat)) (Qdiv (inject_Z 1) (inject_Z 2)).
Proof.
  destruct (rate_counts_adds_and_truthy_values (list Q) Examples.keep_all)
    as (_ & Hsimple & _ & Hvalue).
  split; [|split].
  - rewrite Hsimple. reflexivity.
  - lia.
  - apply (Hvalue 1%nat 2%nat). lia.
Defined.


(** ** The stage scheduler *)

Section Scheduler.
Import Engine.
Implicit Types (stages before after : list Stage) (s : Stage).

Lemma total_duration_nonneg stages :
  well_formed stages -> 0 <= total_duration stages.
Proof.
  induction 1 as [|s stages [Hd _] _ IH]; simpl; lia.
Qed.

Lemma total_duration_app before after :
  total_duration (before ++ after) = total_duration before + total_duration after.
Proof. induction before as [|s before IH]; simpl; lia. Qed.

Lemma last_target_nonneg prev stages :
  0 <= prev -> well_formed stages -> 0 <= last_target prev stages.
Proof.
  intros Hprev Hwf. revert prev Hprev.
  induction Hwf as [|s stages [_ Ht] _ IH]; intros prev Hprev; simpl; [done|].
  by apply IH.
Qed.

Lemma last_target_app prev before after :
  last_target prev (before ++ after) = last_target (last_target prev before) after.
Proof. apply foldl_app. Qed.

(** Stages that ended at or before [t] only pass their last target on. *)
Lemma target_from_skip before after prev start t :
  well_formed before ->
  start + total_duration before <= t ->
  target_from prev start (before ++ after) t =
  target_from (last_target prev before) (start + total_duration before) after t.
Proof.
  intros Hwf. revert prev start.
  induction Hwf as [|s before [Hd _] Hwf IH]; intros prev start Hle; simpl in *.
  - by rewrite Z.add_0_r.
  - pose proof (total_duration_nonneg before Hwf).
    destruct (Z.ltb_spec t (start + duration s)) as [Hlt|_]; [lia|].
    rewrite IH by lia. f_equal. lia.
Qed.

Lemma target_at_nonempty flat before s after t :
  target_at flat (before ++ s :: after) t =
  target_from 0 0 (before ++ s :: after) t.
Proof. unfold target_at. by destruct before. Qed.

Lemma round_nearest_spec num den :
  0 < den -> 0 <= num -> nearest (round_nearest num den) num den.
Proof.
  intros Hden Hnum. unfold nearest, round_nearest.
  pose proof (Z.div_mod (2 * num + den) (2 * den) ltac:(lia)) as Hdm.
  pose proof (Z.mod_pos_bound (2 * num + den) (2 * den) ltac:(lia)) as Hmod.
  assert (0 <= (2 * num + den) / (2 * den)) by (apply Z.div_pos; lia).
  rewrite Z.max_r by done. nia.
Qed.

(** A ramp starts on the previous target. *)
Lemma ramp_start prev tgt dur :
  0 < dur -> 0 <= prev -> ramp prev tgt 0 dur = prev.
Proof.
  intros Hdur Hprev. unfold ramp, round_nearest.
  replace (2 * (prev * dur + (tgt - prev) * 0) + dur)
    with (prev * (2 * dur) + dur) by lia.
  rewrite Z.div_add_l by lia. rewrite Z.div_small by lia. lia.
Qed.
End Scheduler.

(** C2: for a stage list with non-negative durations and targets, at
    every instant [t] inside a stage [[start, start + duration)] the
    scheduler's target is
    [prevTarget + (target - prevTarget) * (t - start) / duration]
    rounded to a nearest non-negative integer; at the instant a stage
    ends the target is exactly the target declared for that boundary,
    which is the stage's own target, or, when stages of duration zero
    follow at the same instant, the target of the last of them (the
    target jumps).  For the single stage 10s -> 5 the target is 3 at 5s
    (every nearest integer there is 2 or 3) and exactly 5 at 10s; the
    same holds on the three stages of the tests, which end on 0 at
    50s. *)
Theorem stage_target_is_linear_interpolation :
  (forall flat before s after t,
      Engine.well_formed (before ++ s :: after) ->
      Engine.total_duration before <= t <
        Engine.total_duration before + Engine.duration s ->
      let prevTarget := Engine.last_target 0 before in
      let start := Engine.total_duration before in
      Engine.target_at flat (before ++ s :: after) t =
        Engine.ramp prevTarget (Engine.target s) (t - start) (Engine.duration s) /\
      0 <= Engine.target_at flat (before ++ s :: after) t /\
      Engine.nearest (Engine.target_at flat (before ++ s :: after) t)
        (prevTarget * Engine.duration s +
         (Engine.target s - prevTarget) * (t - start))
        (Engine.duration s))
  /\ (forall flat before s zeros after,
         Engine.well_formed (before ++ s :: zeros ++ after) ->
         Forall (fun z => Engine.duration z = 0) zeros ->
         (forall next, head after = Some next -> 0 < Engine.duration next) ->
         Engine.target_at flat (before ++ s :: zeros ++ after)
           (Engine.total_duration before + Engine.duration s) =
           Engine.last_target (Engine.target s) zeros)
  /\ (forall flat before s after,
         Engine.well_formed (before ++ s :: after) ->
         (forall next, head after = Some next -> 0 < Engine.duration next) ->
         Engine.target_at flat (before ++ s :: after)
           (Engine.total_duration before + Engine.duration s) =
           Engine.target s)
  /\ (forall flat,
         Engine.target_at flat Examples.ramp_up 5000 = 3 /\
         Engine.target_at flat Examples.ramp_up 10000 = 5)
  /\ (forall r, Engine.nearest r (0 * 10000 + (5 - 0) * 5000) 10000 ->
                r = 2 \/ r = 3)
  /\ (forall flat,
         Engine.target_at flat (Engine.of_options SimpleMessage.stages) 5000 = 3 /\
         Engine.target_at flat (Engine.of_options SimpleMessage.stages) 10000 = 5 /\
         Engine.target_at flat (Engine.of_options SimpleMessage.stages) 40000 = 5 /\
         Engine.target_at flat (Engine.of_options SimpleMessage.stages) 50000 = 0).
Proof.
  assert (Hboundary : forall flat before s zeros after,
             Engine.well_formed (before ++ s :: zeros ++ after) ->
             Forall (fun z => Engine.duration z = 0) zeros ->
             (forall next, head after = Some next -> 0 < Engine.duration next) ->
             Engine.target_at flat (before ++ s :: zeros ++ after)
               (Engine.total_duration before + Engine.duration s) =
               Engine.last_target (Engine.target s) zeros).
  { intros flat before s zeros after Hwf Hzeros Hnext.
    rewrite target_at_nonempty.
    replace (before ++ s :: zeros ++ after)%list
      with ((before ++ s :: zeros) ++ after)%list in *
      by (by rewrite <- app_assoc).
    apply Forall_app in Hwf as [Hprefix Hafter].
    assert (Hzero : Engine.total_duration zeros = 0).
    { clear -Hzeros. induction Hzeros as [|z zeros Hz _ IH]; simpl; lia. }
    assert (Htotal : Engine.total_duration (before ++ s :: zeros) =
                     Engine.total_duration before + Engine.duration s).
    { rewrite total_duration_app. simpl. lia. }
    rewrite target_from_skip by (done || lia).
    rewrite last_target_app. simpl.
    fold (Engine.last_target (Engine.target s) zeros).
    destruct after as [|next after]; [done|]. simpl.
    specialize (Hnext next eq_refl).
    rewrite Htotal, Z.add_0_l.
    destruct (Z.ltb_spec (Engine.total_duration before + Engine.duration s)
                (Engine.total_duration before + Engine.duration s +
                 Engine.duration next)) as [_|Hge]; [|lia].
    rewrite Z.sub_diag. apply ramp_start; [done|].
    apply Forall_app in Hprefix as [_ Hs].
    apply Forall_cons in Hs as [[_ Hs] Hzs].
    by apply last_target_nonneg. }
  split; [|split; [exact Hboundary|split; [|split; [|split]]]].
  - intros flat before s after t Hwf Hin prevTarget start.
    subst prevTarget start.
    rewrite target_at_nonempty.
    apply Forall_app in Hwf as [Hbefore Hrest].
    apply Forall_cons in Hrest as [[Hd Ht] _].
    rewrite target_from_skip by (done || lia). simpl.
    rewrite Z.add_0_l.
    destruct (Z.ltb_spec t (Engine.total_duration before + Engine.duration s))
      as [_|Hge]; [|lia].
    pose proof (last_target_nonneg 0 before ltac:(lia) Hbefore) as Hprev.
    assert (Hnum : 0 <= Engine.last_target 0 before * Engine.duration s +
                        (Engine.target s - Engine.last_target 0 before) *
                        (t - Engine.total_duration before)) by nia.
    split; [done|]. split.
    + unfold Engine.ramp, Engine.round_nearest. lia.
    + apply round_nearest_spec; [lia | exact Hnum].
  - intros flat before s after Hwf Hnext.
    apply (Hboundary flat before s [] after); [exact Hwf | constructor | exact Hnext].
  - intros flat. split; reflexivity.
  - intros r Hr. unfold Engine.nearest in Hr. lia.
  - intros flat. repeat split; reflexivity.
Qed.

(** A ramp to 5 followed by an instant jump to 9: the target is 1 after
    2s and 9 at the boundary; on the stages of the tests it is 5 when
    the plateau ends. *)
Lemma stage_target_is_linear_interpolation_witness :
  Engine.well_formed Examples.ramp_then_jump /\
  Engine.target_at 1 Examples.ramp_then_jump 2000 = Engine.ramp 0 5 2000 10000 /\
  Engine.target_at 1 Examples.ramp_then_jump 2000 = 1 /\
  Engine.target_at 1 Examples.ramp_then_jump 10000 = 9 /\
  Engine.well_formed (Engine.of_options SimpleMessage.stages) /\
  Engine.target_at 1 (Engine.of_options SimpleMessage.stages) 40000 = 5.
Proof.
  destruct stage_target_is_linear_interpolation as (Hinside & Hjump & Hend & _).
  assert (Hwf : Engine.well_formed Examples.ramp_then_jump)
    by (repeat constructor; simpl; lia).
  assert (Hwf' : Engine.well_formed (Engine.of_options SimpleMessage.stages))
    by (repeat constructor; simpl; lia).
  split; [exact Hwf|]. split; [|split; [|split; [|split]]].
  - apply (Hinside 1 [] {| Engine.duration := 10000; Engine.target := 5 |}
             [ {| Engine.duration := 0; Engine.target := 9 |};
               {| Engine.duration := 20000; Engine.target := 9 |} ] 2000 Hwf).
    simpl. lia.
  - reflexivity.
  - apply (Hjump 1 [] {| Engine.duration := 10000; Engine.target := 5 |}
             [ {| Engine.duration := 0; Engine.target := 9 |} ]
             [ {| Engine.duration := 20000; Engine.target := 9 |} ] Hwf).
    + repeat constructor.
    + intros next [= <-]. simpl. lia.
  - exact Hwf'.
  - apply (Hend 1 [ {| Engine.duration := 10000; Engine.target := 5 |} ]
             {| Engine.duration := 30000; Engine.target := 5 |}
             [ {| Engine.duration := 10000; Engine.target := 0 |} ] Hwf').
    intros next [= <-]. simpl. lia.
Defined.


(* ===================================================================== *)
(** * Further properties of the code *)
(* ===================================================================== *)

(** ** Splitting and joining *)

Section Splitting.
Import Text.
Variable sep : ascii.

Lemma split_on_nonempty s : split_on sep s <> [].
Proof.
  destruct s as [|c s]; simpl; [done|].
  destruct (Ascii.eqb c sep); [done|].
  by destruct (split_on sep s).
Qed.

Lemma split_on_length s : length (split_on sep s) = S (count_char sep s).
Proof.
  induction s as [|c s IH]; simpl; [done|].
  destruct (Ascii.eqb c sep); simpl; [by rewrite IH|].
  pose proof (split_on_nonempty s) as Hne.
  destruct (split_on sep s) as [|piece pieces]; [done|]. exact IH.
Qed.

Lemma join_split_on s : join sep (split_on sep s) = s.
Proof.
  induction s as [|c s IH]; simpl; [done|].
  pose proof (split_on_nonempty s) as Hne.
  destruct (Ascii.eqb_spec c sep) as [->|Hc].
  - destruct (split_on sep s) as [|piece pieces]; [done|].
    change (join sep ("" :: piece :: pieces))
      with ("" ++ String sep (join sep (piece :: pieces))).
    by rewrite IH.
  - destruct (split_on sep s) as [|piece pieces]; [done|].
    destruct pieces as [|piece' pieces].
    + simpl in *. by rewrite IH.
    + change (join sep (String c piece :: piece' :: pieces))
        with (String c (piece ++ String sep (join sep (piece' :: pieces)))).
      f_equal. exact IH.
Qed.

Lemma split_on_pieces s : Forall (fun piece => count_char sep piece = O) (split_on sep s).
Proof.
  induction s as [|c s IH]; simpl; [by constructor|].
  destruct (Ascii.eqb c sep) eqn:Hc; [by constructor|].
  pose proof (split_on_nonempty s) as Hne.
  destruct (split_on sep s) as [|piece pieces]; [done|].
  apply Forall_cons in IH as [Hpiece Hpieces].
  constructor; [|done]. simpl. by rewrite Hc.
Qed.
End Splitting.


(** ** lib/auth-helper.js: reuse, clearing and framing of the cache *)

Section CacheUse.
Import JS AuthHelper.


Lemma getBotToken_other_key lib appId appPassword w k :
  k <> cacheKey appId appPassword ->
  tokenCache (getBotToken lib appId appPassword w).2 !! k = tokenCache w !! k.
Proof.
  intros Hk. unfold getBotToken, generate.
  destruct (tokenCache w !! cacheKey appId appPassword) as [cached|];
    [destruct (expiresAt cached >? now w + 60000); [done|]|];
    destruct (getToken lib appId appPassword (now w)); simpl;
    by rewrite ?lookup_insert_ne.
Qed.

Lemma getBotToken_own_key lib appId appPassword w :
  is_Some (tokenCache w !! cacheKey appId appPassword) ->
  is_Some (tokenCache (getBotToken lib appId appPassword w).2
             !! cacheKey appId appPassword).
Proof.
  intros Hsome. unfold getBotToken, generate.
  destruct (tokenCache w !! cacheKey appId appPassword) as [cached|] eqn:Hlook;
    [|by destruct Hsome].
  destruct (expiresAt cached >? now w + 60000); simpl; [by rewrite Hlook|].
  destruct (getToken lib appId appPassword (now w)); simpl.
  - by rewrite lookup_insert_eq.
  - by rewrite Hlook.
Qed.
End CacheUse.

(** X1: a token that [getBotToken] fetched from the library is served
    from the cache, by any later call for the same pair, as long as less
    than 3540000 ms (59 minutes) have passed since it was stored; such a
    call changes nothing and does not consult the library.  From
    3540000 ms on the call goes to the library again. *)
Theorem fetched_token_is_reused_for_59_minutes
    (lib later : AuthHelper.CredentialLibrary) (appId appPassword : string)
    (w : AuthHelper.World) (tok : string) (dt : Z) :
  ~ AuthHelper.fresh_entry appId appPassword w ->
  AuthHelper.getToken lib appId appPassword (AuthHelper.now w) =
    AuthHelper.Resolved tok ->
  let stored := (AuthHelper.getBotToken lib appId appPassword w).2 in
  (dt < 3540000 ->
   AuthHelper.getBotToken later appId appPassword (TokenInfo.tick dt stored) =
     (JS.Normal tok, TokenInfo.tick dt stored))
  /\ (3540000 <= dt ->
      AuthHelper.getBotToken later appId appPassword (TokenInfo.tick dt stored) =
        AuthHelper.generate later appId appPassword (TokenInfo.tick dt stored)).
Proof.
  intros Hstale Hresolved stored. subst stored.
  rewrite (getBotToken_miss lib _ _ _ Hstale).
  unfold AuthHelper.generate. rewrite Hresolved. cbn [snd].
  split; intros Hdt.
  - apply (getBotToken_hit later appId appPassword _
             {| AuthHelper.token := tok;
                AuthHelper.expiresAt :=
                  AuthHelper.now w +
                  AuthHelper.latency lib appId appPassword (AuthHelper.now w) +
                  3600000 |}).
    + apply lookup_insert_eq.
    + simpl. lia.
  - apply getBotToken_miss. intros (cached & Hlook & Hlt).
    simpl in Hlook, Hlt. rewrite lookup_insert_eq in Hlook.
    injection Hlook as <-. simpl in Hlt. lia.
Qed.

(** A token fetched at time 1000 and stored at 1250 is reused one
    second later and fetched again an hour later. *)
Lemma fetched_token_is_reused_for_59_minutes_witness :
  ~ AuthHelper.fresh_entry "app" "secret" Examples.cold /\
  AuthHelper.getBotToken Examples.lib_refused "app" "secret"
    (TokenInfo.tick 1000
       (AuthHelper.getBotToken Examples.lib_ok "app" "secret" Examples.cold).2) =
    (JS.Normal "eyJ0eXAi",
     TokenInfo.tick 1000
       (AuthHelper.getBotToken Examples.lib_ok "app" "secret" Examples.cold).2) /\
  (AuthHelper.getBotToken Examples.lib_refused "app" "secret"
     (TokenInfo.tick 3600000
        (AuthHelper.getBotToken Examples.lib_ok "app" "secret" Examples.cold).2)).1 =
    JS.Throw "Failed to generate token: invalid_client".
Proof.
  assert (Hcold : ~ AuthHelper.fresh_entry "app" "secret" Examples.cold).
  { intros (c & Hc & _). discriminate Hc. }
  split; [exact Hcold|]. split.
  - apply (fetched_token_is_reused_for_59_minutes Examples.lib_ok
             Examples.lib_refused "app" "secret" Examples.cold "eyJ0eXAi" 1000
             Hcold eq_refl). lia.
  - rewrite (proj2 (fetched_token_is_reused_for_59_minutes Examples.lib_ok
                      Examples.lib_refused "app" "secret" Examples.cold
                      "eyJ0eXAi" 3600000 Hcold eq_refl)) by lia.
    reflexivity.
Defined.



(** X3: after [clearTokenCache] every call of [getBotToken] goes to the
    credential library, whatever the cache held before; the clearing
    itself leaves the clock, the call history and the console alone. *)
Theorem clearTokenCache_forces_refresh
    (lib : AuthHelper.CredentialLibrary) (appId appPassword : string)
    (w : AuthHelper.World) :
  let cleared := AuthHelper.clearTokenCache w in
  AuthHelper.getBotToken lib appId appPassword cleared =
    AuthHelper.generate lib appId appPassword cleared
  /\ AuthHelper.libCalls (AuthHelper.getBotToken lib appId appPassword cleared).2 =
       (AuthHelper.libCalls w ++ [(appId, appPassword)])%list
  /\ (forall k, AuthHelper.tokenCache cleared !! k = None)
  /\ AuthHelper.now cleared = AuthHelper.now w
  /\ AuthHelper.libCalls cleared = AuthHelper.libCalls w
  /\ AuthHelper.console cleared = AuthHelper.console w.
Proof.
  intros cleared. subst cleared.
  assert (Hmiss : AuthHelper.getBotToken lib appId appPassword
                    (AuthHelper.clearTokenCache w) =
                  AuthHelper.generate lib appId appPassword
                    (AuthHelper.clearTokenCache w)).
  { apply getBotToken_miss. intros (cached & Hlook & _).
    simpl in Hlook. by rewrite lookup_empty in Hlook. }
  split; [exact Hmiss|]. split; [|split].
  - rewrite Hmiss, generate_calls. reflexivity.
  - intros k. apply lookup_empty.
  - repeat split.
Qed.

(** X4: [getBotToken] never removes a cache entry and never touches an
    entry stored under another key than its own, which is the app id, a
    colon and the password; this holds for a failing call too.  The
    entry of another credential pair is therefore left alone whenever
    neither app id holds a colon. *)
Theorem getBotToken_keeps_other_entries
    (lib : AuthHelper.CredentialLibrary) (appId appPassword : string)
    (w : AuthHelper.World) :
  let after := (AuthHelper.getBotToken lib appId appPassword w).2 in
  (forall k,
      k <> appId ++ ":" ++ appPassword ->
      AuthHelper.tokenCache after !! k = AuthHelper.tokenCache w !! k)
  /\ (forall k,
         is_Some (AuthHelper.tokenCache w !! k) ->
         is_Some (AuthHelper.tokenCache after !! k))
  /\ (forall otherId otherPassword,
         ~ In ":"%char (list_ascii_of_string appId) ->
         ~ In ":"%char (list_ascii_of_string otherId) ->
         (otherId, otherPassword) <> (appId, appPassword) ->
         AuthHelper.tokenCache after !! (otherId ++ ":" ++ otherPassword) =
           AuthHelper.tokenCache w !! (otherId ++ ":" ++ otherPassword)).
Proof.
  intros after. subst after. split; [|split].
  - intros k Hk. by apply getBotToken_other_key.
  - intros k Hsome.
    destruct (decide (k = AuthHelper.cacheKey appId appPassword)) as [->|Hk].
    + by apply getBotToken_own_key.
    + by rewrite getBotToken_other_key.
  - intros otherId otherPassword Hown Hother Hpair.
    apply getBotToken_other_key. intros Hkey.
    destruct (cacheKey_injective otherId otherPassword appId appPassword
                Hother Hown Hkey) as [-> ->].
    by apply Hpair.
Qed.

Lemma getBotToken_keeps_other_entries_witness :
  AuthHelper.tokenCache
    (AuthHelper.getBotToken Examples.lib_ok "other" "pair" (Examples.warm 5000)).2
    !! "app:secret" =
  AuthHelper.tokenCache (Examples.warm 5000) !! "app:secret".
Proof.
  apply (proj1 (getBotToken_keeps_other_entries Examples.lib_ok "other" "pair"
                  (Examples.warm 5000))).
  discriminate.
Defined.


(** ** lib/auth-helper.js: [getTokenInfo] *)

Section Substring.
Lemma substring_0_length n s :
  String.length (substring 0 n s) = Nat.min n (String.length s).
Proof.
  revert s. induction n as [|n IH]; intros [|c s]; simpl; try done.
  by rewrite IH.
Qed.

Lemma substring_0_prefix n s : String.prefix (substring 0 n s) s = true.
Proof.
  revert s. induction n as [|n IH]; intros [|c s]; simpl; try done.
  destruct (ascii_dec c c); [apply IH | done].
Qed.

Lemma length_append s t :
  String.length (s ++ t) = (String.length s + String.length t)%nat.
Proof.
  induction s as [|c s IH]; [done|].
  change (String c s ++ t) with (String c (s ++ t)). simpl. by rewrite IH.
Qed.
End Substring.

(** X5: [getTokenInfo] rejects, with "Invalid JWT token format" and
    before anything is decoded, every token that does not hold exactly
    two dots.  A token [header.payload.signature] is decoded from its
    payload alone; the information returned carries the token itself
    and a preview of at most 23 characters, the first 20 of the token
    followed by "...". *)
Theorem getTokenInfo_needs_three_parts
    (lib : AuthHelper.CredentialLibrary) (decode : TokenInfo.Decoder)
    (appId appPassword : string) (w w' : AuthHelper.World) (tok : string) :
  AuthHelper.getBotToken lib appId appPassword w = (JS.Normal tok, w') ->
  (Text.count_char "." tok <> 2%nat ->
   TokenInfo.getTokenInfo lib decode appId appPassword w =
     (JS.Throw "Invalid JWT token format", w'))
  /\ (Text.count_char "." tok = 2%nat ->
      exists header payload signature,
        tok = header ++ "." ++ payload ++ "." ++ signature /\
        Text.count_char "." payload = 0%nat /\
        (forall m, decode payload = JS.Throw m ->
                   TokenInfo.getTokenInfo lib decode appId appPassword w =
                     (JS.Throw m, w')) /\
        (forall claims, decode payload = JS.Normal claims ->
           exists info,
             TokenInfo.getTokenInfo lib decode appId appPassword w =
               (JS.Normal info, w') /\
             TokenInfo.token info = tok /\
             TokenInfo.tokenPreview info = substring 0 20 tok ++ "..." /\
             (String.length (TokenInfo.tokenPreview info) <= 23)%nat /\
             TokenInfo.expiresAt info = TokenInfo.claim_expiresAt claims /\
             TokenInfo.appId info = TokenInfo.claim_appid claims)).
Proof.
  intros Hcall. unfold TokenInfo.getTokenInfo. rewrite Hcall.
  pose proof (split_on_length "." tok) as Hlen.
  pose proof (join_split_on "." tok) as Hjoin.
  pose proof (split_on_pieces "." tok) as Hpieces.
  split; intros Hdots.
  - destruct (Nat.eqb_spec (length (Text.split_on "." tok)) 3) as [Heq|_]; [lia|done].
  - rewrite Hdots in Hlen.
    destruct (Text.split_on "." tok) as [|header [|payload [|signature [|]]]];
      try discriminate Hlen.
    exists header, payload, signature. simpl.
    apply Forall_cons in Hpieces as [_ Hpieces].
    apply Forall_cons in Hpieces as [Hpayload _].
    split; [by rewrite <- Hjoin|]. split; [exact Hpayload|]. split.
    + by intros m ->.
    + intros claims ->. eexists. split; [reflexivity|]. simpl.
      repeat split.
      rewrite length_append, substring_0_length.
      pose proof (Nat.le_min_l 20 (String.length tok)).
      change (String.length "...") with 3%nat. lia.
Qed.

Lemma getTokenInfo_needs_three_parts_witness :
  (TokenInfo.getTokenInfo Examples.lib_ok Cases.decoder "app" "secret"
     Examples.cold).1 = JS.Throw "Invalid JWT token format"
  /\ exists info,
       (TokenInfo.getTokenInfo Cases.lib_jwt Cases.decoder "app" "secret"
          Examples.cold).1 = JS.Normal info /\
       TokenInfo.tokenPreview info = "eyJ0eXAi.eyJhcHBpZCI..." /\
       TokenInfo.appId info = ActivityFactory.Str "eyJhcHBpZCI6".
Proof.
  split.
  - destruct (getTokenInfo_needs_three_parts Examples.lib_ok Cases.decoder
                "app" "secret" Examples.cold _ _ eq_refl) as [Hbad _].
    rewrite Hbad; [reflexivity|]. vm_compute. discriminate.
  - destruct (getTokenInfo_needs_three_parts Cases.lib_jwt Cases.decoder
                "app" "secret" Examples.cold _ _ eq_refl) as [_ Hgood].
    destruct (Hgood eq_refl) as (header & payload & signature & Htok & _ & _ & Hinfo).
    eexists. split; [reflexivity|]. split; reflexivity.
Defined.


(** ** scripts/generate-token.js *)

Section TokenScript.
Import JS AuthHelper.

Lemma getBotToken_calls lib appId appPassword w :
  libCalls (getBotToken lib appId appPassword w).2 = libCalls w \/
  libCalls (getBotToken lib appId appPassword w).2 =
    (libCalls w ++ [(appId, appPassword)])%list.
Proof.
  unfold getBotToken.
  destruct (tokenCache w !! cacheKey appId appPassword) as [cached|];
    [destruct (expiresAt cached >? now w + 60000); [by left|]|];
    right; apply generate_calls.
Qed.

Lemma getTokenInfo_world lib decode appId appPassword w :
  (TokenInfo.getTokenInfo lib decode appId appPassword w).2 =
  (getBotToken lib appId appPassword w).2.
Proof.
  unfold TokenInfo.getTokenInfo.
  destruct (getBotToken lib appId appPassword w) as [[tok|m] w']; [|done].
  destruct (negb _); [done|]. by destruct (decode _).
Qed.

Lemma getAuthorizationHeader_world lib appId appPassword w :
  (getAuthorizationHeader lib appId appPassword w).2 =
  (getBotToken lib appId appPassword w).2.
Proof.
  unfold getAuthorizationHeader.
  by destruct (getBotToken lib appId appPassword w) as [[tok|m] w'].
Qed.
End TokenScript.



(** X7: a run of the token generator consults the credential library at
    most once, although it asks the helper twice (for the header and
    for the token information), as long as less than 59 minutes pass
    between the two requests. *)
Theorem generator_calls_library_at_most_once
    (toUpper : GenerateToken.ToUpperCase)
    (lib : AuthHelper.CredentialLibrary) (decode : TokenInfo.Decoder)
    (processEnv : gmap string string) (arg : JS.ostring) (pause : Z)
    (w : AuthHelper.World) :
  pause < 3540000 ->
  (length (AuthHelper.libCalls
             (GenerateToken.world
                (GenerateToken.main toUpper lib decode processEnv arg pause w)))
   <= S (length (AuthHelper.libCalls w)))%nat.
Proof.
  intros Hpause. unfold GenerateToken.main.
  destruct (GenerateToken.getCredentials toUpper processEnv
              (GenerateToken.environment arg))
    as [credentials|m]; [|simpl; lia].
  set (appId := GenerateToken.appId credentials).
  set (appPassword := GenerateToken.appPassword credentials).
  pose proof (getAuthorizationHeader_world lib appId appPassword w) as Hw1.
  destruct (AuthHelper.getAuthorizationHeader lib appId appPassword w)
    as [[authHeader|m] w1] eqn:Hheader; simpl in Hw1; subst w1.
  - pose proof (getTokenInfo_world lib decode appId appPassword
                  (TokenInfo.tick pause
                     (AuthHelper.getBotToken lib appId appPassword w).2)) as Hw2.
    assert (Hcalls :
      (length (AuthHelper.libCalls
                 (AuthHelper.getBotToken lib appId appPassword
                    (TokenInfo.tick pause
                       (AuthHelper.getBotToken lib appId appPassword w).2)).2)
       <= S (length (AuthHelper.libCalls w)))%nat).
    { destruct (fresh_entry_dec appId appPassword w) as [Hfresh|Hstale].
      - destruct Hfresh as (cached & Hlook & Hlt).
        rewrite (getBotToken_hit lib _ _ _ cached Hlook Hlt). cbn [snd].
        destruct (getBotToken_calls lib appId appPassword (TokenInfo.tick pause w))
          as [-> | ->]; simpl; rewrite ?length_app; simpl; lia.
      - unfold AuthHelper.getAuthorizationHeader in Hheader.
        rewrite (getBotToken_miss lib _ _ _ Hstale) in Hheader |- *.
        unfold AuthHelper.generate in Hheader |- *.
        destruct (AuthHelper.getToken lib appId appPassword (AuthHelper.now w))
          as [tok|m] eqn:Hresolved; [|discriminate Hheader].
        cbn [snd].
        rewrite (getBotToken_hit lib appId appPassword _
                   {| AuthHelper.token := tok;
                      AuthHelper.expiresAt :=
                        AuthHelper.now w +
                        AuthHelper.latency lib appId appPassword (AuthHelper.now w) +
                        3600000 |}).
        + simpl. rewrite length_app. simpl. lia.
        + apply lookup_insert_eq.
        + simpl. lia. }
    destruct (TokenInfo.getTokenInfo lib decode appId appPassword
                (TokenInfo.tick pause
                   (AuthHelper.getBotToken lib appId appPassword w).2))
      as [[info|m] w2]; simpl in Hw2; subst w2; simpl; exact Hcalls.
  - simpl.
    destruct (getBotToken_calls lib appId appPassword w) as [-> | ->];
      rewrite ?length_app; simpl; lia.
Qed.

Lemma generator_calls_library_at_most_once_witness :
  0 < 3540000 /\
  AuthHelper.libCalls
    (GenerateToken.world
       (GenerateToken.main JS.toUpperCase Cases.lib_jwt Cases.decoder
          Cases.env_local_credentials None 0 Examples.cold)) = [("app", "secret")]
  /\ (length (AuthHelper.libCalls
                (GenerateToken.world
                   (GenerateToken.main JS.toUpperCase Cases.lib_jwt Cases.decoder
                      Cases.env_local_credentials None 0 Examples.cold)))
      <= 1)%nat.
Proof.
  split; [lia|]. split; [reflexivity|].
  apply (generator_calls_library_at_most_once JS.toUpperCase Cases.lib_jwt
           Cases.decoder Cases.env_local_credentials None 0 Examples.cold).
  lia.
Defined.


(** ** lib/activity-factory.js: what every returned activity satisfies *)

Section ActivityFacts.
Import JS ActivityFactory.

Lemma or_truthy a b : is_truthy b = true -> is_truthy (or a b) = true.
Proof. intros Hb. unfold or. by destruct (is_truthy a) eqn:Ha. Qed.

Lemma with_default_defined v d : d <> Undefined -> with_default v d <> Undefined.
Proof. by destruct v. Qed.

End ActivityFacts.

(** X8: every activity [createMessageActivity] returns is a message from
    a user to a bot in which what the options leave out is filled in:
    [channelId], [textFormat] and [locale] are the options' unless
    these are [undefined], and then 'msteams', 'plain' and 'en-US'; the
    recipient's name and the conversation type are the options' unless
    these are falsy, and then 'Bot' and 'personal'; the conversation id
    is the options' unless it is falsy, and then 'test-conversation-'
    followed by the second identifier drawn.  So the first three are
    never [undefined] and the last three never falsy. *)
Theorem returned_activity_is_filled_in
    (rt : ActivityFactory.Runtime) (n n' : nat)
    (options : ActivityFactory.Options) (activity : ActivityFactory.Activity) :
  ActivityFactory.createMessageActivity rt n options = (JS.Normal activity, n') ->
  ActivityFactory.type activity = "message"
  /\ ActivityFactory.role (ActivityFactory.from activity) = "user"
  /\ ActivityFactory.rcp_role (ActivityFactory.recipient activity) = "bot"
  /\ ActivityFactory.channelId activity <> ActivityFactory.Undefined
  /\ ActivityFactory.textFormat activity <> ActivityFactory.Undefined
  /\ ActivityFactory.locale activity <> ActivityFactory.Undefined
  /\ ActivityFactory.is_truthy
       (ActivityFactory.rcp_name (ActivityFactory.recipient activity)) = true
  /\ ActivityFactory.is_truthy
       (ActivityFactory.cnv_id (ActivityFactory.conversation activity)) = true
  /\ ActivityFactory.is_truthy
       (ActivityFactory.conversationType (ActivityFactory.conversation activity)) = true
  /\ ActivityFactory.channelId activity =
       match ActivityFactory.opt_channelId options with
       | ActivityFactory.Undefined => ActivityFactory.Str "msteams"
       | given => given
       end
  /\ ActivityFactory.textFormat activity =
       match ActivityFactory.opt_textFormat options with
       | ActivityFactory.Undefined => ActivityFactory.Str "plain"
       | given => given
       end
  /\ ActivityFactory.locale activity =
       match ActivityFactory.opt_locale options with
       | ActivityFactory.Undefined => ActivityFactory.Str "en-US"
       | given => given
       end
  /\ exists receiver conv,
       ActivityFactory.opt_recipient options = ActivityFactory.Object receiver /\
       ActivityFactory.opt_conversation options = ActivityFactory.Object conv /\
       ActivityFactory.rcp_name (ActivityFactory.recipient activity) =
         (if ActivityFactory.is_truthy (ActivityFactory.recipient_name receiver)
          then ActivityFactory.recipient_name receiver
          else ActivityFactory.Str "Bot") /\
       ActivityFactory.conversationType (ActivityFactory.conversation activity) =
         (if ActivityFactory.is_truthy (ActivityFactory.conv_conversationType conv)
          then ActivityFactory.conv_conversationType conv
          else ActivityFactory.Str "personal") /\
       ActivityFactory.cnv_id (ActivityFactory.conversation activity) =
         (if ActivityFactory.is_truthy (ActivityFactory.conv_id conv)
          then ActivityFactory.conv_id conv
          else ActivityFactory.Str
                 ("test-conversation-" ++ ActivityFactory.uuidv4 rt (S n))).
Proof.
  intros Hcall. unfold ActivityFactory.createMessageActivity in Hcall.
  destruct (ActivityFactory.opt_from options) as [| |sender]; [discriminate..|].
  destruct (ActivityFactory.opt_recipient options) as [| |receiver];
    [discriminate..|].
  destruct (ActivityFactory.opt_conversation options) as [| |conv];
    [discriminate..|].
  injection Hcall as <- _. cbn -[ActivityFactory.or ActivityFactory.is_truthy].
  split; [reflexivity|]. split; [reflexivity|]. split; [reflexivity|].
  split; [by apply with_default_defined|].
  split; [by apply with_default_defined|].
  split; [by apply with_default_defined|].
  split; [by apply or_truthy|].
  split.
  { destruct (ActivityFactory.is_truthy (ActivityFactory.conv_id conv)) eqn:Hid;
      [exact Hid | reflexivity]. }
  split; [by apply or_truthy|].
  split; [by destruct (ActivityFactory.opt_channelId options)|].
  split; [by destruct (ActivityFactory.opt_textFormat options)|].
  split; [by destruct (ActivityFactory.opt_locale options)|].
  exists receiver, conv. split; [reflexivity|]. split; [reflexivity|].
  split; [reflexivity|]. split; [reflexivity|].
  by destruct (ActivityFactory.is_truthy (ActivityFactory.conv_id conv)).
Qed.

Lemma returned_activity_is_filled_in_witness :
  exists activity,
    ActivityFactory.createMessageActivity Examples.runtime 0 Cases.sparse_options =
      (JS.Normal activity, 2%nat) /\
    ActivityFactory.channelId activity = ActivityFactory.Null /\
    ActivityFactory.textFormat activity = ActivityFactory.Str "plain" /\
    ActivityFactory.rcp_name (ActivityFactory.recipient activity) =
      ActivityFactory.Str "Bot" /\
    ActivityFactory.conversationType (ActivityFactory.conversation activity) =
      ActivityFactory.Str "personal" /\
    ActivityFactory.cnv_id (ActivityFactory.conversation activity) =
      ActivityFactory.Str "test-conversation-uuid-1".
Proof.
  eexists. split; [reflexivity|].
  destruct (returned_activity_is_filled_in Examples.runtime 0 2
              Cases.sparse_options _ eq_refl)
    as (_ & _ & _ & _ & _ & _ & _ & _ & _ & Hchannel & Hformat & _ &
        receiver & conv & Hreceiver & Hconv & Hname & Htype & Hid).
  injection Hreceiver as <-. injection Hconv as <-.
  split; [exact Hchannel|]. split; [exact Hformat|].
  split; [exact Hname|]. split; [exact Htype | exact Hid].
Defined.

(** X9: a returned activity is consistent with itself: [isGroup] is true
    exactly when the conversation type it carries is 'group' or
    'channel', and [channelData.tenant] is present exactly when the
    conversation's tenant id is truthy, and then holds that id. *)
Theorem returned_activity_is_consistent
    (rt : ActivityFactory.Runtime) (n n' : nat)
    (options : ActivityFactory.Options) (activity : ActivityFactory.Activity) :
  ActivityFactory.createMessageActivity rt n options = (JS.Normal activity, n') ->
  let conversation := ActivityFactory.conversation activity in
  (ActivityFactory.isGroup conversation = true <->
   ActivityFactory.conversationType conversation = ActivityFactory.Str "group" \/
   ActivityFactory.conversationType conversation = ActivityFactory.Str "channel")
  /\ (forall t,
         ActivityFactory.tenant (ActivityFactory.channelData activity) = Some t <->
         t = ActivityFactory.tenantId conversation /\
         ActivityFactory.is_truthy t = true).
Proof.
  intros Hcall. unfold ActivityFactory.createMessageActivity in Hcall.
  destruct (ActivityFactory.opt_from options) as [| |sender]; [discriminate..|].
  destruct (ActivityFactory.opt_recipient options) as [| |receiver];
    [discriminate..|].
  destruct (ActivityFactory.opt_conversation options) as [| |conv];
    [discriminate..|].
  injection Hcall as <- _. cbn -[ActivityFactory.or ActivityFactory.is_truthy].
  split.
  - rewrite orb_true_iff, !strict_eq_true. unfold ActivityFactory.or.
    destruct (ActivityFactory.is_truthy (ActivityFactory.conv_conversationType conv))
      eqn:Htype; [done|].
    split.
    + intros [Heq | Heq]; rewrite Heq in Htype; discriminate Htype.
    + intros [Heq | Heq]; discriminate Heq.
  - intros t.
    destruct (ActivityFactory.is_truthy (ActivityFactory.conv_tenantId conv)) eqn:Htenant.
    + split; [by intros [= <-] | by intros [-> _]].
    + split; [discriminate | intros [-> Ht]; congruence].
Qed.

Lemma returned_activity_is_consistent_witness :
  exists activity,
    ActivityFactory.createMessageActivity Examples.runtime 0 Examples.channel_options =
      (JS.Normal activity, 1%nat) /\
    ActivityFactory.isGroup (ActivityFactory.conversation activity) = true /\
    ActivityFactory.tenant (ActivityFactory.channelData activity) =
      Some (ActivityFactory.Str "tenant").
Proof.
  eexists. split; [reflexivity|].
  destruct (returned_activity_is_consistent Examples.runtime 0 1
              Examples.channel_options _ eq_refl) as [Hgroup Htenant].
  split.
  - apply Hgroup. by right.
  - apply Htenant. by split.
Defined.

(** X10: [createMessageActivity] returns an activity exactly when the
    options hold an object as sender, as recipient and as conversation.
    Otherwise it throws, after it has drawn one identifier, the
    TypeError of reading [id] from [undefined] or from [null]: from
    what the first of the three that is not an object holds, the sender
    being read first and the conversation last.  It draws a second
    identifier exactly when it has to generate the conversation id. *)
Theorem createMessageActivity_needs_three_objects
    (rt : ActivityFactory.Runtime) (n : nat) (options : ActivityFactory.Options) :
  let result := ActivityFactory.createMessageActivity rt n options in
  let undefined_id := "Cannot read properties of undefined (reading 'id')" in
  let null_id := "Cannot read properties of null (reading 'id')" in
  ((exists activity, result.1 = JS.Normal activity) <->
   (exists sender, ActivityFactory.opt_from options = ActivityFactory.Object sender) /\
   (exists receiver,
       ActivityFactory.opt_recipient options = ActivityFactory.Object receiver) /\
   (exists conv,
       ActivityFactory.opt_conversation options = ActivityFactory.Object conv))
  /\ (ActivityFactory.opt_from options = ActivityFactory.Absent ->
      result = (JS.Throw undefined_id, S n))
  /\ (ActivityFactory.opt_from options = ActivityFactory.IsNull ->
      result = (JS.Throw null_id, S n))
  /\ (forall sender,
        ActivityFactory.opt_from options = ActivityFactory.Object sender ->
        (ActivityFactory.opt_recipient options = ActivityFactory.Absent ->
         result = (JS.Throw undefined_id, S n)) /\
        (ActivityFactory.opt_recipient options = ActivityFactory.IsNull ->
         result = (JS.Throw null_id, S n)) /\
        forall receiver,
          ActivityFactory.opt_recipient options = ActivityFactory.Object receiver ->
          (ActivityFactory.opt_conversation options = ActivityFactory.Absent ->
           result = (JS.Throw undefined_id, S n)) /\
          (ActivityFactory.opt_conversation options = ActivityFactory.IsNull ->
           result = (JS.Throw null_id, S n)))
  /\ (forall m, result.1 = JS.Throw m -> result.2 = S n)
  /\ (forall activity conv,
        result.1 = JS.Normal activity ->
        ActivityFactory.opt_conversation options = ActivityFactory.Object conv ->
        ActivityFactory.act_id activity = ActivityFactory.uuidv4 rt n /\
        result.2 =
          if ActivityFactory.is_truthy (ActivityFactory.conv_id conv)
          then S n else S (S n)).
Proof.
  intros result undefined_id null_id. subst result undefined_id null_id.
  unfold ActivityFactory.createMessageActivity.
  split; [|split; [|split; [|split; [|split]]]].
  - destruct (ActivityFactory.opt_from options) as [| |sender],
      (ActivityFactory.opt_recipient options) as [| |receiver],
      (ActivityFactory.opt_conversation options) as [| |conv];
      cbn [fst snd];
      (split;
       [ intros [activity Hactivity];
         first [ discriminate Hactivity
               | split; [by eexists | split; by eexists] ]
       | intros ([? Hs] & [? Hr] & [? Hc]);
         try discriminate Hs; try discriminate Hr; try discriminate Hc;
         by eexists ]).
  - by intros ->.
  - by intros ->.
  - intros sender ->. split; [by intros ->|]. split; [by intros ->|].
    intros receiver ->. split; by intros ->.
  - intros m.
    destruct (ActivityFactory.opt_from options) as [| |sender],
      (ActivityFactory.opt_recipient options) as [| |receiver],
      (ActivityFactory.opt_conversation options) as [| |conv];
      cbn [fst snd]; done.
  - intros activity conv Hactivity Hconv. rewrite Hconv in Hactivity |- *.
    destruct (ActivityFactory.opt_from options) as [| |sender];
      [discriminate Hactivity..|].
    destruct (ActivityFactory.opt_recipient options) as [| |receiver];
      [discriminate Hactivity..|].
    cbn [fst snd] in *. injection Hactivity as Hactivity. subst activity.
    split; [reflexivity|].
    by destruct (ActivityFactory.is_truthy (ActivityFactory.conv_id conv)).
Qed.

Lemma createMessageActivity_needs_three_objects_witness :
  ActivityFactory.createMessageActivity Examples.runtime 0 Cases.no_sender =
    (JS.Throw "Cannot read properties of undefined (reading 'id')", 1%nat)
  /\ ActivityFactory.createMessageActivity Examples.runtime 0 Cases.null_recipient =
    (JS.Throw "Cannot read properties of null (reading 'id')", 1%nat)
  /\ (ActivityFactory.createMessageActivity Examples.runtime 0
        Cases.sparse_options).2 = 2%nat.
Proof.
  destruct (createMessageActivity_needs_three_objects Examples.runtime 0
              Cases.no_sender) as (_ & Habsent & _).
  destruct (createMessageActivity_needs_three_objects Examples.runtime 0
              Cases.null_recipient) as (_ & _ & _ & Hnull & _).
  destruct (createMessageActivity_needs_three_objects Examples.runtime 0
              Cases.sparse_options) as (_ & _ & _ & _ & _ & Hdraw).
  split; [exact (Habsent eq_refl)|]. split.
  - destruct (Hnull _ eq_refl) as (_ & Hrecipient & _). exact (Hrecipient eq_refl).
  - destruct (Hdraw _ _ eq_refl eq_refl) as [_ Hn]. exact Hn.
Defined.


(** ** config/*.env.js *)

Section ConfigFacts.
Import JS.

Lemma or_else_nonempty o d : d <> "" -> or_else o d <> "".
Proof.
  intros Hd. destruct o as [s|]; simpl; [|done].
  by destruct (String.eqb_spec s "").
Qed.

Lemma truthy_or_else o d : d <> "" -> truthy (Some (or_else o d)) = true.
Proof.
  intros Hd. simpl. apply negb_true_iff, String.eqb_neq.
  by apply or_else_nonempty.
Qed.
End ConfigFacts.

(** X11: whatever [__ENV] holds, each of the three environment
    configurations has a non-empty service URL, test user (id, name,
    object id), duration and message, and a number of virtual users
    that is not 0: unset and empty variables give way to the defaults,
    and so do a [DEFAULT_VUS] that [parseInt] reads as [NaN] or as 0.
    The local configuration always has an endpoint. *)
Theorem environment_configs_fall_back_to_defaults
    (parseInt : EnvConfig.ParseInt) (env : gmap string string) :
  Forall
    (fun c =>
       EnvConfig.serviceUrl c <> "" /\
       EnvConfig.user_id (EnvConfig.testUser c) <> "" /\
       EnvConfig.user_name (EnvConfig.testUser c) <> "" /\
       EnvConfig.user_aadObjectId (EnvConfig.testUser c) <> "" /\
       EnvConfig.duration (EnvConfig.loadTest c) <> "" /\
       EnvConfig.message (EnvConfig.loadTest c) <> "" /\
       EnvConfig.vus (EnvConfig.loadTest c) <> 0 /\
       (parseInt (env !! "DEFAULT_VUS") = None \/
        parseInt (env !! "DEFAULT_VUS") = Some 0 ->
        EnvConfig.vus (EnvConfig.loadTest c) = 5))
    (EnvConfig.all parseInt env)
  /\ JS.truthy (EnvConfig.endpoint (EnvConfig.local parseInt env)) = true.
Proof.
  assert (Hvus : EnvConfig.default_vus parseInt env <> 0 /\
                 (parseInt (env !! "DEFAULT_VUS") = None \/
                  parseInt (env !! "DEFAULT_VUS") = Some 0 ->
                  EnvConfig.default_vus parseInt env = 5)).
  { unfold EnvConfig.default_vus.
    destruct (parseInt (env !! "DEFAULT_VUS")) as [n|].
    - destruct (Z.eqb_spec n 0) as [->|Hn]; [done|].
      split; [done|]. intros [Hnone | [= ->]]; done.
    - done. }
  split.
  - repeat apply Forall_cons_2; try apply Forall_nil_2;
      (repeat split; try (by apply or_else_nonempty); apply Hvus).
  - by apply truthy_or_else.
Qed.

Lemma environment_configs_fall_back_to_defaults_witness :
  EnvConfig.vus (EnvConfig.loadTest
    (EnvConfig.stage Cases.parseInt {[ "DEFAULT_VUS" := "0" ]})) = 5
  /\ EnvConfig.vus (EnvConfig.loadTest
       (EnvConfig.stage Cases.parseInt {[ "DEFAULT_VUS" := "12" ]})) = 12.
Proof.
  split; [|reflexivity].
  pose proof (proj1 (environment_configs_fall_back_to_defaults Cases.parseInt
                       {[ "DEFAULT_VUS" := "0" ]})) as Hall.
  apply Forall_cons in Hall as [_ Hall].
  apply Forall_cons in Hall as [Hstage _].
  apply Hstage. right. reflexivity.
Defined.

(** X12: [createTestActivity] accepts each of the three environment
    configurations, whatever [__ENV] holds: it returns a personal
    Teams message from the configured test user to the environment's
    app id, named 'Workoflow Bot', with the default text 'test' when no
    message is given.  It draws exactly two identifiers, the first for
    the conversation id and the second for the activity id. *)
Theorem createTestActivity_accepts_environment_configs
    (parseInt : EnvConfig.ParseInt) (env : gmap string string)
    (rt : ActivityFactory.Runtime) (n : nat) (message : ActivityFactory.value) :
  Forall
    (fun c =>
       exists activity,
         ActivityFactory.createTestActivity rt n (EnvConfig.for_factory c) message =
           (JS.Normal activity, S (S n)) /\
         ActivityFactory.act_id activity = ActivityFactory.uuidv4 rt (S n) /\
         ActivityFactory.cnv_id (ActivityFactory.conversation activity) =
           ActivityFactory.Str ("test-conversation-" ++ ActivityFactory.uuidv4 rt n) /\
         ActivityFactory.conversationType (ActivityFactory.conversation activity) =
           ActivityFactory.Str "personal" /\
         ActivityFactory.channelId activity = ActivityFactory.Str "msteams" /\
         ActivityFactory.id (ActivityFactory.from activity) =
           ActivityFactory.Str (EnvConfig.user_id (EnvConfig.testUser c)) /\
         ActivityFactory.rcp_id (ActivityFactory.recipient activity) =
           K6.of_ostring (EnvConfig.appId (EnvConfig.credentials c)) /\
         ActivityFactory.rcp_name (ActivityFactory.recipient activity) =
           ActivityFactory.Str "Workoflow Bot" /\
         ActivityFactory.serviceUrl activity =
           ActivityFactory.Str (EnvConfig.serviceUrl c) /\
         ActivityFactory.text activity =
           (if decide (message = ActivityFactory.Undefined)
            then ActivityFactory.Str "test" else message))
    (EnvConfig.all parseInt env).
Proof.
  assert (Hone : forall c,
      exists activity,
        ActivityFactory.createTestActivity rt n (EnvConfig.for_factory c) message =
          (JS.Normal activity, S (S n)) /\
        ActivityFactory.act_id activity = ActivityFactory.uuidv4 rt (S n) /\
        ActivityFactory.cnv_id (ActivityFactory.conversation activity) =
          ActivityFactory.Str ("test-conversation-" ++ ActivityFactory.uuidv4 rt n) /\
        ActivityFactory.conversationType (ActivityFactory.conversation activity) =
          ActivityFactory.Str "personal" /\
        ActivityFactory.channelId activity = ActivityFactory.Str "msteams" /\
        ActivityFactory.id (ActivityFactory.from activity) =
          ActivityFactory.Str (EnvConfig.user_id (EnvConfig.testUser c)) /\
        ActivityFactory.rcp_id (ActivityFactory.recipient activity) =
          K6.of_ostring (EnvConfig.appId (EnvConfig.credentials c)) /\
        ActivityFactory.rcp_name (ActivityFactory.recipient activity) =
          ActivityFactory.Str "Workoflow Bot" /\
        ActivityFactory.serviceUrl activity =
          ActivityFactory.Str (EnvConfig.serviceUrl c) /\
        ActivityFactory.text activity =
          (if decide (message = ActivityFactory.Undefined)
           then ActivityFactory.Str "test" else message)).
  { intros c. eexists. split; [reflexivity|]. simpl.
    repeat split. by destruct message. }
  repeat apply Forall_cons_2; try apply Forall_nil_2; apply Hone.
Qed.


(** ** The code units of a string *)

Section CodeUnits.
Import JS.









(** The surrogate pair of U+1F600 is D83D DE00. *)
Lemma cut_in_a_pair :
  substring_from_0 2
    (String "a" (String (ascii_of_nat 240) (String (ascii_of_nat 159)
       (String (ascii_of_nat 152) (String (ascii_of_nat 128) "b"))))) =
  String "a" (String (ascii_of_nat 237) (String (ascii_of_nat 160)
    (String (ascii_of_nat 189) ""))).
Proof. reflexivity. Qed.
End CodeUnits.

(** ** The arithmetic of doubles *)

Section DoubleFacts.
Import Double.
Local Open Scope Q_scope.

Lemma pow2_pos k : 0 < pow2 k.
Proof. apply Qpower_0_lt. reflexivity. Qed.

Lemma pow2_plus a b : pow2 (a + b) == pow2 a * pow2 b.
Proof. apply Qpower_plus. discriminate. Qed.

Lemma pow2_le a b : (a <= b)%Z -> pow2 a <= pow2 b.
Proof. intros Hab. apply Qpower_le_compat_l; [exact Hab | discriminate]. Qed.

Lemma pow2_le_inv a b : pow2 a <= pow2 b -> (a <= b)%Z.
Proof. intros Hab. apply (Qpower_le_compat_l_inv (inject_Z 2)); [exact Hab | reflexivity]. Qed.

Lemma pow2_Z k : (0 <= k)%Z -> pow2 k == inject_Z (2 ^ k).
Proof. intros Hk. symmetry. apply Zpower_Qpower, Hk. Qed.

Lemma nearest_even_le x m : x <= inject_Z m -> (nearest_even x <= m)%Z.
Proof.
  intros Hx. unfold nearest_even.
  pose proof (Qfloor_le x) as Hfloor.
  assert (Hfm : (Qfloor x <= m)%Z).
  { rewrite <- (Qfloor_Z m). by apply Qfloor_resp_le. }
  destruct (Qcompare_spec (x - inject_Z (Qfloor x)) (1 # 2)) as [Heq|Hlt|Hgt].
  - destruct (Z.even (Qfloor x)); [exact Hfm|].
    destruct (Z.eq_dec (Qfloor x) m) as [Hm|Hm]; [|lia].
    rewrite Hm in Heq. lra.
  - exact Hfm.
  - destruct (Z.eq_dec (Qfloor x) m) as [Hm|Hm]; [|lia].
    rewrite Hm in Hgt. lra.
Qed.

Lemma nearest_even_ge x m : inject_Z m <= x -> (m <= nearest_even x)%Z.
Proof.
  intros Hx. unfold nearest_even.
  assert (Hfm : (m <= Qfloor x)%Z).
  { rewrite <- (Qfloor_Z m). by apply Qfloor_resp_le. }
  destruct (Qcompare (x - inject_Z (Qfloor x)) (1 # 2));
    [destruct (Z.even (Qfloor x))| |]; lia.
Qed.

Lemma round_to_le k q m :
  q <= inject_Z m * pow2 k -> round_to k q <= inject_Z m * pow2 k.
Proof.
  intros Hq. unfold round_to. pose proof (pow2_pos k) as Hpos.
  apply Qmult_le_compat_r; [|lra].
  rewrite <- Zle_Qle. apply nearest_even_le.
  apply Qle_shift_div_r; [exact Hpos | exact Hq].
Qed.

Lemma round_to_ge k q m :
  inject_Z m * pow2 k <= q -> inject_Z m * pow2 k <= round_to k q.
Proof.
  intros Hq. unfold round_to. pose proof (pow2_pos k) as Hpos.
  apply Qmult_le_compat_r; [|lra].
  rewrite <- Zle_Qle. apply nearest_even_ge.
  apply Qle_shift_div_l; [exact Hpos | exact Hq].
Qed.

Lemma pow2_minus a b : pow2 (a - b) * pow2 b == pow2 a.
Proof. rewrite <- pow2_plus. by replace (a - b + b)%Z with a by lia. Qed.

Lemma exponent_lower q : 0 < q -> pow2 (exponent q) <= q.
Proof.
  intros Hq. unfold exponent.
  set (a := Z.log2 (Qnum q)). set (b := Z.log2 (Zpos (Qden q))).
  destruct (Qle_bool (pow2 (a - b)) q) eqn:Hle; [by apply Qle_bool_iff|].
  assert (Hn : (0 < Qnum q)%Z).
  { destruct q as [n d]. unfold Qlt in Hq. simpl in *. lia. }
  pose proof (Z.log2_spec (Qnum q) Hn) as [Hna _].
  pose proof (Z.log2_spec (Zpos (Qden q)) (Pos2Z.is_pos _)) as [_ Hdb].
  pose proof (Z.log2_nonneg (Qnum q)) as Ha.
  pose proof (Z.log2_nonneg (Zpos (Qden q))) as Hb.
  fold a in Hna, Ha. fold b in Hdb, Hb.
  apply (Qmult_le_r _ _ (pow2 (Z.succ b))); [apply pow2_pos|].
  replace (a - b - 1)%Z with (a - Z.succ b)%Z by lia.
  rewrite pow2_minus, (pow2_Z a), (pow2_Z (Z.succ b)) by lia.
  destruct q as [n d]. unfold Qle, Qmult, inject_Z. simpl in *.
  rewrite Z.mul_1_r, Pos.mul_1_r. nia.
Qed.

Lemma exponent_upper q : 0 < q -> q < pow2 (exponent q + 1).
Proof.
  intros Hq. unfold exponent.
  set (a := Z.log2 (Qnum q)). set (b := Z.log2 (Zpos (Qden q))).
  assert (Hn : (0 < Qnum q)%Z).
  { destruct q as [n d]. unfold Qlt in Hq. simpl in *. lia. }
  pose proof (Z.log2_spec (Qnum q) Hn) as [_ Hna].
  pose proof (Z.log2_spec (Zpos (Qden q)) (Pos2Z.is_pos _)) as [Hdb _].
  pose proof (Z.log2_nonneg (Qnum q)) as Ha.
  pose proof (Z.log2_nonneg (Zpos (Qden q))) as Hb.
  fold a in Hna, Ha. fold b in Hdb, Hb.
  destruct (Qle_bool (pow2 (a - b)) q) eqn:Hle.
  - apply (Qmult_lt_r _ _ (pow2 b)); [apply pow2_pos|].
    replace (a - b + 1)%Z with (Z.succ a - b)%Z by lia.
    rewrite pow2_minus, (pow2_Z (Z.succ a)), (pow2_Z b) by lia.
    destruct q as [n d]. unfold Qlt, Qmult, inject_Z. simpl in *.
    rewrite Z.mul_1_r, Pos.mul_1_r. nia.
  - replace (a - b - 1 + 1)%Z with (a - b)%Z by lia.
    apply Qnot_le_lt. intros Habs. apply Qle_bool_iff in Habs. congruence.
Qed.

(** A multiple of a power of two that is at least the unit in the last
    place of [q] bounds the rounded [q] as it bounds [q]. *)
Lemma grid_multiple k j m :
  (k <= j)%Z -> inject_Z m * pow2 j == inject_Z (m * 2 ^ (j - k)) * pow2 k.
Proof.
  intros Hkj. rewrite inject_Z_mult, <- (pow2_Z (j - k)) by lia.
  rewrite <- Qmult_assoc, pow2_minus. reflexivity.
Qed.

Lemma round_le q j m :
  0 < q -> (ulp_exponent q <= j)%Z ->
  q <= inject_Z m * pow2 j -> round q <= inject_Z m * pow2 j.
Proof.
  intros Hq Hj Hbound. unfold round.
  destruct (Qcompare_spec q 0) as [Heq|Hlt|_]; [lra | lra |].
  rewrite (grid_multiple _ _ m Hj) in Hbound |- *.
  by apply round_to_le.
Qed.

Lemma round_ge q j m :
  0 < q -> (ulp_exponent q <= j)%Z ->
  inject_Z m * pow2 j <= q -> inject_Z m * pow2 j <= round q.
Proof.
  intros Hq Hj Hbound. unfold round.
  destruct (Qcompare_spec q 0) as [Heq|Hlt|_]; [lra | lra |].
  rewrite (grid_multiple _ _ m Hj) in Hbound |- *.
  by apply round_to_ge.
Qed.

Lemma ulp_exponent_le_one q : 0 < q -> q <= 1 -> (ulp_exponent q <= -1)%Z.
Proof.
  intros Hq Hone. pose proof (exponent_lower q Hq) as Hlow.
  assert (Hexp : (exponent q <= 0)%Z).
  { apply pow2_le_inv. change (pow2 0) with 1. lra. }
  unfold ulp_exponent. lia.
Qed.

(** Rounding keeps a number of [[0, 1/2]] in that interval, and a
    number of [[1/2, 1]] in that one: 0, 1/2 and 1 are doubles. *)
Lemma round_lower_half q : 0 <= q -> q <= 1 # 2 -> 0 <= round q /\ round q <= 1 # 2.
Proof.
  intros Hq Hhalf.
  destruct (Qlt_le_dec 0 q) as [Hpos|Hzero].
  - pose proof (ulp_exponent_le_one q Hpos ltac:(lra)) as Hulp.
    split.
    + pose proof (round_ge q (-1) 0 Hpos Hulp) as Hge.
      change (inject_Z 0 * pow2 (-1)) with (0 * (1 # 2)) in Hge. lra.
    + pose proof (round_le q (-1) 1 Hpos Hulp) as Hle.
      change (inject_Z 1 * pow2 (-1)) with (1 * (1 # 2)) in Hle. lra.
  - unfold round.
    destruct (Qcompare_spec q 0) as [Heq|Hlt|Hgt];
      [| exfalso | exfalso]; lra.
Qed.

Lemma round_upper_half q :
  1 # 2 <= q -> q <= 1 -> 1 # 2 <= round q /\ round q <= 1.
Proof.
  intros Hhalf Hone.
  assert (Hpos : 0 < q) by lra.
  pose proof (ulp_exponent_le_one q Hpos Hone) as Hulp.
  split.
  - pose proof (round_ge q (-1) 1 Hpos Hulp) as Hge.
    change (inject_Z 1 * pow2 (-1)) with (1 * (1 # 2)) in Hge. lra.
  - pose proof (round_le q 0 1 Hpos ltac:(lia)) as Hle.
    change (inject_Z 1 * pow2 0) with (1 * 1) in Hle. lra.
Qed.

(** [Math.random() * 0.5 + 0.5] for a [Math.random()] in [[0, 1)]. *)
Lemma half_to_one q :
  0 <= q -> q < 1 ->
  1 # 2 <= add (mul q (1 # 2)) (1 # 2) /\ add (mul q (1 # 2)) (1 # 2) <= 1.
Proof.
  intros H0 H1. unfold add, mul.
  destruct (round_lower_half (q * (1 # 2))) as [Hl Hu]; [lra | lra |].
  apply round_upper_half; lra.
Qed.

(** The model rounds one tenth to the double nearest to it. *)
Lemma round_one_tenth : round (1 # 10) == 3602879701896397 # 36028797018963968.
Proof. vm_compute. reflexivity. Qed.
End DoubleFacts.

(** ** tests/stress-breakpoint.test.js *)

Section Stress.
Import JS K6.

Lemma stress_default env rt r :
  StressBreakpoint.default env rt r =
    (Normal tt,
     (HttpPost (SimpleMessageLoadTestMode.BOT_ENDPOINT env)
               (StressBreakpoint.createActivity env rt
                  (or_else (env !! "TEST_MESSAGE") "stress test"))
               (SimpleMessageLoadTestMode.request_headers env)
               (object_literal [("name", "SendMessage");
                                ("phase", StressBreakpoint.getCurrentPhase rt)])
      :: [ MetricAdd "total_requests" (NumValue (inject_Z 1));
           MetricAdd "response_time_trend" (NumValue (duration r)) ] ++
      (check r SimpleMessageLoadTestMode.checks).2 ++
      [ MetricAdd "success_rate" (BoolValue (SimpleMessageLoadTestMode.success r));
        MetricAdd "errors" (BoolValue (negb (SimpleMessageLoadTestMode.success r))) ] ++
      (if negb (SimpleMessageLoadTestMode.success r)
       then [ConsoleError
               (StressBreakpoint.failure_message
                  (StressBreakpoint.getCurrentPhase rt) r)]
       else []) ++
      [Sleep (StressOptions.think_time rt)])%list).
Proof.
  unfold StressBreakpoint.default, SimpleMessageLoadTestMode.success.
  by rewrite load_test_mode_check.
Qed.

Lemma added_app m evs1 evs2 :
  added m (evs1 ++ evs2) = (added m evs1 ++ added m evs2)%list.
Proof. apply omap_app. Qed.

Lemma filter_requests_checks r cs : List.filter is_request (check r cs).2 = [].
Proof.
  pose proof (check_events r cs) as Hall.
  induction Hall as [|e evs (name & passed & ->) _ IH]; [done|]. exact IH.
Qed.
End Stress.

(** X13: the think time of a stress-test iteration is the last thing
    the iteration does.  It is [Math.random() * 0.5 + 0.5] in double
    arithmetic and lies between half a second and one second, both
    included, for every value of [Math.random()] from 0 (included) to 1
    (excluded): the largest such double, 1 - 2^-53, gives exactly one
    second. *)
Theorem stress_think_time_is_half_to_one_second
    (env : gmap string string) (rt : K6.Runtime) (response : K6.Response) :
  Qle 0 (K6.random rt) -> Qlt (K6.random rt) 1 ->
  exists seconds,
    last (StressBreakpoint.default env rt response).2 = Some (K6.Sleep seconds) /\
    seconds = Double.round (Qplus (Double.round (Qmult (K6.random rt) (Qmake 1 2)))
                                  (Qmake 1 2)) /\
    Qle (Qmake 1 2) seconds /\ Qle seconds 1 /\
    (K6.random rt = Qmake 9007199254740991 9007199254740992 -> Qeq seconds 1).
Proof.
  intros Hlow Hhigh. exists (StressOptions.think_time rt). split.
  - rewrite stress_default. cbn [snd].
    rewrite app_comm_cons, !app_assoc. apply last_snoc.
  - split; [reflexivity|]. unfold StressOptions.think_time.
    destruct (half_to_one (K6.random rt) Hlow Hhigh) as [Hge Hle].
    split; [exact Hge|]. split; [exact Hle|].
    intros ->. vm_compute. reflexivity.
Qed.

Lemma stress_think_time_is_half_to_one_second_witness :
  exists seconds,
    last (StressBreakpoint.default ∅ Examples.k6_runtime Examples.accepted).2 =
      Some (K6.Sleep seconds) /\
    Qle (Qmake 1 2) seconds /\ Qle seconds 1.
Proof.
  destruct (stress_think_time_is_half_to_one_second ∅ Examples.k6_runtime
              Examples.accepted) as (seconds & Hlast & _ & Hge & Hle & _);
    [vm_compute; discriminate | vm_compute; reflexivity |].
  exists seconds. split; [exact Hlast|]. split; [exact Hge | exact Hle].
Defined.

(** X14: for every response an iteration of the stress test returns
    normally, sends exactly one request, counts it once in
    [total_requests], adds the response time once to
    [response_time_trend], and adds opposite values to [success_rate]
    and [errors]: exactly one of the two Rates receives [true]. *)
Theorem stress_iteration_records_each_metric_once
    (env : gmap string string) (rt : K6.Runtime) (response : K6.Response) :
  let result := StressBreakpoint.default env rt response in
  result.1 = JS.Normal tt
  /\ length (List.filter K6.is_request result.2) = 1%nat
  /\ K6.added "total_requests" result.2 = [K6.NumValue (inject_Z 1)]
  /\ K6.added "response_time_trend" result.2 =
       [K6.NumValue (K6.duration response)]
  /\ (exists passed,
        K6.added "success_rate" result.2 = [K6.BoolValue passed] /\
        K6.added "errors" result.2 = [K6.BoolValue (negb passed)] /\
        passed =
          ((K6.status response =? 200) || (K6.status response =? 202)) &&
          K6.lt_ms (K6.duration response) 10000).
Proof.
  intros result. subst result. rewrite stress_default. cbn [fst snd].
  split; [done|]. split; [|split; [|split]].
  - cbn [List.filter K6.is_request length]. f_equal.
    rewrite !List.filter_app, filter_requests_checks.
    by destruct (negb (SimpleMessageLoadTestMode.success response)).
  - change (K6.added ?m (K6.HttpPost ?u ?p ?h ?t :: ?l)) with (K6.added m l).
    rewrite !added_app, added_checks.
    by destruct (negb (SimpleMessageLoadTestMode.success response)).
  - change (K6.added ?m (K6.HttpPost ?u ?p ?h ?t :: ?l)) with (K6.added m l).
    rewrite !added_app, added_checks.
    by destruct (negb (SimpleMessageLoadTestMode.success response)).
  - exists (SimpleMessageLoadTestMode.success response). split; [|split].
    + change (K6.added ?m (K6.HttpPost ?u ?p ?h ?t :: ?l)) with (K6.added m l).
      rewrite !added_app, added_checks.
      by destruct (negb (SimpleMessageLoadTestMode.success response)).
    + change (K6.added ?m (K6.HttpPost ?u ?p ?h ?t :: ?l)) with (K6.added m l).
      rewrite !added_app, added_checks.
      by destruct (negb (SimpleMessageLoadTestMode.success response)).
    + unfold SimpleMessageLoadTestMode.success.
      rewrite load_test_mode_check. cbn [fst]. by rewrite andb_true_r.
Qed.



(** X16: the phase label of the stress test follows the plateaus of its
    [options.stages]: the targets held for a minute are 5, 10, 25, 50,
    75, 100, 150 and 200, and a virtual user whose number is at most
    200 is tagged with the phase of the first plateau whose target
    reaches that number. *)
Theorem stress_phase_is_first_plateau_reaching_vu (rt : K6.Runtime) :
  K6.vu rt <= 200 ->
  StressOptions.plateaus = [5; 10; 25; 50; 75; 100; 150; 200]
  /\ exists k,
       StressOptions.phases !! k = Some (StressBreakpoint.getCurrentPhase rt) /\
       forall j target,
         StressOptions.plateaus !! j = Some target ->
         (K6.vu rt <= target <-> (k <= j)%nat).
Proof.
  intros Hmax. split; [reflexivity|].
  unfold StressBreakpoint.getCurrentPhase.
  assert (Hplateaus : StressOptions.plateaus = [5; 10; 25; 50; 75; 100; 150; 200])
    by reflexivity.
  rewrite Hplateaus.
  destruct (Z.leb_spec (K6.vu rt) 5);
    [exists 0%nat|destruct (Z.leb_spec (K6.vu rt) 10);
    [exists 1%nat|destruct (Z.leb_spec (K6.vu rt) 25);
    [exists 2%nat|destruct (Z.leb_spec (K6.vu rt) 50);
    [exists 3%nat|destruct (Z.leb_spec (K6.vu rt) 75);
    [exists 4%nat|destruct (Z.leb_spec (K6.vu rt) 100);
    [exists 5%nat|destruct (Z.leb_spec (K6.vu rt) 150);
    [exists 6%nat|exists 7%nat]]]]]]];
    (split; [reflexivity|]);
    intros j target Hj;
    do 8 (destruct j as [|j]; [injection Hj as <-; lia|]);
    discriminate Hj.
Qed.

Lemma stress_phase_is_first_plateau_reaching_vu_witness :
  K6.vu Examples.k6_runtime <= 200 /\
  StressOptions.phases !! 0%nat =
    Some (StressBreakpoint.getCurrentPhase Examples.k6_runtime).
Proof.
  assert (Hmax : K6.vu Examples.k6_runtime <= 200) by (simpl; lia).
  split; [exact Hmax|].
  destruct (stress_phase_is_first_plateau_reaching_vu Examples.k6_runtime Hmax)
    as (_ & k & Hphase & Hfirst).
  assert (Hk : (k <= 0)%nat) by (apply (Hfirst 0%nat 5); [reflexivity | simpl; lia]).
  assert (k = 0%nat) as -> by lia. exact Hphase.
Defined.


(** ** tests/smoke.test.js *)

Section Replace.
Import K6.
Variables pattern replacement : string.

Lemma prefix_split s :
  String.prefix pattern s = true ->
  s = pattern ++ substring (String.length pattern)
                  (String.length s - String.length pattern) s.
Proof.
  revert s. induction pattern as [|c p IH]; intros s Hprefix.
  - simpl. change ("" ++ ?t) with t. rewrite Nat.sub_0_r.
    clear. induction s as [|c s IH]; simpl; [done|]. by rewrite <- IH.
  - destruct s as [|c' s]; [discriminate Hprefix|]. simpl in Hprefix.
    destruct (ascii_dec c c') as [->|]; [|discriminate Hprefix].
    change (String c' p ++ ?t) with (String c' (p ++ t)). simpl.
    f_equal. by apply IH.
Qed.

Lemma prefix_append post : String.prefix pattern (pattern ++ post) = true.
Proof.
  induction pattern as [|c p IH].
  - by destruct post.
  - change (String c p ++ post) with (String c (p ++ post)). simpl.
    destruct (ascii_dec c c); [exact IH | done].
Qed.

Lemma replace_unfold s :
  replace pattern replacement s =
    if String.prefix pattern s
    then replacement ++ substring (String.length pattern)
                          (String.length s - String.length pattern) s
    else match s with
         | EmptyString => EmptyString
         | String c s' => String c (replace pattern replacement s')
         end.
Proof. by destruct s. Qed.

Lemma includes_unfold s :
  JS.includes pattern s =
    String.prefix pattern s ||
    match s with
    | EmptyString => false
    | String _ s' => JS.includes pattern s'
    end.
Proof. by destruct s. Qed.

Lemma replace_absent s :
  JS.includes pattern s = false -> replace pattern replacement s = s.
Proof.
  induction s as [|c s IH]; rewrite includes_unfold, replace_unfold;
    intros Habsent; apply orb_false_iff in Habsent as [Hprefix Hrest];
    rewrite Hprefix; [done|].
  f_equal. by apply IH.
Qed.

Lemma replace_first s :
  JS.includes pattern s = true ->
  exists pre post,
    s = pre ++ pattern ++ post /\
    replace pattern replacement s = pre ++ replacement ++ post /\
    forall pre' post',
      s = pre' ++ pattern ++ post' -> (String.length pre <= String.length pre')%nat.
Proof.
  assert (Hhere : forall s, String.prefix pattern s = true ->
    exists pre post,
      s = pre ++ pattern ++ post /\
      replace pattern replacement s = pre ++ replacement ++ post /\
      forall pre' post',
        s = pre' ++ pattern ++ post' ->
        (String.length pre <= String.length pre')%nat).
  { intros s' Hprefix.
    exists "", (substring (String.length pattern)
                  (String.length s' - String.length pattern) s').
    change ("" ++ ?t) with t. split; [by apply prefix_split|].
    split; [by rewrite replace_unfold, Hprefix | simpl; lia]. }
  induction s as [|c s IH]; rewrite includes_unfold; intros Hincludes.
  - rewrite orb_false_r in Hincludes. by apply Hhere.
  - destruct (String.prefix pattern (String c s)) eqn:Hprefix;
      [by apply Hhere|].
    simpl in Hincludes. destruct (IH Hincludes) as (pre & post & Hs & Hr & Hmin).
    exists (String c pre), post.
    change (String c pre ++ ?t) with (String c (pre ++ t)).
    split; [by rewrite <- Hs|].
    split; [by rewrite replace_unfold, Hprefix, Hr|].
    intros [|c' pre'] post' Hs'.
    + change ("" ++ ?t) with t in Hs'. rewrite Hs', prefix_append in Hprefix.
      discriminate Hprefix.
    + change (String c' pre' ++ ?t) with (String c' (pre' ++ t)) in Hs'.
      injection Hs' as _ Hs'. specialize (Hmin _ _ Hs'). simpl. lia.
Qed.

Lemma replace_nonempty s :
  s <> "" -> replacement <> "" -> replace pattern replacement s <> "".
Proof.
  intros Hs Hr. rewrite replace_unfold. destruct s as [|c s]; [done|].
  destruct (String.prefix pattern (String c s)); [|done].
  destruct replacement; [done|].
  by change (String ?a ?r ++ ?t) with (String a (r ++ t)).
Qed.
End Replace.

Section SmokeFacts.
Import JS K6.

Lemma smoke_check r :
  check r Smoke.checks =
    (Normal (negb (status r =? 0) &&
             (((status r =? 200) || (status r =? 202)) &&
              (negb (status r =? 401) &&
               (negb (status r =? 403) &&
                (negb (status r =? 500) &&
                 (lt_ms (duration r) 5000 && true)))))),
     [ Check "endpoint is reachable" (negb (status r =? 0));
       Check "status is 200 or 202" ((status r =? 200) || (status r =? 202));
       Check "status is not 401 (auth OK)" (negb (status r =? 401));
       Check "status is not 403 (forbidden)" (negb (status r =? 403));
       Check "status is not 500 (server error)" (negb (status r =? 500));
       Check "response time < 5s" (lt_ms (duration r) 5000) ]).
Proof. reflexivity. Qed.

Lemma smoke_checks_reduce (s : Z) (fast : bool) :
  negb (s =? 0) &&
  (((s =? 200) || (s =? 202)) &&
   (negb (s =? 401) && (negb (s =? 403) && (negb (s =? 500) && (fast && true))))) =
  ((s =? 200) || (s =? 202)) && fast.
Proof.
  destruct (Z.eqb_spec s 200) as [->|]; [by destruct fast|].
  destruct (Z.eqb_spec s 202) as [->|]; [by destruct fast|].
  simpl. by rewrite andb_false_r.
Qed.
End SmokeFacts.

(** X17: the six checks of the smoke test never throw, and they pass
    together exactly when the status is 200 or 202 and the response
    took less than 5 seconds: the checks on 0, 401, 403 and 500 are
    implied by the check on 200 or 202.  The smoke test returns
    normally for every pair of responses. *)
Theorem smoke_checks_pass_iff_accepted_in_time
    (env : gmap string string) (config : Smoke.Config) (rt : K6.Runtime)
    (healthResponse response : K6.Response) :
  (exists checked,
      K6.check response Smoke.checks =
        (JS.Normal (((K6.status response =? 200) || (K6.status response =? 202)) &&
                    K6.lt_ms (K6.duration response) 5000),
         checked) /\
      length checked = 6%nat)
  /\ (Smoke.default env config rt healthResponse response).1 = JS.Normal tt.
Proof.
  split.
  - eexists. rewrite smoke_check, smoke_checks_reduce. split; reflexivity.
  - unfold Smoke.default. by rewrite smoke_check.
Qed.

(** Which lines the status report of the smoke test holds. *)
Lemma smoke_status_report_lines (r : K6.Response) :
  let report := Smoke.report_status r in
  let s := K6.status r in
  (K6.ConsoleLog "✓ Message sent successfully" ∈ report <-> s = 200 \/ s = 202)
  /\ ((exists m, K6.ConsoleError m ∈ report) <->
      s = 401 \/ s = 403 \/ s = 404 \/ 500 <= s)
  /\ ((exists m, K6.ConsoleWarn m ∈ report) <->
      s <> 200 /\ s <> 202 /\ s <> 401 /\ s <> 403 /\ s <> 404 /\ s < 500)
  /\ (K6.ConsoleError ("Response body: " ++ Smoke.body_text r) ∈ report <-> 500 <= s).
Proof.
  intros report s. subst report s. unfold Smoke.report_status.
  rewrite Z.geb_leb.
  destruct (Z.eqb_spec (K6.status r) 401) as [H401|H401];
    [|destruct (Z.eqb_spec (K6.status r) 403) as [H403|H403];
      [|destruct (Z.eqb_spec (K6.status r) 404) as [H404|H404];
        [|destruct (Z.leb_spec 500 (K6.status r)) as [H500|H500];
          [|destruct (Z.eqb_spec (K6.status r) 200) as [H200|H200];
            [|destruct (Z.eqb_spec (K6.status r) 202) as [H202|H202]]]]]];
    cbn [orb]; (split; [|split; [|split]]); (split; intros Hin); in_events;
    try discriminate; try lia;
    try (by apply list_elem_of_here);
    try (by apply list_elem_of_further, list_elem_of_here);
    try (by eexists; apply list_elem_of_here).
Qed.

(** X18: the status report of the smoke test announces success exactly
    for 200 and 202, reports an error exactly for 401, 403, 404 and
    every status from 500 on, and warns about an unexpected status in
    every other case; the response body is shown only from 500 on and
    for an unexpected status, as the second line of the report. *)
Theorem smoke_status_report_classifies (r : K6.Response) :
  let report := Smoke.report_status r in
  let s := K6.status r in
  let body := match K6.body r with Some text => text | None => "null" end in
  (K6.ConsoleLog "✓ Message sent successfully" ∈ report <-> s = 200 \/ s = 202)
  /\ ((exists m, K6.ConsoleError m ∈ report) <->
      s = 401 \/ s = 403 \/ s = 404 \/ 500 <= s)
  /\ ((exists m, K6.ConsoleWarn m ∈ report) <->
      s <> 200 /\ s <> 202 /\ s <> 401 /\ s <> 403 /\ s <> 404 /\ s < 500)
  /\ (K6.ConsoleError ("Response body: " ++ body) ∈ report <-> 500 <= s)
  /\ (s = 401 ->
      report = [K6.ConsoleError "❌ Authentication failed - Check your BOT_TOKEN"])
  /\ (s = 403 ->
      report =
        [K6.ConsoleError "❌ Forbidden - Check bot permissions and credentials"])
  /\ (s = 404 -> report = [K6.ConsoleError "❌ Not Found - Check the endpoint URL"])
  /\ (500 <= s ->
      report = [ K6.ConsoleError "❌ Server error - Check bot application logs";
                 K6.ConsoleError ("Response body: " ++ body) ])
  /\ (s = 200 \/ s = 202 -> report = [K6.ConsoleLog "✓ Message sent successfully"])
  /\ (s <> 200 /\ s <> 202 /\ s <> 401 /\ s <> 403 /\ s <> 404 /\ s < 500 ->
      report = [ K6.ConsoleWarn ("⚠ Unexpected status: " ++ pretty s);
                 K6.ConsoleWarn ("Response body: " ++ body) ]).
Proof.
  intros report s body. subst report s body.
  destruct (smoke_status_report_lines r) as (Hlog & Herror & Hwarn & Hbody).
  split; [exact Hlog|]. split; [exact Herror|]. split; [exact Hwarn|].
  split; [exact Hbody|].
  unfold Smoke.report_status. rewrite Z.geb_leb.
  destruct (Z.eqb_spec (K6.status r) 401) as [H401|H401];
    [|destruct (Z.eqb_spec (K6.status r) 403) as [H403|H403];
      [|destruct (Z.eqb_spec (K6.status r) 404) as [H404|H404];
        [|destruct (Z.leb_spec 500 (K6.status r)) as [H500|H500];
          [|destruct (Z.eqb_spec (K6.status r) 200) as [H200|H200];
            [|destruct (Z.eqb_spec (K6.status r) 202) as [H202|H202]]]]]];
    cbn [orb]; repeat split; intros Hclass; try reflexivity; lia.
Qed.

Lemma to_health_truthy (o : JS.ostring) :
  JS.truthy (Smoke.to_health <$> o) = JS.truthy o.
Proof.
  destruct o as [s|]; [|done]. simpl.
  destruct (String.eqb_spec s "") as [->|Hs]; [done|].
  pose proof (replace_nonempty "/api/messages" "/api/health" s Hs) as Hr.
  unfold Smoke.to_health.
  destruct (String.eqb_spec (K6.replace "/api/messages" "/api/health" s) "")
    as [Hempty|_]; [|done].
  exfalso. by apply Hr.
Qed.

(** X19: in every configuration the smoke test selects, the health
    endpoint is the message endpoint with its first /api/messages
    replaced by /api/health (the literal of the local default
    included), so the health request is sent exactly when a message
    endpoint is configured. *)
Theorem smoke_health_endpoint_follows_endpoint
    (env : gmap string string) (config : Smoke.Config) :
  Smoke.switch_env env = JS.Normal config ->
  Smoke.healthEndpoint config = Smoke.to_health <$> Smoke.endpoint config
  /\ JS.truthy (Smoke.healthEndpoint config) = JS.truthy (Smoke.endpoint config)
  /\ forall healthResponse,
       List.filter K6.is_request (Smoke.health_check config healthResponse) =
         if JS.truthy (Smoke.endpoint config)
         then [K6.HttpGet (Smoke.to_health (JS.template (Smoke.endpoint config)))]
         else [].
Proof.
  intros Hconfig.
  assert (Hhealth :
    Smoke.healthEndpoint config = Smoke.to_health <$> Smoke.endpoint config).
  { unfold Smoke.switch_env in Hconfig.
    destruct (String.eqb _ "local").
    - injection Hconfig as <-. cbn [Smoke.healthEndpoint Smoke.endpoint].
      destruct (env !! "LOCAL_BOT_ENDPOINT") as [s|]; [|reflexivity].
      simpl. by destruct (String.eqb s "").
    - destruct (String.eqb _ "stage"); [by injection Hconfig as <-|].
      destruct (String.eqb _ "prod"); [by injection Hconfig as <-|].
      discriminate Hconfig. }
  split; [exact Hhealth|].
  assert (Htruthy :
    JS.truthy (Smoke.healthEndpoint config) = JS.truthy (Smoke.endpoint config)).
  { rewrite Hhealth. apply to_health_truthy. }
  split; [exact Htruthy|].
  intros healthResponse. unfold Smoke.health_check. rewrite Htruthy, Hhealth.
  destruct (Smoke.endpoint config) as [s|]; [|done]. simpl.
  destruct (String.eqb s ""); [done|]. simpl.
  by destruct (K6.status healthResponse =? 200).
Qed.

Lemma smoke_health_endpoint_follows_endpoint_witness :
  Smoke.switch_env ∅ = JS.Normal Examples.smoke_local
  /\ Smoke.healthEndpoint Examples.smoke_local =
       Smoke.to_health <$> Smoke.endpoint Examples.smoke_local.
Proof.
  split; [vm_compute; reflexivity|].
  apply (smoke_health_endpoint_follows_endpoint ∅). vm_compute. reflexivity.
Defined.

(** X20: the health URL the smoke test derives from a bot URL is the
    bot URL itself when
    the bot URL does not contain /api/messages; otherwise exactly the
    first occurrence of /api/messages is replaced by /api/health and
    everything before and after it is kept. *)
Theorem health_url_replaces_first_occurrence (url : string) :
  (JS.includes "/api/messages" url = false -> Smoke.to_health url = url)
  /\ (JS.includes "/api/messages" url = true ->
      exists pre post,
        url = pre ++ "/api/messages" ++ post /\
        Smoke.to_health url = pre ++ "/api/health" ++ post /\
        forall pre' post',
          url = pre' ++ "/api/messages" ++ post' ->
          (String.length pre <= String.length pre')%nat).
Proof.
  split; intros Hincludes.
  - by apply replace_absent.
  - by apply replace_first.
Qed.


(** ** tests/simple-message.test.js: the requests of a run *)

Lemma simple_message_requests env config rt response :
  List.filter K6.is_request (SimpleMessage.default env config rt response).2 =
    [ K6.HttpPost (JS.template (SimpleMessage.endpoint config))
        (SimpleMessage.createActivity env config rt
           (JS.or_else (env !! "TEST_MESSAGE") "test"))
        (SimpleMessage.request_headers config)
        (JS.object_literal [("name", "SendMessage")]) ].
Proof.
  unfold SimpleMessage.default.
  pose proof (filter_requests_checks response SimpleMessage.checks) as Hchecks.
  destruct (K6.check response SimpleMessage.checks) as [[passed|m] evs];
    cbn [fst snd] in *.
  - change (List.filter K6.is_request (?p :: ?l)) with (p :: List.filter K6.is_request l).
    rewrite !List.filter_app, Hchecks. by destruct (negb passed).
  - change (List.filter K6.is_request (?p :: ?l)) with (p :: List.filter K6.is_request l).
    by rewrite Hchecks.
Qed.

(** X21: a run of the simple-message test whose configuration loads
    sends exactly one request per iteration, in order: a POST to the
    configured endpoint with the configured headers and the tag
    SendMessage.  Configuration loading, setup and teardown send no
    request, and a run never sends a GET. *)
Theorem simple_message_run_posts_once_per_iteration
    (env : gmap string string) (config : SimpleMessage.Config)
    (warnings : list K6.Event) (inputs : list (K6.Runtime * K6.Response))
    (last : K6.Runtime) (elapsed : Q) :
  SimpleMessage.init env = (JS.Normal config, warnings) ->
  List.filter K6.is_request (SimpleMessage.run env inputs last elapsed).2 =
    map (fun i =>
           K6.HttpPost (JS.template (SimpleMessage.endpoint config))
             (SimpleMessage.createActivity env config i.1
                (JS.or_else (env !! "TEST_MESSAGE") "test"))
             (SimpleMessage.request_headers config)
             (JS.object_literal [("name", "SendMessage")])) inputs.
Proof.
  intros Hinit. unfold SimpleMessage.run. rewrite Hinit. cbn [snd].
  assert (Hwarnings : List.filter K6.is_request warnings = []).
  { unfold SimpleMessage.init in Hinit.
    destruct (SimpleMessage.switch_env env) as [c|m]; [|discriminate Hinit].
    destruct (negb (JS.truthy (SimpleMessage.endpoint c))); [discriminate Hinit|].
    injection Hinit as _ <-. by destruct (negb (JS.truthy (SimpleMessage.token c))). }
  rewrite !List.filter_app, Hwarnings.
  change (List.filter K6.is_request (SimpleMessage.setup env config)) with (@nil K6.Event).
  change (List.filter K6.is_request (SimpleMessage.teardown last elapsed))
    with (@nil K6.Event).
  rewrite app_nil_r. cbn [app]. unfold SimpleMessage.iterations.
  induction inputs as [|i inputs IH]; [done|].
  cbn [flat_map map]. rewrite List.filter_app, simple_message_requests, IH. done.
Qed.

Lemma simple_message_run_posts_once_per_iteration_witness :
  length (List.filter K6.is_request
            (SimpleMessage.run Examples.env_stage_token
               [(Examples.k6_runtime, Examples.accepted);
                (Examples.k6_runtime, Examples.server_error)]
               Examples.k6_runtime (inject_Z 2)).2) = 2%nat.
Proof.
  erewrite simple_message_run_posts_once_per_iteration;
    [reflexivity | vm_compute; reflexivity].
Defined.


(** ** scripts/verify-setup.js *)

Section VerifySetupFacts.
Import JS VerifySetup.

Lemma effect_ret {A} (a : A) : effect (ret a) a false false [].
Proof. intros [e w o]. unfold ret. cbn. by rewrite !orb_false_r, app_nil_r. Qed.

Lemma effect_bind {A B} (c : M A) (k : A -> M B) a b e e' w w' l l' :
  effect c a e w l -> effect (k a) b e' w' l' ->
  effect (bind c k) b (e || e') (w || w') (l ++ l')%list.
Proof.
  intros Hc Hk st. unfold bind. rewrite Hc, Hk. cbn.
  by rewrite !orb_assoc, app_assoc.
Qed.

Lemma effect_eq {A} (c : M A) a e e' w w' l l' :
  effect c a e w l -> e = e' -> w = w' -> l = l' -> effect c a e' w' l'.
Proof. by intros Hc <- <- <-. Qed.

Lemma bind_run {A B} (c : M A) (k : A -> M B) a e w l st :
  effect c a e w l ->
  bind c k st = k a {| hasErrors := hasErrors st || e;
                       hasWarnings := hasWarnings st || w;
                       out := (out st ++ l)%list |}.
Proof. intros Hc. unfold bind. by rewrite Hc. Qed.

Lemma effect_log line : effect (log line) tt false false [line].
Proof. intros [e w o]. unfold log. cbn. by rewrite !orb_false_r. Qed.

Lemma effect_setError : effect setError tt true false [].
Proof.
  intros [e w o]. unfold setError. cbn. by rewrite orb_true_r, orb_false_r, app_nil_r.
Qed.

Lemma effect_setWarning : effect setWarning tt false true [].
Proof.
  intros [e w o]. unfold setWarning. cbn.
  by rewrite orb_true_r, orb_false_r, app_nil_r.
Qed.

Lemma effect_when (b : bool) c e w l :
  effect c tt e w l -> effect (when b c) tt (b && e) (b && w) (if b then l else []).
Proof. intros Hc. destruct b; [exact Hc | apply effect_ret]. Qed.

Lemma effect_logs lines : effect (logs lines) tt false false lines.
Proof.
  induction lines as [|line lines IH]; [apply effect_ret|].
  exact (effect_bind _ _ _ _ _ _ _ _ _ _ (effect_log line) IH).
Qed.

Lemma effect_printHeader title :
  effect (printHeader title) tt false false
    [ ""; Text.colors.bright ++ Text.colors.cyan ++ title ++ Text.colors.reset;
      K6.rule ].
Proof.
  unfold printHeader.
  eapply effect_eq;
    [ eapply effect_bind; [apply effect_log|];
      eapply effect_bind; [apply effect_log | apply effect_log] | done.. ].
Qed.

Lemma effect_printCheck label passed message :
  exists line,
    effect (printCheck label passed message) tt (negb passed) false
      (line :: if nonempty message
               then ["    " ++ Text.colors.dim ++ message ++ Text.colors.reset]
               else []).
Proof.
  eexists. unfold printCheck.
  eapply effect_eq;
    [ eapply effect_bind; [apply effect_log|];
      eapply effect_bind;
        [ apply effect_when, effect_log | apply effect_when, effect_setError ]
    | by destruct (nonempty message), passed..
    | cbn [app]; f_equal; by destruct (nonempty message), passed ].
Qed.

Lemma effect_printWarning label message :
  exists line,
    effect (printWarning label message) tt false true
      (line :: if nonempty message
               then ["    " ++ Text.colors.dim ++ message ++ Text.colors.reset]
               else []).
Proof.
  eexists. unfold printWarning.
  eapply effect_eq;
    [ eapply effect_bind; [apply effect_log|];
      eapply effect_bind; [ apply effect_when, effect_log | apply effect_setWarning ]
    | by destruct (nonempty message)..
    | cbn [app]; f_equal; by rewrite app_nil_r ].
Qed.

Variable host : Host.

Lemma effect_checkFile filePath label :
  exists lines,
    effect (checkFile host filePath label)
      (existsSync host (fullPath host filePath))
      (negb (existsSync host (fullPath host filePath))) false lines.
Proof.
  unfold checkFile.
  destruct (effect_printCheck label (existsSync host (fullPath host filePath))
              (if existsSync host (fullPath host filePath)
               then fullPath host filePath else "File not found"))
    as [line Hprint].
  eexists.
  eapply effect_eq;
    [ eapply effect_bind; [exact Hprint | apply effect_ret]
    | by rewrite ?orb_false_r.. | reflexivity ].
Qed.

Lemma effect_checkEnvVar varName (required : bool) :
  exists lines,
    effect (checkEnvVar host varName required)
      (truthy (processEnv host !! varName))
      (required && negb (truthy (processEnv host !! varName)))
      (negb required && negb (truthy (processEnv host !! varName))) lines
    /\ length lines = 2%nat.
Proof.
  unfold checkEnvVar.
  destruct required, (truthy (processEnv host !! varName)); cbn [negb andb].
  - destruct (effect_printCheck varName true "Set") as [line Hprint].
    eexists. split;
      [ eapply effect_eq;
          [ eapply effect_bind; [exact Hprint | apply effect_ret] | done.. ]
      | reflexivity ].
  - destruct (effect_printCheck varName false "Missing") as [line Hprint].
    eexists. split;
      [ eapply effect_eq;
          [ eapply effect_bind; [exact Hprint | apply effect_ret] | done.. ]
      | reflexivity ].
  - destruct (effect_printCheck varName true "Set") as [line Hprint].
    eexists. split;
      [ eapply effect_eq;
          [ eapply effect_bind; [exact Hprint | apply effect_ret] | done.. ]
      | reflexivity ].
  - destruct (effect_printWarning varName "Optional but recommended")
      as [line Hprint].
    eexists. split;
      [ eapply effect_eq;
          [ eapply effect_bind; [exact Hprint | apply effect_ret] | done.. ]
      | reflexivity ].
Qed.

Lemma effect_checkFiles files :
  exists lines,
    effect (checkFiles host files) tt
      (negb (forallb (fun f => existsSync host (fullPath host f.1)) files))
      false lines.
Proof.
  induction files as [|[filePath label] files [lines IH]].
  - eexists. apply effect_ret.
  - destruct (effect_checkFile filePath label) as [line Hfile].
    eexists. cbn [checkFiles forallb fst].
    eapply effect_eq;
      [ eapply effect_bind; [exact Hfile | exact IH]
      | by rewrite ?negb_andb | done | reflexivity ].
Qed.

Lemma effect_checkOptional names :
  exists lines,
    effect (checkOptional host names) tt false
      (negb (forallb (fun v => truthy (processEnv host !! v)) names)) lines.
Proof.
  induction names as [|name names [lines IH]].
  - eexists. apply effect_ret.
  - destruct (effect_checkEnvVar name false) as (line & Hvar & _).
    eexists. cbn [checkOptional forallb].
    eapply effect_eq;
      [ eapply effect_bind; [exact Hvar | exact IH]
      | done | by rewrite ?negb_andb | reflexivity ].
Qed.

Lemma effect_checkEnvironmentCredentials env :
  exists lines,
    effect (checkEnvironmentCredentials host env)
      (forallb (fun v => truthy (processEnv host !! v)) (required_variables env))
      (negb (forallb (fun v => truthy (processEnv host !! v))
               (required_variables env)))
      false lines
    /\ length lines = 11%nat.
Proof.
  unfold checkEnvironmentCredentials, required_variables. cbn [map forallb].
  rewrite andb_true_r, !andb_assoc.
  destruct (effect_checkEnvVar (toUpperCase env ++ "_MICROSOFT_APP_ID") true)
    as (l1 & H1 & Hl1).
  destruct (effect_checkEnvVar (toUpperCase env ++ "_MICROSOFT_APP_PASSWORD") true)
    as (l2 & H2 & Hl2).
  destruct (effect_checkEnvVar (toUpperCase env ++ "_MICROSOFT_APP_TENANT_ID") true)
    as (l3 & H3 & Hl3).
  destruct (effect_checkEnvVar (toUpperCase env ++ "_BOT_ENDPOINT") true)
    as (l4 & H4 & Hl4).
  eexists. split.
  - eapply effect_eq.
    + eapply effect_bind; [apply effect_printHeader|].
      eapply effect_bind; [exact H1|].
      eapply effect_bind; [exact H2|].
      eapply effect_bind; [exact H3|].
      eapply effect_bind; [exact H4|]. apply effect_ret.
    + cbn [andb negb orb].
      by destruct (truthy _), (truthy _), (truthy _), (truthy _).
    + done.
    + reflexivity.
  - rewrite !length_app, Hl1, Hl2, Hl3, Hl4. reflexivity.
Qed.

Lemma main_run :
  exists checks,
    let verdict :=
      if negb (complete host) then Errors
      else if all_optional_set host then Ready else Warnings in
    main host initial =
      (verdict,
       {| hasErrors := negb (complete host);
          hasWarnings := negb (all_optional_set host);
          out := (checks ++
                  match verdict with
                  | Errors => errors_summary
                  | Warnings => warnings_summary true
                  | Ready => ready_summary
                  end)%list |}).
Proof.
  destruct (effect_checkFiles required_files) as [lfiles Hfiles].
  assert (Hnode : exists lines,
    effect (printCheck "node_modules"
              (existsSync host (fullPath host "node_modules"))
              (if existsSync host (fullPath host "node_modules")
               then "Dependencies installed" else "Run: npm install")) tt
      (negb (existsSync host (fullPath host "node_modules"))) false lines).
  { destruct (effect_printCheck "node_modules"
                (existsSync host (fullPath host "node_modules"))
                (if existsSync host (fullPath host "node_modules")
                 then "Dependencies installed" else "Run: npm install"))
      as [line H]. eauto. }
  destruct Hnode as [lnode Hnode].
  assert (Hk6 : exists lines,
    effect (match k6Version host with
            | Normal version => printCheck "k6" true version
            | Throw _ =>
                printCheck "k6" false
                  "k6 not found. Install from: https://k6.io/docs/get-started/installation/"
            end) tt
      (negb (match k6Version host with Normal _ => true | Throw _ => false end))
      false lines).
  { destruct (k6Version host) as [version|m].
    - destruct (effect_printCheck "k6" true version) as [line H]. eauto.
    - destruct (effect_printCheck "k6" false
        "k6 not found. Install from: https://k6.io/docs/get-started/installation/")
        as [line H]. eauto. }
  destruct Hk6 as [lk6 Hk6].
  destruct (effect_checkEnvironmentCredentials "local") as (llocal & Hlocal & _).
  destruct (effect_checkEnvironmentCredentials "stage") as (lstage & Hstage & _).
  destruct (effect_checkEnvironmentCredentials "prod") as (lprod & Hprod & _).
  destruct (effect_checkOptional optional_variables) as [loptional Hoptional].
  eexists. unfold main, complete, all_optional_set.
  rewrite (bind_run _ _ _ _ _ _ _ (effect_logs banner));
    cbn [hasErrors hasWarnings out initial].
  rewrite (bind_run _ _ _ _ _ _ _ (effect_printHeader _));
    cbn [hasErrors hasWarnings out initial].
  rewrite (bind_run _ _ _ _ _ _ _ Hfiles);
    cbn [hasErrors hasWarnings out initial].
  rewrite (bind_run _ _ _ _ _ _ _ (effect_printHeader _));
    cbn [hasErrors hasWarnings out initial].
  rewrite (bind_run _ _ _ _ _ _ _ Hnode);
    cbn [hasErrors hasWarnings out initial].
  rewrite (bind_run _ _ _ _ _ _ _ (effect_printHeader _));
    cbn [hasErrors hasWarnings out initial].
  rewrite (bind_run _ _ _ _ _ _ _ Hk6);
    cbn [hasErrors hasWarnings out initial].
  rewrite (bind_run _ _ _ _ _ _ _ Hlocal);
    cbn [hasErrors hasWarnings out initial].
  rewrite (bind_run _ _ _ _ _ _ _ Hstage);
    cbn [hasErrors hasWarnings out initial].
  rewrite (bind_run _ _ _ _ _ _ _ Hprod);
    cbn [hasErrors hasWarnings out initial].
  rewrite (bind_run _ _ _ _ _ _ _ (effect_printHeader _));
    cbn [hasErrors hasWarnings out initial].
  rewrite (bind_run _ _ _ _ _ _ _ Hoptional);
    cbn [hasErrors hasWarnings out initial].
  rewrite (bind_run _ _ _ _ _ _ _ (effect_printHeader _));
    cbn [hasErrors hasWarnings out initial].
  rewrite !forallb_app.
  destruct (forallb _ required_files),
    (existsSync host (fullPath host "node_modules")),
    (match k6Version host with Normal _ => true | Throw _ => false end),
    (forallb _ (required_variables "local")),
    (forallb _ (required_variables "stage")),
    (forallb _ (required_variables "prod")),
    (forallb _ optional_variables);
    cbn [negb andb orb];
    rewrite (bind_run _ _ _ _ _ _ _ (effect_logs _));
    cbn [hasErrors hasWarnings out negb andb orb]; reflexivity.
Qed.

End VerifySetupFacts.

(** X22: the setup verification ends with exit code 1 exactly when a
    required file, node_modules, k6 or one of the twelve required
    environment variables is missing; otherwise it reports warnings
    exactly when one of the four optional variables is unset, and a
    complete setup in every other case. *)
Theorem verify_setup_fails_iff_requirement_missing (host : VerifySetup.Host) :
  let result := VerifySetup.main host VerifySetup.initial in
  (result.1 = VerifySetup.Errors <-> VerifySetup.complete host = false)
  /\ (result.1 = VerifySetup.Warnings <->
      VerifySetup.complete host = true /\ VerifySetup.all_optional_set host = false)
  /\ (result.1 = VerifySetup.Ready <->
      VerifySetup.complete host = true /\ VerifySetup.all_optional_set host = true)
  /\ (VerifySetup.exitCode result.1 = 1 <-> VerifySetup.complete host = false)
  /\ VerifySetup.hasErrors result.2 = negb (VerifySetup.complete host)
  /\ VerifySetup.hasWarnings result.2 = negb (VerifySetup.all_optional_set host).
Proof.
  destruct (main_run host) as [checks Hrun]. cbv zeta in Hrun |- *. rewrite Hrun.
  cbn [fst snd VerifySetup.hasErrors VerifySetup.hasWarnings].
  destruct (VerifySetup.complete host), (VerifySetup.all_optional_set host);
    cbn [negb VerifySetup.exitCode]; repeat split;
    try discriminate; try done; intros []; discriminate.
Qed.


(** X24: the credentials check of the setup verification reports all
    four variables of the environment, whichever are missing: it
    prints eleven lines, returns true exactly when the four are set,
    raises the error flag exactly when it returns false and never
    raises the warning flag. *)
Theorem credentials_check_reports_all_four
    (host : VerifySetup.Host) (env : string) (st : VerifySetup.State) :
  let result := VerifySetup.checkEnvironmentCredentials host env st in
  result.1 =
    forallb (fun v => JS.truthy (VerifySetup.processEnv host !! v))
      (VerifySetup.required_variables env)
  /\ VerifySetup.hasErrors result.2 = VerifySetup.hasErrors st || negb result.1
  /\ VerifySetup.hasWarnings result.2 = VerifySetup.hasWarnings st
  /\ exists lines,
       VerifySetup.out result.2 = (VerifySetup.out st ++ lines)%list /\
       length lines = 11%nat.
Proof.
  destruct (effect_checkEnvironmentCredentials host env) as (lines & Hrun & Hlines).
  cbv zeta. rewrite Hrun.
  cbn [fst snd VerifySetup.hasErrors VerifySetup.hasWarnings VerifySetup.out].
  rewrite orb_false_r. repeat split. exists lines. by rewrite Hrun.
Qed.

(** X25: checking one environment variable returns whether it is set
    to a non-empty value and prints two lines.  A missing required
    variable raises the error flag and never the warning flag; a
    missing optional variable raises the warning flag and never the
    error flag; a variable that is set raises neither. *)
Theorem checkEnvVar_flags_by_requirement
    (host : VerifySetup.Host) (varName : string) (required : bool)
    (st : VerifySetup.State) :
  let result := VerifySetup.checkEnvVar host varName required st in
  let set := JS.truthy (VerifySetup.processEnv host !! varName) in
  result.1 = set
  /\ VerifySetup.hasErrors result.2 =
       VerifySetup.hasErrors st || (required && negb set)
  /\ VerifySetup.hasWarnings result.2 =
       VerifySetup.hasWarnings st || (negb required && negb set)
  /\ exists lines,
       VerifySetup.out result.2 = (VerifySetup.out st ++ lines)%list /\
       length lines = 2%nat.
Proof.
  destruct (effect_checkEnvVar host varName required) as (lines & Hrun & Hlines).
  cbv zeta. rewrite Hrun.
  cbn [fst snd VerifySetup.hasErrors VerifySetup.hasWarnings VerifySetup.out].
  repeat split. exists lines. by rewrite Hrun.
Qed.


(** ** tests/smoke.test.js, LOAD_TEST_MODE version *)

Lemma load_test_mode_smoke_check r :
  K6.check r SmokeLoadTestMode.checks =
    (JS.Normal (negb (K6.status r =? 0) &&
                (((K6.status r =? 200) || (K6.status r =? 202)) &&
                 (K6.lt_ms (K6.duration r) 5000 && true))),
     [ K6.Check "endpoint is reachable" (negb (K6.status r =? 0));
       K6.Check "status is 200 or 202"
         ((K6.status r =? 200) || (K6.status r =? 202));
       K6.Check "response time < 5s" (K6.lt_ms (K6.duration r) 5000) ]).
Proof. reflexivity. Qed.

(** X26: the LOAD_TEST_MODE smoke test returns normally for every pair
    of responses and sends exactly two requests, the GET to the health
    URL and then the POST to the bot URL.  It logs the failure line
    exactly when the status is not 200 or 202 or the response took 5
    seconds or more, and the success line exactly when the status is
    200 or 202: an accepted but slow response gets both lines. *)
Theorem load_test_mode_smoke_reports
    (env : gmap string string) (rt : K6.Runtime)
    (healthResponse response : K6.Response) :
  let result := SmokeLoadTestMode.default env rt healthResponse response in
  let accepted := (K6.status response =? 200) || (K6.status response =? 202) in
  result.1 = JS.Normal tt
  /\ List.filter K6.is_request result.2 =
       [ K6.HttpGet (SmokeLoadTestMode.HEALTH_ENDPOINT env);
         K6.HttpPost (SmokeLoadTestMode.BOT_ENDPOINT env)
           (SmokeLoadTestMode.createActivity env rt "smoke test")
           SmokeLoadTestMode.request_headers ∅ ]
  /\ (K6.ConsoleError "❌ Some checks failed - review the output above" ∈ result.2 <->
      accepted && K6.lt_ms (K6.duration response) 5000 = false)
  /\ (K6.ConsoleLog "✓ Message sent successfully" ∈ result.2 <-> accepted = true).
Proof.
  cbv zeta. unfold SmokeLoadTestMode.default.
  rewrite load_test_mode_smoke_check. cbn [fst snd].
  unfold SmokeLoadTestMode.report_status. rewrite Z.geb_leb.
  split; [reflexivity|].
  split.
  { destruct (K6.status healthResponse =? 200), (K6.status response =? 0),
      ((K6.status response =? 200) || (K6.status response =? 202)),
      (K6.lt_ms (K6.duration response) 5000), (K6.status response =? 404),
      (500 <=? K6.status response); reflexivity. }
  destruct (Z.eqb_spec (K6.status response) 0) as [H0|H0];
    destruct (Z.eqb_spec (K6.status response) 200) as [H200|H200];
    destruct (Z.eqb_spec (K6.status response) 202) as [H202|H202];
    try lia;
    destruct (K6.lt_ms (K6.duration response) 5000);
    destruct (Z.eqb_spec (K6.status response) 404) as [H404|H404];
    try lia;
    destruct (Z.leb_spec 500 (K6.status response)) as [H500|H500];
    try lia;
    destruct (K6.status healthResponse =? 200);
    cbn [negb andb orb app];
    (split; split; intros Hin); in_events; try discriminate;
    rewrite ?elem_of_cons; tauto.
Qed.
